(** * Federated search controller: a shallow embedding

    The development follows [src/api/v1/search/search.controller.ts] (the
    controller with the [best-results] endpoint) and the second controller
    variant with the [all] endpoint (the text that follows the plugin in
    [src/plugins/FastifySupabase.ts]; its single-collection handlers are
    those of the first controller).  JavaScript numbers that carry scores
    are modelled as exact rationals ([Q]); counts, pages and numeric ids as
    [Z]; strings as [string]; the JS [Map] as a [gmap]; the engine and the
    store as oracles of an environment; logging, engine calls and store
    calls as events of a trace. *)

From Stdlib Require Import Ascii String QArith Qround Qminmax Floats.
From stdpp Require Import base option strings pretty gmap fin_maps countable list.

Set Warnings "-inexact-float".

Local Open Scope string_scope.
Local Open Scope list_scope.
Local Open Scope Z_scope.

(** ** JavaScript primitives used by the controller *)

Module Js.

(** The double quote character, used inside log messages. *)
Definition dquote : string := String "034"%char EmptyString.

(** A value that serves as a record id or as an argument of the store's
    [in] filter: a string, an integral number, or [NaN]. *)
Inductive Id :=
| IdStr (s : string)
| IdNum (z : Z)
| IdNaN.

#[global] Instance Id_eq_dec : EqDecision Id.
Proof. solve_decision. Defined.

Definition Id_encode (v : Id) : string + (Z + unit) :=
  match v with
  | IdStr s => inl s
  | IdNum z => inr (inl z)
  | IdNaN => inr (inr tt)
  end.

Definition Id_decode (x : string + (Z + unit)) : Id :=
  match x with
  | inl s => IdStr s
  | inr (inl z) => IdNum z
  | inr (inr _) => IdNaN
  end.

#[global] Instance Id_countable : Countable Id.
Proof.
  refine (inj_countable' Id_encode Id_decode _).
  intros []; reflexivity.
Defined.

#[global] Instance IdStr_inj : Inj (=) (=) IdStr.
Proof. intros a b H. now injection H. Qed.

(** [String(v)]. *)
Definition String_ (v : Id) : string :=
  match v with
  | IdStr s => s
  | IdNum z => pretty z
  | IdNaN => "NaN"
  end.

(** Truthiness of a number and of a string. *)
Definition truthyZ (z : Z) : bool := negb (z =? 0).
Definition truthyQ (q : Q) : bool := negb (Qeq_bool q 0).
Definition truthyStr (s : string) : bool :=
  match s with EmptyString => false | _ => true end.

(** [a || b] on optional numbers: the first operand when it is truthy. *)
Definition orQ (a : option Q) (b : Q) : Q :=
  match a with
  | Some x => if truthyQ x then x else b
  | None => b
  end.

(** White space skipped by [parseInt] and by the string-to-number
    conversion (the ASCII part of it). *)
Definition isSpace (c : ascii) : bool :=
  match c with
  | " "%char | "009"%char | "010"%char | "011"%char | "012"%char | "013"%char => true
  | _ => false
  end.

Definition digitOf (c : ascii) : option Z :=
  let n := Z.of_nat (nat_of_ascii c) in
  if (48 <=? n) && (n <=? 57) then Some (n - 48) else None.

Fixpoint skipSpaces (s : string) : string :=
  match s with
  | String c r => if isSpace c then skipSpaces r else s
  | EmptyString => s
  end.

(** The longest prefix of decimal digits, as a number, with the rest. *)
Fixpoint digitsFrom (acc : option Z) (s : string) : option Z * string :=
  match s with
  | String c r =>
      match digitOf c with
      | Some d => digitsFrom (Some (10 * default 0 acc + d)) r
      | None => (acc, s)
      end
  | EmptyString => (acc, s)
  end.

(** [parseInt(s, 10)]: leading white space, an optional sign, then the
    longest run of digits; [IdNaN] when there is no digit. *)
Definition parseInt (s : string) : Id :=
  let t := skipSpaces s in
  let '(neg, u) :=
    match t with
    | String "-"%char r => (true, r)
    | String "+"%char r => (false, r)
    | _ => (false, t)
    end in
  match fst (digitsFrom None u) with
  | Some n => IdNum (if neg then - n else n)
  | None => IdNaN
  end.

(** String-to-number conversion of the loose equality [n == s], for
    strings that are optionally signed decimal integers with surrounding
    white space (the empty string converts to 0).  Fractions, exponents
    and radix prefixes are not modelled and convert to [None] here; the
    ids the engine hands back are decimal renderings of integer keys. *)
Definition toNumber (s : string) : option Z :=
  let t := skipSpaces s in
  match t with
  | EmptyString => Some 0
  | _ =>
      let '(neg, u) :=
        match t with
        | String "-"%char r => (true, r)
        | String "+"%char r => (false, r)
        | _ => (false, t)
        end in
      match digitsFrom None u with
      | (Some n, rest) =>
          match skipSpaces rest with
          | EmptyString => Some (if neg then - n else n)
          | _ => None
          end
      | (None, _) => None
      end
  end.

(** [v == s] for a record id [v] and a string [s]. *)
Definition looseEq (v : Id) (s : string) : bool :=
  match v with
  | IdStr t => bool_decide (t = s)
  | IdNum z => bool_decide (toNumber s = Some z)
  | IdNaN => false
  end.

(** [xs.join(sep)]. *)
Fixpoint join (sep : string) (xs : list string) : string :=
  match xs with
  | [] => ""
  | [x] => x
  | x :: rest => x +:+ sep +:+ join sep rest
  end.

(** A JS number that results from [Math.ceil(a / b)] on integers. *)
Inductive Num :=
| Fin (z : Z)
| NaN
| PosInf
| NegInf.

(** [Math.ceil(a / b)] for integral [a] and [b]: the quotient is taken in
    exact arithmetic. *)
Definition ceilDiv (a b : Z) : Num :=
  if b =? 0 then
    (if a =? 0 then NaN else if 0 <? a then PosInf else NegInf)
  else Fin (Qceiling (inject_Z a / inject_Z b)).

End Js.

(** ** Engine data ([src/types/Typesense.ts]) *)

(** The document type the multi-search results are read at:
    [{ id: string, popularity?: number, followers_count?: number,
       likes_count?: number }]. *)
Record Doc := {
  doc_id : string;
  popularity : option Q;
  followers_count : option Q;
  likes_count : option Q;
}.

Record TypesenseHit := {
  document : Doc;
  text_match : option Q;
}.

Record TypesenseSearchResult := {
  hits : option (list TypesenseHit);
  found : Z;
  res_per_page : Z;
}.

(** ** Best-result selection (the loop of [searchBestResult] and [searchAll]) *)

Module Best.

Record Meta := {
  type : string;
  id : string;
  score : Q;
}.

Definition Qltb (a b : Q) : bool := negb (Qle_bool b a).

(** [a || b] where both operands may be undefined. *)
Definition orOpt (a b : option Q) : option Q :=
  match a with
  | Some x => if Js.truthyQ x then a else b
  | None => b
  end.

(** [h.text_match || 0] *)
Definition textScore (h : TypesenseHit) : Q := Js.orQ (text_match h) 0.

(** [doc.popularity || doc.followers_count || doc.likes_count || 0] *)
Definition popularityMetric (doc : Doc) : Q :=
  Js.orQ (orOpt (orOpt (popularity doc) (followers_count doc)) (likes_count doc)) 0.

(** [result.hits?.[0]] *)
Definition firstHit (r : TypesenseSearchResult) : option TypesenseHit :=
  match hits r with
  | Some (h :: _) => Some h
  | _ => None
  end.

Definition Candidate : Type := string * option TypesenseHit.

Definition potentialBest
    (moviesResult tvSeriesResult personsResult usersResult playlistsResult
      : TypesenseSearchResult) : list Candidate :=
  [ ("movie", firstHit moviesResult);
    ("tv_series", firstHit tvSeriesResult);
    ("person", firstHit personsResult);
    ("user", firstHit usersResult);
    ("playlist", firstHit playlistsResult) ].

(** [potentialBest.map(c => c.hit).filter(Boolean)] *)
Definition allHits (cs : list Candidate) : list TypesenseHit := omap snd cs.

(** [Math.max(...xs, 1)] *)
Definition mathMax1 (xs : list Q) : Q := foldr Qmax 1%Q xs.

Definition maxTextScore (cs : list Candidate) : Q :=
  mathMax1 (map textScore (allHits cs)).

Definition maxPopularity (cs : list Candidate) : Q :=
  mathMax1 (map (fun h => popularityMetric (document h)) (allHits cs)).

Definition hybridScore (maxText maxPop : Q) (h : TypesenseHit) : Q :=
  let normalizedText := (textScore h / maxText)%Q in
  let normalizedPop := (popularityMetric (document h) / maxPop)%Q in
  (normalizedText * (9 # 10) + normalizedPop * (1 # 10))%Q.

(** One iteration of [for (const candidate of potentialBest)]. *)
Definition consider (maxText maxPop : Q) (best : option Meta) (c : Candidate)
    : option Meta :=
  match snd c with
  | Some hit =>
      let h := hybridScore maxText maxPop hit in
      match best with
      | None => Some {| type := fst c; id := doc_id (document hit); score := h |}
      | Some b =>
          if Qltb (score b) h
          then Some {| type := fst c; id := doc_id (document hit); score := h |}
          else best
      end
  | None => best
  end.

Definition selectBest (cs : list Candidate) : option Meta :=
  foldl (consider (maxTextScore cs) (maxPopularity cs)) None cs.

(** The score expression in binary64 arithmetic, for the check of the
    concrete scenario under IEEE rounding. *)
Definition hybridBinary64 (text maxText pop maxPop : float) : float :=
  (text / maxText * 0.9 + pop / maxPop * 0.1)%float.

(** The hybrid score a hit gets within the candidate list [cs]. *)
Definition hybridIn (cs : list Candidate) (h : TypesenseHit) : Q :=
  hybridScore (maxTextScore cs) (maxPopularity cs) h.

(** The reading of the popularity measure by presence alone: the first
    field that is present, whatever its value. *)
Definition firstPresent (doc : Doc) : Q :=
  match popularity doc, followers_count doc, likes_count doc with
  | Some p, _, _ => p
  | None, Some f, _ => f
  | None, None, Some l => l
  | None, None, None => 0%Q
  end.


(** What the selection loop has computed after the candidates [cs]: no
    candidate when none had a hit, else the first candidate of greatest
    score. *)
Definition LoopInv (maxText maxPop : Q) (cs : list Candidate) (best : option Meta)
    : Prop :=
  match best with
  | None => forall c, In c cs -> snd c = None
  | Some m =>
      exists (i : nat) (ty : string) (hit : TypesenseHit),
        cs !! i = Some (ty, Some hit)
        /\ m = {| type := ty; id := doc_id (document hit);
                  score := hybridScore maxText maxPop hit |}
        /\ (forall j ty' hit', cs !! j = Some (ty', Some hit') ->
              (hybridScore maxText maxPop hit' <= score m)%Q)
        /\ (forall j ty' hit', (j < i)%nat -> cs !! j = Some (ty', Some hit') ->
              (hybridScore maxText maxPop hit' < score m)%Q)
  end.

End Best.

(** ** The store, the engine and the trace of a request *)

(** A full record of the store: its [id] column and the rest of the row. *)
Record StoreRecord := {
  rec_id : Js.Id;
  rec_body : string;
}.

#[global] Instance StoreRecord_eq_dec : EqDecision StoreRecord.
Proof. solve_decision. Defined.

(** The parameters of one engine query.  [page] is absent in the entries of
    a multi-search; [sort_by] and [filter_by] are absent when the code does
    not set them. *)
Record SearchParams := {
  q : string;
  query_by : string;
  page : option Z;
  per_page : Z;
  sort_by : option string;
  filter_by : option string;
}.

Inductive Event :=
| LogInfo (msg : string)
| LogError (err : string) (msg : string)
| EngineSearch (collection : string) (params : SearchParams)
| EngineMultiSearch (searches : list (string * SearchParams))
| StoreSelect (table : string) (columns : string) (ids : list Js.Id).

(** The two external services.  An engine call rejects with an error or
    resolves to its result; a store query resolves to [{ error }] or to
    [{ data }]. *)
Record Env := {
  engine_search : string -> SearchParams -> string + TypesenseSearchResult;
  engine_multiSearch : list (string * SearchParams) -> string + list TypesenseSearchResult;
  store_select : string -> string -> list Js.Id -> string + list StoreRecord;
}.

(** Computations of a handler: they extend the trace and either throw an
    error (its message) or return a value. *)
Definition M (A : Type) : Type := list Event -> list Event * (string + A).

Definition ret {A} (a : A) : M A := fun t => (t, inr a).
Definition throw {A} (e : string) : M A := fun t => (t, inl e).
Definition bind {A B} (m : M A) (k : A -> M B) : M B :=
  fun t => match m t with
           | (t', inr a) => k a t'
           | (t', inl e) => (t', inl e)
           end.

Notation "'let*' x ':=' m 'in' k" := (bind m (fun x => k))
  (at level 10, x pattern, m at level 100, k at level 200).

(** A promise that has been started: its effects are in the trace and its
    outcome is kept until it is awaited.  [Promise.all([p1, ..., pn])] is
    [start] for each promise in array order followed by [await] for each in
    the same order: every lookup is issued, and the failure that is thrown
    is the first one in array order (which of several concurrent failures
    arrives first is not modelled). *)
Definition start {A} (m : M A) : M (string + A) :=
  fun t => let '(t', r) := m t in (t', inr r).

Definition await {A} (p : string + A) : M A :=
  match p with
  | inl e => throw e
  | inr a => ret a
  end.

(** What the caller receives. *)
Inductive Reply (A : Type) :=
| Sent200 (body : A)
| Sent500 (error : string).
Arguments Sent200 {A} body.
Arguments Sent500 {A} error.

Definition genericError : string := "An internal server error occurred".

(** [try { body } catch (error) { request.log.error(error, label);
    reply.status(500).send({ error: '...' }) }], after the [log.info] that
    precedes the [try]. *)
Definition handler {A} (info : string) (label : string) (body : M A)
    : list Event * Reply A :=
  match body [LogInfo info] with
  | (t, inr a) => (t, Sent200 a)
  | (t, inl e) => (t ++ [LogError e label], Sent500 genericError)
  end.

(** ** Response shapes *)

Record Pagination := {
  total_results : Z;
  total_pages : Js.Num;
  current_page : Z;
  pg_per_page : Z;
}.

Record Page := {
  data : list StoreRecord;
  pagination : Pagination;
}.

Record BestResult := {
  br_type : string;
  br_data : option StoreRecord;
}.

Record MultiBody := {
  bestResult : option BestResult;
  movies : Page;
  tv_series : Page;
  persons : Page;
  users : Page;
  playlists : Page;
}.

(** ** Requests

    Modelled from the spec: the query types are declared in the package
    [@recomendapp/types], which is not part of the sources.  The spec calls
    the filter dimensions numeric ranges and the paging fields numbers, so
    bounds, [page] and [per_page] are numbers here (integral, [Z]); an
    optional field that was not supplied is [None].  [genre_ids] and
    [exclude_ids] are comma-separated strings, as the code splits them. *)

Module BestResultsSearchQuery.
Record t := { query : string; results_per_type : Z }.
End BestResultsSearchQuery.

Module AllSearchQuery.
Record t := { query : string }.
End AllSearchQuery.

Module MovieSearchQuery.
Record t := {
  query : string; page : Z; per_page : Z; sort_by : string;
  genre_ids : option string;
  runtime_min : option Z; runtime_max : option Z;
  release_date_min : option Z; release_date_max : option Z;
}.
End MovieSearchQuery.

Module TvSeriesSearchQuery.
Record t := {
  query : string; page : Z; per_page : Z; sort_by : string;
  genre_ids : option string;
  number_of_seasons_min : option Z; number_of_seasons_max : option Z;
  number_of_episodes_min : option Z; number_of_episodes_max : option Z;
  vote_average_min : option Z; vote_average_max : option Z;
  first_air_date_min : option Z; first_air_date_max : option Z;
}.
End TvSeriesSearchQuery.

Module PersonSearchQuery.
Record t := { query : string; page : Z; per_page : Z; sort_by : string }.
End PersonSearchQuery.

Module UserSearchQuery.
Record t := { query : string; page : Z; per_page : Z; exclude_ids : option string }.
End UserSearchQuery.

Module PlaylistSearchQuery.
Record t := { query : string; page : Z; per_page : Z; sort_by : string }.
End PlaylistSearchQuery.

(** ** Building the filter and sort expressions *)

Module Build.

(** A number inside a template literal. *)
Definition show (z : Z) : string := pretty z.

(** An optional value inside a template literal. *)
Definition showOpt (o : option Z) : string :=
  match o with Some z => show z | None => "undefined" end.
Definition showOptStr (o : option string) : string :=
  match o with Some s => s | None => "undefined" end.

(** Truthiness of an optional bound, as in [if (runtime_min && ...)]. *)
Definition given (o : option Z) : bool :=
  match o with Some z => Js.truthyZ z | None => false end.

(** [s.split(',')] *)
Fixpoint splitComma (s : string) : list string :=
  match s with
  | EmptyString => [""]
  | String c r =>
      if Ascii.eqb c ","%char then "" :: splitComma r
      else match splitComma r with
           | x :: xs => String c x :: xs
           | [] => [String c ""]
           end
  end.

(** The relevance key every sorted query starts with. *)
Definition textMatch : string := "_text_match(buckets: 10):desc".

(** The [if / else if / else if] chain on one numeric dimension; the
    result is what is pushed on [filters]. *)
Definition rangeTerm (field : string) (min max : option Z) : list string :=
  if given min && given max then
    [field +:+ ": [" +:+ showOpt min +:+ ".." +:+ showOpt max +:+ "]"]
  else if given min then
    [field +:+ ": >" +:+ showOpt min]
  else if given max then
    [field +:+ ": <" +:+ showOpt max]
  else [].

(** The genre block. *)
Definition genreTerm (genre_ids : option string) : list string :=
  match genre_ids with
  | Some g =>
      if Js.truthyStr g && (0 <? Z.of_nat (String.length g)) then
        let genres := map Js.parseInt (splitComma g) in
        if 0 <? Z.of_nat (length genres) then
          ["genre_ids: [" +:+ Js.join "," (map Js.String_ genres) +:+ "]"]
        else []
      else []
  | None => []
  end.

(** [if (filters.length > 0) searchParameters.filter_by = filters.join(' && ')] *)
Definition joinFilters (filters : list string) : option string :=
  if 0 <? Z.of_nat (length filters) then Some (Js.join " && " filters) else None.

Definition movieFilters (r : MovieSearchQuery.t) : list string :=
  genreTerm (MovieSearchQuery.genre_ids r)
  ++ rangeTerm "runtime" (MovieSearchQuery.runtime_min r) (MovieSearchQuery.runtime_max r)
  ++ rangeTerm "release_date"
       (MovieSearchQuery.release_date_min r) (MovieSearchQuery.release_date_max r).

Definition tvFilters (r : TvSeriesSearchQuery.t) : list string :=
  genreTerm (TvSeriesSearchQuery.genre_ids r)
  ++ rangeTerm "number_of_seasons"
       (TvSeriesSearchQuery.number_of_seasons_min r)
       (TvSeriesSearchQuery.number_of_seasons_max r)
  ++ rangeTerm "number_of_episodes"
       (TvSeriesSearchQuery.number_of_episodes_min r)
       (TvSeriesSearchQuery.number_of_episodes_max r)
  ++ rangeTerm "vote_average"
       (TvSeriesSearchQuery.vote_average_min r)
       (TvSeriesSearchQuery.vote_average_max r)
  ++ rangeTerm "first_air_date"
       (TvSeriesSearchQuery.first_air_date_min r)
       (TvSeriesSearchQuery.first_air_date_max r).

(** The exclusion filter of the user search. *)
Definition userFilter (exclude_ids : option string) : option string :=
  match exclude_ids with
  | Some e =>
      if Js.truthyStr e && (0 <? Z.of_nat (String.length e)) then
        Some (Js.join " && " (map (fun id => "id:!=" +:+ id) (splitComma e)))
      else None
  | None => None
  end.

(** [getPlaylistPermissionFilter] *)
Definition getPlaylistPermissionFilter (userId : option string) : string :=
  match userId with
  | Some u =>
      if Js.truthyStr u
      then "is_private:false || owner_id:=" +:+ u +:+ " || guest_ids:=" +:+ u
      else "is_private:false"
  | None => "is_private:false"
  end.

Definition movieParams (r : MovieSearchQuery.t) : SearchParams :=
  let sortOrder := MovieSearchQuery.sort_by r +:+ ":desc" in
  {| q := MovieSearchQuery.query r;
     query_by := "original_title,titles";
     page := Some (MovieSearchQuery.page r);
     per_page := MovieSearchQuery.per_page r;
     sort_by := Some (textMatch +:+ "," +:+ sortOrder);
     filter_by := joinFilters (movieFilters r) |}.

Definition tvParams (r : TvSeriesSearchQuery.t) : SearchParams :=
  let sortOrder := TvSeriesSearchQuery.sort_by r +:+ ":desc" in
  {| q := TvSeriesSearchQuery.query r;
     query_by := "original_name,names";
     page := Some (TvSeriesSearchQuery.page r);
     per_page := TvSeriesSearchQuery.per_page r;
     sort_by := Some (textMatch +:+ "," +:+ sortOrder);
     filter_by := joinFilters (tvFilters r) |}.

Definition personParams (r : PersonSearchQuery.t) : SearchParams :=
  let sortOrder := PersonSearchQuery.sort_by r +:+ ":desc" in
  {| q := PersonSearchQuery.query r;
     query_by := "name,also_known_as";
     page := Some (PersonSearchQuery.page r);
     per_page := PersonSearchQuery.per_page r;
     sort_by := Some (textMatch +:+ "," +:+ sortOrder);
     filter_by := None |}.

Definition userParams (r : UserSearchQuery.t) : SearchParams :=
  {| q := UserSearchQuery.query r;
     query_by := "username,full_name";
     page := Some (UserSearchQuery.page r);
     per_page := UserSearchQuery.per_page r;
     sort_by := Some (textMatch +:+ ", followers_count:desc");
     filter_by := userFilter (UserSearchQuery.exclude_ids r) |}.

Definition playlistParams (userId : option string) (r : PlaylistSearchQuery.t)
    : SearchParams :=
  let sortOrder := PlaylistSearchQuery.sort_by r +:+ ":desc" in
  {| q := PlaylistSearchQuery.query r;
     query_by := "title,description";
     page := Some (PlaylistSearchQuery.page r);
     per_page := PlaylistSearchQuery.per_page r;
     sort_by := Some sortOrder;
     filter_by := Some (getPlaylistPermissionFilter userId) |}.

(** One entry of the [searches] array of a multi-search. *)
Definition entry (collection query : string) (n : Z) (fields : string)
    (filter sort : option string) : string * SearchParams :=
  (collection,
   {| q := query; query_by := fields; page := None; per_page := n;
      sort_by := sort; filter_by := filter |}).

(** The [searches] of [searchBestResult]. *)
Definition bestResultSearches (userId : option string) (query : string) (n : Z)
    : list (string * SearchParams) :=
  [ entry "movies" query n "original_title,titles" None
      (Some (textMatch +:+ ",popularity:desc"));
    entry "tv_series" query n "original_name,names" None
      (Some (textMatch +:+ ",popularity:desc"));
    entry "persons" query n "name,also_known_as" None
      (Some (textMatch +:+ ",popularity:desc"));
    entry "users" query n "username,full_name" None
      (Some (textMatch +:+ ",followers_count:desc"));
    entry "playlists" query n "title,description"
      (Some (getPlaylistPermissionFilter userId))
      (Some (textMatch +:+ ",likes_count:desc")) ].

(** The [searches] of [searchAll]: no sort expression is sent. *)
Definition allSearches (userId : option string) (query : string) (n : Z)
    : list (string * SearchParams) :=
  [ entry "movies" query n "original_title,titles" None None;
    entry "tv_series" query n "original_name,names" None None;
    entry "persons" query n "name,also_known_as" None None;
    entry "users" query n "username,full_name" None None;
    entry "playlists" query n "title,description"
      (Some (getPlaylistPermissionFilter userId)) None ].

End Build.

(** ** The controller *)

Module Controller.
Section WithEnv.

Variable env : Env.

(** [typesenseClient.collections(c).documents().search(params)] *)
Definition search (collection : string) (params : SearchParams)
    : M TypesenseSearchResult :=
  fun t => (t ++ [EngineSearch collection params], engine_search env collection params).

(** [typesenseClient.multiSearch.perform({ searches }, {})] *)
Definition multiSearch (searches : list (string * SearchParams))
    : M (list TypesenseSearchResult) :=
  fun t => (t ++ [EngineMultiSearch searches], engine_multiSearch env searches).

(** [supabaseClient.from(table).select(columns).in('id', ids)]: resolves to
    [{ data, error }] and never throws by itself. *)
Definition select (table columns : string) (ids : list Js.Id)
    : M (string + list StoreRecord) :=
  fun t => (t ++ [StoreSelect table columns ids], inr (store_select env table columns ids)).

(** [result.hits?.map(h => h.document.id) || []] *)
Definition idsOf (r : TypesenseSearchResult) : list string :=
  match hits r with
  | Some hs => map (fun h => doc_id (document h)) hs
  | None => []
  end.

(** [new Map(data.map(item => [key(item), item]))]: a later entry with the
    same key replaces an earlier one. *)
Definition mapOf (key : StoreRecord -> Js.Id) (data : list StoreRecord)
    : gmap Js.Id StoreRecord :=
  foldl (fun m item => <[key item := item]> m) ∅ data.

(** The key [String(item.id)]. *)
Definition stringKey (item : StoreRecord) : Js.Id := Js.IdStr (Js.String_ (rec_id item)).

(** [ids.map(id => dataMap.get(id)).filter(Boolean)] *)
Definition inOrder (dataMap : gmap Js.Id StoreRecord) (ids : list Js.Id)
    : list StoreRecord :=
  omap (fun id => dataMap !! id) ids.

(** [hydrateByIds] *)
Definition hydrateByIds (tableName : string) (ids : list string) : M (list StoreRecord) :=
  if (Z.of_nat (length ids) =? 0) then ret []
  else
    let* r := select tableName "*" (map Js.IdStr ids) in
    match r with
    | inl message =>
        throw ("Failed to hydrate from " +:+ tableName +:+ ": " +:+ message)
    | inr data =>
        let dataMap := mapOf stringKey data in
        ret (inOrder dataMap (map Js.IdStr ids))
    end.

(** [hydratePlaylists] *)
Definition hydratePlaylists (ids : list Js.Id) : M (list StoreRecord) :=
  if (Z.of_nat (length ids) =? 0) then ret []
  else
    let* r := select "playlists" "*, user(*)" ids in
    match r with
    | inl message => throw ("Failed to hydrate playlists: " +:+ message)
    | inr data =>
        let dataMap := mapOf rec_id data in
        ret (inOrder dataMap ids)
    end.

(** [getTableNameForType] (second variant); a type outside the table
    reads as [undefined]. *)
Definition getTableNameForType (type : string) : string :=
  if String.eqb type "movie" then "media_movie"
  else if String.eqb type "tv_series" then "media_tv_series"
  else if String.eqb type "person" then "media_person"
  else if String.eqb type "user" then "user"
  else if String.eqb type "playlist" then "playlists"
  else "undefined".

(** The pagination block of a per-type result. *)
Definition paginate (found current per : Z) : Pagination :=
  {| total_results := found;
     total_pages := Js.ceilDiv found per;
     current_page := current;
     pg_per_page := per |}.

(** The early return on an empty id list. *)
Definition emptyPage (current per : Z) : Page :=
  {| data := [];
     pagination := {| total_results := 0; total_pages := Js.Fin 0;
                      current_page := current; pg_per_page := per |} |}.

(** The part the five single-collection handlers share after the query
    parameters are built: the engine call, the early return, the store
    lookup, the reordering and the pagination.  [storeIds] is what is
    passed to [in('id', ...)], [key] the key of the [Map] and [lookup]
    the key an engine id is looked up with. *)
Definition runSingle (collection : string) (params : SearchParams)
    (table columns : string) (storeIds : list string -> list Js.Id)
    (key : StoreRecord -> Js.Id) (lookup : string -> Js.Id)
    (current per : Z) : M Page :=
  let* searchResult := search collection params in
  let ids := idsOf searchResult in
  if (Z.of_nat (length ids) =? 0) then ret (emptyPage current per)
  else
    let* r := select table columns (storeIds ids) in
    match r with
    | inl message => throw message
    | inr hydrated =>
        let recordMap := mapOf key hydrated in
        let sorted := inOrder recordMap (map lookup ids) in
        ret {| data := sorted;
               pagination := paginate (found searchResult) current per |}
    end.

Definition quoted (s : string) : string := Js.dquote +:+ s +:+ Js.dquote.

(** [searchMovies] *)
Definition searchMovies (r : MovieSearchQuery.t) : list Event * Reply Page :=
  handler
    ("Searching for movies with query: " +:+ quoted (MovieSearchQuery.query r)
     +:+ ", page: " +:+ Build.show (MovieSearchQuery.page r)
     +:+ ", per_page: " +:+ Build.show (MovieSearchQuery.per_page r)
     +:+ ", sort_by: " +:+ MovieSearchQuery.sort_by r
     +:+ ", genre_ids: " +:+ Build.showOptStr (MovieSearchQuery.genre_ids r)
     +:+ ", runtime: " +:+ Build.showOpt (MovieSearchQuery.runtime_min r)
     +:+ "-" +:+ Build.showOpt (MovieSearchQuery.runtime_max r)
     +:+ ", release_date: " +:+ Build.showOpt (MovieSearchQuery.release_date_min r)
     +:+ "-" +:+ Build.showOpt (MovieSearchQuery.release_date_max r))
    "Movie search failed"
    (runSingle "movies" (Build.movieParams r) "media_movie" "*"
       (map Js.parseInt) stringKey Js.IdStr
       (MovieSearchQuery.page r) (MovieSearchQuery.per_page r)).

(** [searchTVSeries] *)
Definition searchTVSeries (r : TvSeriesSearchQuery.t) : list Event * Reply Page :=
  handler
    ("Searching for TV series with query: " +:+ quoted (TvSeriesSearchQuery.query r))
    "TV series search failed"
    (runSingle "tv_series" (Build.tvParams r) "media_tv_series" "*"
       (map Js.parseInt) stringKey Js.IdStr
       (TvSeriesSearchQuery.page r) (TvSeriesSearchQuery.per_page r)).

(** [searchPersons] *)
Definition searchPersons (r : PersonSearchQuery.t) : list Event * Reply Page :=
  handler
    ("Searching for persons with query: " +:+ quoted (PersonSearchQuery.query r))
    "Person search failed"
    (runSingle "persons" (Build.personParams r) "media_person" "*"
       (map Js.parseInt) stringKey Js.IdStr
       (PersonSearchQuery.page r) (PersonSearchQuery.per_page r)).

(** [searchUsers]: the ids go to the store as they are and the [Map] is
    keyed by [user.id] itself. *)
Definition searchUsers (r : UserSearchQuery.t) : list Event * Reply Page :=
  handler
    ("Searching for users with query: " +:+ quoted (UserSearchQuery.query r)
     +:+ ", page: " +:+ Build.show (UserSearchQuery.page r)
     +:+ ", per_page: " +:+ Build.show (UserSearchQuery.per_page r))
    "User search failed"
    (runSingle "users" (Build.userParams r) "user" "*"
       (map Js.IdStr) rec_id Js.IdStr
       (UserSearchQuery.page r) (UserSearchQuery.per_page r)).

(** [searchPlaylists] *)
Definition searchPlaylists (userId : option string) (r : PlaylistSearchQuery.t)
    : list Event * Reply Page :=
  handler
    ("Searching for playlists with query: " +:+ quoted (PlaylistSearchQuery.query r)
     +:+ ", user: "
     +:+ match userId with
         | Some u => if Js.truthyStr u then u else "Guest"
         | None => "Guest"
         end)
    "Playlist search failed"
    (runSingle "playlists" (Build.playlistParams userId r) "playlists" "*, user(*)"
       (map Js.parseInt) stringKey Js.IdStr
       (PlaylistSearchQuery.page r) (PlaylistSearchQuery.per_page r)).

(** The five per-type blocks of a multi-collection response share the
    page size and have [current_page] fixed at 1. *)
Definition typePage (hydrated : list StoreRecord) (result : TypesenseSearchResult)
    (n : Z) : Page :=
  {| data := hydrated; pagination := paginate (found result) 1 n |}.

(** The [switch] of [searchBestResult] that reads the winner out of the
    hydrated list of its type. *)
Definition pickBest (meta : Best.Meta)
    (hydratedMovies hydratedTvSeries hydratedPersons hydratedUsers hydratedPlaylists
      : list StoreRecord) : option StoreRecord :=
  let byId := fun item => Js.looseEq (rec_id item) (Best.id meta) in
  if String.eqb (Best.type meta) "movie" then List.find byId hydratedMovies
  else if String.eqb (Best.type meta) "tv_series" then List.find byId hydratedTvSeries
  else if String.eqb (Best.type meta) "person" then List.find byId hydratedPersons
  else if String.eqb (Best.type meta) "user" then List.find byId hydratedUsers
  else if String.eqb (Best.type meta) "playlist" then
    List.find (fun playlist => String.eqb (Js.String_ (rec_id playlist)) (Best.id meta))
      hydratedPlaylists
  else None.

(** Reading a property of a missing element of [results]. *)
Definition typeError : string :=
  "TypeError: Cannot read properties of undefined (reading 'hits')".

(** The body of the [try] block of [searchBestResult]. *)
Definition bestResultBody (userId : option string) (r : BestResultsSearchQuery.t)
    : M MultiBody :=
  let query := BestResultsSearchQuery.query r in
  let results_per_type := BestResultsSearchQuery.results_per_type r in
  let searches := Build.bestResultSearches userId query results_per_type in
  let* results := multiSearch searches in
  match results with
  | moviesResult :: tvSeriesResult :: personsResult :: usersResult
      :: playlistsResult :: _ =>
      let movieIds := idsOf moviesResult in
      let tvSeriesIds := idsOf tvSeriesResult in
      let personIds := idsOf personsResult in
      let userIds := idsOf usersResult in
      let playlistIds := idsOf playlistsResult in
      let bestResultMeta :=
        Best.selectBest
          (Best.potentialBest moviesResult tvSeriesResult personsResult
             usersResult playlistsResult) in
      let* p1 := start (hydrateByIds "media_movie" movieIds) in
      let* p2 := start (hydrateByIds "media_tv_series" tvSeriesIds) in
      let* p3 := start (hydrateByIds "media_person" personIds) in
      let* p4 := start (hydrateByIds "user" userIds) in
      let* p5 := start (hydratePlaylists (map Js.parseInt playlistIds)) in
      let* hydratedMovies := await p1 in
      let* hydratedTvSeries := await p2 in
      let* hydratedPersons := await p3 in
      let* hydratedUsers := await p4 in
      let* hydratedPlaylists := await p5 in
      let bestResult :=
        match bestResultMeta with
        | Some meta =>
            Some {| br_type := Best.type meta;
                    br_data := pickBest meta hydratedMovies hydratedTvSeries
                                 hydratedPersons hydratedUsers hydratedPlaylists |}
        | None => None
        end in
      ret {| bestResult := bestResult;
             movies := typePage hydratedMovies moviesResult results_per_type;
             tv_series := typePage hydratedTvSeries tvSeriesResult results_per_type;
             persons := typePage hydratedPersons personsResult results_per_type;
             users := typePage hydratedUsers usersResult results_per_type;
             playlists := typePage hydratedPlaylists playlistsResult results_per_type |}
  | _ => throw typeError
  end.

(** [searchBestResult] *)
Definition searchBestResult (userId : option string) (r : BestResultsSearchQuery.t)
    : list Event * Reply MultiBody :=
  handler
    ("Performing a best result search with query: "
     +:+ quoted (BestResultsSearchQuery.query r))
    "All search failed"
    (bestResultBody userId r).

(** The body of the [try] block of [searchAll] (second variant of the
    controller): the winner is hydrated by a sixth store lookup. *)
Definition allBody (userId : option string) (r : AllSearchQuery.t) : M MultiBody :=
  let query := AllSearchQuery.query r in
  let resultsPerType := 5 in
  let searches := Build.allSearches userId query resultsPerType in
  let* results := multiSearch searches in
  match results with
  | moviesResult :: tvSeriesResult :: personsResult :: usersResult
      :: playlistsResult :: _ =>
      let movieIds := idsOf moviesResult in
      let tvSeriesIds := idsOf tvSeriesResult in
      let personIds := idsOf personsResult in
      let userIds := idsOf usersResult in
      let playlistIds := idsOf playlistsResult in
      let bestResultMeta :=
        Best.selectBest
          (Best.potentialBest moviesResult tvSeriesResult personsResult
             usersResult playlistsResult) in
      let* p1 := start (hydrateByIds "media_movie" movieIds) in
      let* p2 := start (hydrateByIds "media_tv_series" tvSeriesIds) in
      let* p3 := start (hydrateByIds "media_person" personIds) in
      let* p4 := start (hydrateByIds "user" userIds) in
      let* p5 := start (hydrateByIds "playlists" playlistIds) in
      let* p6 := start (match bestResultMeta with
                        | Some meta =>
                            hydrateByIds (getTableNameForType (Best.type meta))
                              [Best.id meta]
                        | None => ret []
                        end) in
      let* hydratedMovies := await p1 in
      let* hydratedTvSeries := await p2 in
      let* hydratedPersons := await p3 in
      let* hydratedUsers := await p4 in
      let* hydratedPlaylists := await p5 in
      let* hydratedBestResultData := await p6 in
      let bestResult :=
        match bestResultMeta, hydratedBestResultData with
        | Some meta, item :: _ =>
            Some {| br_type := Best.type meta; br_data := Some item |}
        | _, _ => None
        end in
      ret {| bestResult := bestResult;
             movies := typePage hydratedMovies moviesResult resultsPerType;
             tv_series := typePage hydratedTvSeries tvSeriesResult resultsPerType;
             persons := typePage hydratedPersons personsResult resultsPerType;
             users := typePage hydratedUsers usersResult resultsPerType;
             playlists := typePage hydratedPlaylists playlistsResult resultsPerType |}
  | _ => throw typeError
  end.

(** [searchAll] *)
Definition searchAll (userId : option string) (r : AllSearchQuery.t)
    : list Event * Reply MultiBody :=
  handler
    ("Performing an all-encompassing search with query: "
     +:+ quoted (AllSearchQuery.query r))
    "All search failed"
    (allBody userId r).

End WithEnv.
End Controller.

(** ** The engine's filter grammar

    Modelled from the spec: the search engine is an external service and no
    part of the sources.  The spec gives the grammar of its filter
    expressions: [field: value], the exact match [field:=value], the
    inclusive range [field: [a..b]], [field: >x], [field: <x], combined with
    [&&] and [||].  The expressions are trees here, [render] is their
    concrete syntax, and a tree admits a playlist document when the document
    satisfies it. *)

Module Grammar.

Inductive Expr :=
| Is (field value : string)
| Exactly (field value : string)
| Range (field : string) (a b : Z)
| Gt (field : string) (x : Z)
| Lt (field : string) (x : Z)
| Or (l r : Expr)
| And (l r : Expr).

Fixpoint render (e : Expr) : string :=
  match e with
  | Is f v => f +:+ ":" +:+ v
  | Exactly f v => f +:+ ":=" +:+ v
  | Range f a b => f +:+ ": [" +:+ pretty a +:+ ".." +:+ pretty b +:+ "]"
  | Gt f x => f +:+ ": >" +:+ pretty x
  | Lt f x => f +:+ ": <" +:+ pretty x
  | Or l r => render l +:+ " || " +:+ render r
  | And l r => render l +:+ " && " +:+ render r
  end.

(** A document of a collection, as far as a filter reads it: the textual
    values and the numeric values each of its fields has (several for an
    array field, none for a field the document lacks). *)
Record Document := {
  values : string -> list string;
  numbers : string -> list Z;
}.

Fixpoint admits (e : Expr) (d : Document) : bool :=
  match e with
  | Is f v | Exactly f v => bool_decide (v ∈ values d f)
  | Range f a b => existsb (fun n => (a <=? n) && (n <=? b)) (numbers d f)
  | Gt f x => existsb (fun n => x <? n) (numbers d f)
  | Lt f x => existsb (fun n => n <? x) (numbers d f)
  | Or l r => admits l d || admits r d
  | And l r => admits l d && admits r d
  end.



(** The conjunction of a list of terms, nested to the right as [join]
    writes it. *)
Fixpoint conj (es : list Expr) : option Expr :=
  match es with
  | [] => None
  | [e] => Some e
  | e :: rest =>
      match conj rest with
      | Some c => Some (And e c)
      | None => Some e
      end
  end.


End Grammar.

(** ** The selection as the specification words it

    A second reading of the selector, written from the sentence of the
    specification and kept apart from [Best]: the popularity of a candidate
    is the first field of the fallback list that is present.  It is compared
    with the code below. *)

Module Claimed.

Definition text (h : TypesenseHit) : Q :=
  match text_match h with Some x => x | None => 0%Q end.

Definition pop (h : TypesenseHit) : Q := Best.firstPresent (document h).

Definition maxText (cs : list Best.Candidate) : Q :=
  foldr Qmax 1%Q (map text (Best.allHits cs)).

Definition maxPop (cs : list Best.Candidate) : Q :=
  foldr Qmax 1%Q (map pop (Best.allHits cs)).

Definition hybrid (cs : list Best.Candidate) (h : TypesenseHit) : Q :=
  ((9 # 10) * (text h / maxText cs) + (1 # 10) * (pop h / maxPop cs))%Q.

(** The candidate of strictly greatest hybrid score, the first declared
    one among equals, as its type and id. *)
Definition select (cs : list Best.Candidate) : option (string * string) :=
  let better (best : option (string * string * Q)) (c : Best.Candidate) :=
    match snd c with
    | Some h =>
        match best with
        | Some (_, _, s) =>
            if Best.Qltb s (hybrid cs h)
            then Some (fst c, doc_id (document h), hybrid cs h)
            else best
        | None => Some (fst c, doc_id (document h), hybrid cs h)
        end
    | None => best
    end in
  option_map fst (foldl better None cs).

End Claimed.

(** Builders of concrete engine data, used in the examples below. *)
Definition hitOf (i : string) (text : option Q) (p f l : option Q) : TypesenseHit :=
  {| document := {| doc_id := i; popularity := p; followers_count := f; likes_count := l |};
     text_match := text |}.

Definition resultOf (hs : list TypesenseHit) (n : Z) : TypesenseSearchResult :=
  {| hits := Some hs; found := n; res_per_page := 5 |}.

Definition noHits : TypesenseSearchResult :=
  {| hits := None; found := 0; res_per_page := 5 |}.

(** ** Reference points for the hydration

    [renderedId] is the text an id is compared by.  [recordOf data id] is
    the record of [data] that carries the id, and [inIdOrder data ids] lists
    these records along [ids], leaving out the ids that have none. *)

Definition renderedId (item : StoreRecord) : string := Js.String_ (rec_id item).

Definition recordOf (data : list StoreRecord) (id : string) : option StoreRecord :=
  List.find (fun item => bool_decide (renderedId item = id)) data.

Definition inIdOrder (data : list StoreRecord) (ids : list string) : list StoreRecord :=
  omap (recordOf data) ids.

(** ** Sample environments for the examples *)

Definition recordN (n : Z) (body : string) : StoreRecord :=
  {| rec_id := Js.IdNum n; rec_body := body |}.

(** An environment from an outcome of the single search, an outcome of the
    multi-search and a store. *)
Definition envOf (single : string + TypesenseSearchResult)
    (multi : string + list TypesenseSearchResult)
    (store : string -> list Js.Id -> string + list StoreRecord) : Env :=
  {| engine_search := fun _ _ => single;
     engine_multiSearch := fun _ => multi;
     store_select := fun table _ ids => store table ids |}.

(** A store that has a record for every id it is asked for. *)
Definition echoStore (table : string) (ids : list Js.Id) : string + list StoreRecord :=
  inr (omap (fun id => match id with
                       | Js.IdStr s => Some {| rec_id := Js.parseInt s; rec_body := table |}
                       | Js.IdNum z => Some (recordN z table)
                       | Js.IdNaN => None
                       end) ids).

(** A store whose table [bad] is out of reach. *)
Definition failingStore (bad : string) (table : string) (ids : list Js.Id)
    : string + list StoreRecord :=
  if String.eqb table bad then inl "connection lost" else echoStore table ids.

(** One hit in each of the five collections. *)
Definition fiveResults : list TypesenseSearchResult :=
  [ resultOf [hitOf "1" (Some 8%Q) (Some 100%Q) None None] 1;
    resultOf [hitOf "2" (Some 4%Q) (Some 500%Q) None None] 1;
    resultOf [hitOf "3" (Some 2%Q) (Some 7%Q) None None] 1;
    resultOf [hitOf "4" (Some 2%Q) None (Some 3%Q) None] 1;
    resultOf [hitOf "5" (Some 1%Q) None None (Some 9%Q)] 1 ].

(** ** The sort expression the specification describes *)

(** A sort expression places relevance first, with the bucketed tolerance,
    and then has [secondary] in descending order. *)
Definition RelevanceFirst (secondary : string) (params : SearchParams) : Prop :=
  sort_by params = Some (Build.textMatch +:+ "," +:+ secondary +:+ ":desc").

(** The same with the blank the user search writes after the comma. *)
Definition RelevanceFirstSpaced (secondary : string) (params : SearchParams) : Prop :=
  sort_by params = Some (Build.textMatch +:+ ", " +:+ secondary +:+ ":desc").

(** Sample requests. *)
Definition movieQuery (query : string) (page per_page : Z) : MovieSearchQuery.t :=
  {| MovieSearchQuery.query := query; MovieSearchQuery.page := page;
     MovieSearchQuery.per_page := per_page; MovieSearchQuery.sort_by := "popularity";
     MovieSearchQuery.genre_ids := None;
     MovieSearchQuery.runtime_min := None; MovieSearchQuery.runtime_max := None;
     MovieSearchQuery.release_date_min := None;
     MovieSearchQuery.release_date_max := None |}.

(** One movie hit and no hit in the other four collections. *)
Definition oneMovie : list TypesenseSearchResult :=
  [ resultOf [hitOf "1" (Some 8%Q) (Some 100%Q) None None] 1;
    resultOf [] 0; resultOf [] 0; resultOf [] 0; resultOf [] 0 ].

(** ** Reading a trace *)



(** The store queries of a trace, in the order they were issued. *)
Definition storeQueries (t : list Event) : list (string * list Js.Id) :=
  omap (fun e => match e with
                 | StoreSelect table _ ids => Some (table, ids)
                 | _ => None
                 end) t.

(** ** The Supabase plugin ([src/plugins/FastifySupabase.ts])

    A client is what [createClient(url, key, options)] was called with.  An
    options object is modelled by the parts the plugin touches: its [auth]
    settings, its [global] part with the [headers], and the settings the
    spread copies unchanged.  Settings and headers are maps from names to
    rendered values; [{ ...a, ...b }] is the union in which [b] wins. *)

Module Plugin.

Record Global := {
  headers : option (gmap string string);
  global_others : gmap string string;
}.

Record Options := {
  auth : option (gmap string string);
  global : option Global;
  others : gmap string string;
}.

Record Client := {
  client_url : string;
  client_key : string;
  client_options : option Options;
}.

(** The decoded token, as far as the code reads it. *)
Record User := {
  role : option string;
  sub : option string;
}.

Record Request := {
  authorization : option string;
  language : option string;
  user : option User;
  _supabaseClient : option Client;
}.

Record Instance := {
  supabaseClient : option Client;
  requestDecorators : list string;
}.

Inductive Error :=
| AlreadyRegistered
| AuthorizationTokenInvalid
| NoUserDataFound
| Thrown (message : string).

Record Opts := {
  url : string;
  serviceKey : string;
  anonKey : string;
  options : option Options;
  extraHeaders : option (Request -> gmap string string);
}.

(** [{ ...a, ...b }] *)
Definition spread (a b : gmap string string) : gmap string string := b ∪ a.

(** [user?.role] *)
Definition roleOf (req : Request) : option string :=
  match user req with
  | Some u => role u
  | None => None
  end.

(** [user?.sub], the actor id the controller reads. *)
Definition subOf (req : Request) : option string :=
  match user req with
  | Some u => sub u
  | None => None
  end.

(** [user?.role && user.role !== "anon"] *)
Definition bearsToken (req : Request) : bool :=
  match roleOf req with
  | Some r => Js.truthyStr r && negb (String.eqb r "anon")
  | None => false
  end.

(** [options?.auth], [options?.global] and [options?.global?.headers] as
    the spreads see them: nothing when a part is missing. *)
Definition authOf (base : option Options) : gmap string string :=
  match base with Some b => default ∅ (auth b) | None => ∅ end.
Definition globalOf (base : option Options) : option Global :=
  match base with Some b => global b | None => None end.
Definition headersOf (base : option Options) : gmap string string :=
  match globalOf base with Some g => default ∅ (headers g) | None => ∅ end.

(** [extraHeaders ? extraHeaders(req) : {}] *)
Definition additionalHeadersOf (extra : option (Request -> gmap string string))
    (req : Request) : gmap string string :=
  match extra with Some f => f req | None => ∅ end.

(** The options of a per-request client. *)
Definition requestOptions (base : option Options)
    (authorizationHeader additionalHeaders : gmap string string) : Options :=
  {| auth := Some (<["persistSession" := "false"]> (authOf base));
     global :=
       Some {| headers :=
                 Some (spread (spread (headersOf base) authorizationHeader)
                         additionalHeaders);
               global_others :=
                 match globalOf base with Some g => global_others g | None => ∅ end |};
     others := match base with Some b => others b | None => ∅ end |}.

Section Getter.

Variable o : Opts.
Variable fastify : Instance.

(** [fastify.jwt.lookupToken(req)], which may throw. *)
Variable lookupToken : Request -> string + string.

(** The outcome of reading [request.supabaseClient]: the request after the
    read, the clients that were created, and the client or the error
    thrown. *)
Record Read := {
  after : Request;
  created : list Client;
  outcome : Error + Client;
}.

Definition cache (req : Request) (c : option Client) : Request :=
  {| authorization := authorization req; language := language req;
     user := user req; _supabaseClient := c |}.

(** The getter of [request.supabaseClient]. *)
Definition supabaseClientGetter (req : Request) : Read :=
  match _supabaseClient req with
  | Some c => {| after := req; created := []; outcome := inr c |}
  | None =>
      let additionalHeaders := additionalHeadersOf (extraHeaders o) req in
      if bool_decide (roleOf req = Some "service_role") then
        let req' := cache req (supabaseClient fastify) in
        match _supabaseClient req' with
        | Some c => {| after := req'; created := []; outcome := inr c |}
        | None =>
            {| after := req'; created := []; outcome := inl AuthorizationTokenInvalid |}
        end
      else
        let token :=
          if bearsToken req then
            match lookupToken req with
            | inr t => inr {["Authorization" := "Bearer " +:+ t]}
            | inl e => inl e
            end
          else inr ∅ in
        match token with
        | inl e => {| after := req; created := []; outcome := inl (Thrown e) |}
        | inr authorizationHeader =>
            let client :=
              {| client_url := url o; client_key := anonKey o;
                 client_options :=
                   Some (requestOptions (options o) authorizationHeader
                           additionalHeaders) |} in
            {| after := cache req (Some client); created := [client];
               outcome := inr client |}
        end
  end.

(** The getter of [request.supabaseUser]. *)
Definition supabaseUserGetter (req : Request) : Error + User :=
  match user req with
  | Some u => inr u
  | None => inl NoUserDataFound
  end.

End Getter.

(** The plugin function: the service client is created first, then the
    instance is checked and decorated.  The result is the instance, the
    client that was created and the error passed to [next], if any.  The
    JWT plugin, which the plugin declares as its dependency and which
    provides the [user] decorator the getters depend on, is taken to be
    registered. *)
Definition fastifySupabase (fastify : Instance) (o : Opts)
    : Instance * Client * option Error :=
  let supabase :=
    {| client_url := url o; client_key := serviceKey o; client_options := options o |} in
  match supabaseClient fastify with
  | Some _ => (fastify, supabase, Some AlreadyRegistered)
  | None =>
      ({| supabaseClient := Some supabase;
          requestDecorators :=
            requestDecorators fastify
            ++ ["_supabaseClient"; "supabaseClient"; "supabaseUser"] |},
       supabase, None)
  end.

(** The [extraHeaders] the application passes: the [language] header of the
    request, when it has one. *)
Definition appExtraHeaders (req : Request) : gmap string string :=
  match language req with
  | Some l => if Js.truthyStr l then {["language" := l]} else ∅
  | None => ∅
  end.

(** The request with [request.user] set. *)
Definition withUser (req : Request) (u : option User) : Request :=
  {| authorization := authorization req; language := language req;
     user := u; _supabaseClient := _supabaseClient req |}.

(** The headers a client was created with. *)
Definition clientHeaders (c : Client) : gmap string string :=
  headersOf (client_options c).

(** [verifyApiKey]: the token is verified only when the request has an
    [authorization] header; a failed verification is sent as the reply.
    [jwtVerify] is the verification of the JWT plugin, which stores the
    decoded token in [request.user].  The result is the request after the
    hook and what the hook sent, if anything. *)
Definition verifyApiKey (jwtVerify : Request -> string + User) (req : Request)
    : Request * option string :=
  match authorization req with
  | Some a =>
      if Js.truthyStr a then
        match jwtVerify req with
        | inr u => (withUser req (Some u), None)
        | inl err => (req, Some err)
        end
      else (req, None)
  | None => (req, None)
  end.

End Plugin.

(** ** Controller discovery (the application class)

    The directory tree under the [api] directory, as [readdirSync] and
    [statSync] show it: a named file or a named directory with its
    entries.  A path is joined with a slash; entry names have none. *)

Module App.

Inductive Entry :=
| File (name : string)
| Directory (name : string) (entries : list Entry).

(** Induction on a directory tree, with the property known for every entry
    of a directory. *)
Section EntryInduction.
Variable P : Entry -> Prop.
Hypothesis onFile : forall name, P (File name).
Hypothesis onDirectory :
  forall name entries, List.Forall P entries -> P (Directory name entries).

Fixpoint Entry_induction (entry : Entry) : P entry :=
  match entry with
  | File name => onFile name
  | Directory name entries =>
      onDirectory name entries
        ((fix all (es : list Entry) : List.Forall P es :=
            match es with
            | [] => @List.Forall_nil _ P
            | e :: rest => @List.Forall_cons _ P e rest (Entry_induction e) (all rest)
            end) entries)
  end.
End EntryInduction.

(** [s.endsWith(suffix)]: some tail of [s] is [suffix]. *)
Fixpoint endsWith (s suffix : string) : bool :=
  String.eqb s suffix
  || match s with
     | String _ rest => endsWith rest suffix
     | EmptyString => false
     end.

Definition pathJoin (dir name : string) : string := dir +:+ "/" +:+ name.

Definition isController (name : string) : bool :=
  endsWith name ".controller.ts" || endsWith name ".controller.js".

(** The callback of [list.forEach] in [getControllerFiles], with the
    recursive call for a directory. *)
Fixpoint visit (dir : string) (entry : Entry) : list string :=
  match entry with
  | Directory name entries => flat_map (visit (pathJoin dir name)) entries
  | File name => if isController name then [pathJoin dir name] else []
  end.

(** [getControllerFiles(dir)] on a directory with the given entries. *)
Definition getControllerFiles (dir : string) (entries : list Entry) : list string :=
  flat_map (visit dir) entries.

(** A file [name] lies under the directories [dirs] (outermost first) below
    the given entries. *)
Fixpoint holds (entries : list Entry) (dirs : list string) (name : string) : Prop :=
  match dirs with
  | [] => In (File name) entries
  | d :: ds => exists sub, In (Directory d sub) entries /\ holds sub ds name
  end.

(** The path of that file below [dir]. *)
Definition pathOf (dir : string) (dirs : list string) (name : string) : string :=
  pathJoin (foldl pathJoin dir dirs) name.

(** [s.split(path.sep)], the separator being a slash. *)
Fixpoint splitSep (s : string) : list string :=
  match s with
  | EmptyString => [""]
  | String c r =>
      if Ascii.eqb c "/"%char then "" :: splitSep r
      else match splitSep r with
           | x :: xs => String c x :: xs
           | [] => [String c ""]
           end
  end.

Fixpoint stripPrefix (prefix s : string) : option string :=
  match prefix, s with
  | EmptyString, _ => Some s
  | String a p, String b r => if Ascii.eqb a b then stripPrefix p r else None
  | String _ _, EmptyString => None
  end.

(** [path.relative(from, to)] for a path [to] below the directory [from],
    both normalised, which is how [initializeControllers] calls it: what
    follows the directory and a slash.  Other paths are not modelled. *)
Definition relative (from to : string) : option string :=
  stripPrefix (from +:+ "/") to.

(** [parts.shift() || ''] *)
Definition version (parts : list string) : string :=
  match parts with
  | first :: _ => if Js.truthyStr first then first else ""
  | [] => ""
  end.

(** The prefix a controller file is registered with: [`/${version}`]. *)
Definition prefixOf (apiPath filePath : string) : option string :=
  match relative apiPath filePath with
  | Some relativePath => Some ("/" +:+ version (splitSep relativePath))
  | None => None
  end.

(** A name without a slash, as every directory entry has. *)
Fixpoint plain (name : string) : bool :=
  match name with
  | EmptyString => true
  | String c rest => negb (Ascii.eqb c "/"%char) && plain rest
  end.

End App.

(** ** The endpoints as one family

    The requests of the five single-collection endpoints and of the two
    multi-collection endpoints, with what each handler is built from: the
    collection it searches, its query parameters, the table and columns it
    hydrates from, the ids it passes to the store, the key of its [Map], the
    label of its error log and its paging fields. *)

Module Endpoint.

Inductive Single :=
| Movies (r : MovieSearchQuery.t)
| TvSeries (r : TvSeriesSearchQuery.t)
| Persons (r : PersonSearchQuery.t)
| Users (r : UserSearchQuery.t)
| Playlists (userId : option string) (r : PlaylistSearchQuery.t).

Inductive Multi :=
| BestResults (userId : option string) (r : BestResultsSearchQuery.t)
| All (userId : option string) (r : AllSearchQuery.t).

Definition run (env : Env) (s : Single) : list Event * Reply Page :=
  match s with
  | Movies r => Controller.searchMovies env r
  | TvSeries r => Controller.searchTVSeries env r
  | Persons r => Controller.searchPersons env r
  | Users r => Controller.searchUsers env r
  | Playlists userId r => Controller.searchPlaylists env userId r
  end.

Definition runMulti (env : Env) (m : Multi) : list Event * Reply MultiBody :=
  match m with
  | BestResults userId r => Controller.searchBestResult env userId r
  | All userId r => Controller.searchAll env userId r
  end.

Definition collection (s : Single) : string :=
  match s with
  | Movies _ => "movies"
  | TvSeries _ => "tv_series"
  | Persons _ => "persons"
  | Users _ => "users"
  | Playlists _ _ => "playlists"
  end.

Definition params (s : Single) : SearchParams :=
  match s with
  | Movies r => Build.movieParams r
  | TvSeries r => Build.tvParams r
  | Persons r => Build.personParams r
  | Users r => Build.userParams r
  | Playlists userId r => Build.playlistParams userId r
  end.

Definition table (s : Single) : string :=
  match s with
  | Movies _ => "media_movie"
  | TvSeries _ => "media_tv_series"
  | Persons _ => "media_person"
  | Users _ => "user"
  | Playlists _ _ => "playlists"
  end.

Definition columns (s : Single) : string :=
  match s with
  | Playlists _ _ => "*, user(*)"
  | _ => "*"
  end.

(** What is passed to [in('id', ...)]: the ids parsed as integers, or as
    they are for the users. *)
Definition storeIds (s : Single) (ids : list string) : list Js.Id :=
  match s with
  | Users _ => map Js.IdStr ids
  | _ => map Js.parseInt ids
  end.

(** The key a record is stored under in the [Map]: [String(item.id)], or
    [user.id] itself for the users. *)
Definition key (s : Single) : StoreRecord -> Js.Id :=
  match s with
  | Users _ => rec_id
  | _ => Controller.stringKey
  end.

Definition label (s : Single) : string :=
  match s with
  | Movies _ => "Movie search failed"
  | TvSeries _ => "TV series search failed"
  | Persons _ => "Person search failed"
  | Users _ => "User search failed"
  | Playlists _ _ => "Playlist search failed"
  end.

Definition page (s : Single) : Z :=
  match s with
  | Movies r => MovieSearchQuery.page r
  | TvSeries r => TvSeriesSearchQuery.page r
  | Persons r => PersonSearchQuery.page r
  | Users r => UserSearchQuery.page r
  | Playlists _ r => PlaylistSearchQuery.page r
  end.

Definition per_page (s : Single) : Z :=
  match s with
  | Movies r => MovieSearchQuery.per_page r
  | TvSeries r => TvSeriesSearchQuery.per_page r
  | Persons r => PersonSearchQuery.per_page r
  | Users r => UserSearchQuery.per_page r
  | Playlists _ r => PlaylistSearchQuery.per_page r
  end.

(** The searches a multi-collection handler sends. *)
Definition searches (m : Multi) : list (string * SearchParams) :=
  match m with
  | BestResults userId r =>
      Build.bestResultSearches userId (BestResultsSearchQuery.query r)
        (BestResultsSearchQuery.results_per_type r)
  | All userId r => Build.allSearches userId (AllSearchQuery.query r) 5
  end.

(** The store query of one per-type hydration: none for an empty id list. *)
Definition lookupOf (tableName : string) (ids : list Js.Id)
    : list (string * list Js.Id) :=
  match ids with
  | [] => []
  | _ => [(tableName, ids)]
  end.

(** The store queries of the per-type hydrations, in the order in which
    they are started. *)
Definition perTypeLookups (m : Multi) (r1 r2 r3 r4 r5 : TypesenseSearchResult)
    : list (string * list Js.Id) :=
  lookupOf "media_movie" (map Js.IdStr (Controller.idsOf r1))
  ++ lookupOf "media_tv_series" (map Js.IdStr (Controller.idsOf r2))
  ++ lookupOf "media_person" (map Js.IdStr (Controller.idsOf r3))
  ++ lookupOf "user" (map Js.IdStr (Controller.idsOf r4))
  ++ lookupOf "playlists"
       (match m with
        | BestResults _ _ => map Js.parseInt (Controller.idsOf r5)
        | All _ _ => map Js.IdStr (Controller.idsOf r5)
        end).

(** The further store query of the all-types endpoint for the winner. *)
Definition refetch (m : Multi) (r1 r2 r3 r4 r5 : TypesenseSearchResult)
    : list (string * list Js.Id) :=
  match m with
  | BestResults _ _ => []
  | All _ _ =>
      match Best.selectBest (Best.potentialBest r1 r2 r3 r4 r5) with
      | Some meta =>
          [(Controller.getTableNameForType (Best.type meta), [Js.IdStr (Best.id meta)])]
      | None => []
      end
  end.

End Endpoint.

(** The record a [Map] built from [data] holds under [k]: the last record
    of [data] with that key. *)
Definition lastWith (key : StoreRecord -> Js.Id) (data : list StoreRecord) (k : Js.Id)
    : option StoreRecord :=
  List.find (fun item => bool_decide (key item = k)) (rev data).

(** An event of a trace is an engine call. *)
Definition isEngineCall (e : Event) : bool :=
  match e with
  | EngineSearch _ _ | EngineMultiSearch _ => true
  | _ => false
  end.

(** An event of a trace is a store query. *)
Definition isStoreQuery (e : Event) : bool :=
  match e with
  | StoreSelect _ _ _ => true
  | _ => false
  end.

(** The per-type block of a multi-collection response for a type tag of
    the best result. *)
Definition pageFor (body : MultiBody) (type : string) : option Page :=
  if String.eqb type "movie" then Some (movies body)
  else if String.eqb type "tv_series" then Some (tv_series body)
  else if String.eqb type "person" then Some (persons body)
  else if String.eqb type "user" then Some (users body)
  else if String.eqb type "playlist" then Some (playlists body)
  else None.

(** A list of events that are store queries only. *)
Definition StoreOnly (evs : list Event) : Prop :=
  Forall (fun e => isStoreQuery e = true) evs.

(** * Properties *)

(** ** Best-result selection *)

Section BestFacts.

Lemma Qltb_lt (a b : Q) : Best.Qltb a b = true <-> (a < b)%Q.
Proof.
  unfold Best.Qltb. rewrite negb_true_iff.
  split.
  - intros H. apply Qnot_le_lt. intros Hle.
    apply Qle_bool_iff in Hle. congruence.
  - intros H. destruct (Qle_bool b a) eqn:E; [|reflexivity].
    apply Qle_bool_iff in E. exfalso. exact (Qlt_not_le _ _ H E).
Qed.

Lemma Qltb_ge (a b : Q) : Best.Qltb a b = false <-> (b <= a)%Q.
Proof.
  unfold Best.Qltb. rewrite negb_false_iff. apply Qle_bool_iff.
Qed.

Lemma mathMax1_ge_one (xs : list Q) : (1 <= Best.mathMax1 xs)%Q.
Proof.
  induction xs as [|x xs IH]; simpl.
  - apply Qle_refl.
  - eapply Qle_trans; [exact IH | apply Q.le_max_r].
Qed.

Lemma mathMax1_upper (xs : list Q) (x : Q) :
  In x xs -> (x <= Best.mathMax1 xs)%Q.
Proof.
  induction xs as [|y xs IH]; simpl; [tauto|].
  intros [->|Hin].
  - apply Q.le_max_l.
  - eapply Qle_trans; [exact (IH Hin) | apply Q.le_max_r].
Qed.



Variables maxText maxPop : Q.

Let hyb := Best.hybridScore maxText maxPop.
Let step := Best.consider maxText maxPop.

(** An index below the winner's cannot be the index of the last candidate.
    The two lengths may differ in how the element type is written, so the
    hypotheses are used up to conversion. *)
Ltac index_absurd :=
  exfalso;
  match goal with
  | H : (_ < _)%nat |- _ => exact (Nat.lt_irrefl _ H)
  | H : (_ < ?i)%nat, H' : (?i < _)%nat |- _ => exact (Nat.lt_asymm _ _ H H')
  end.

Lemma loop_invariant (cs : list Best.Candidate) :
  Best.LoopInv maxText maxPop cs (foldl step None cs).
Proof.
  induction cs as [|c cs IH] using rev_ind.
  - simpl. intros c [].
  - rewrite foldl_app. simpl.
    destruct c as [ty [hit|]]; unfold step at 1, Best.consider; simpl.
    + destruct (foldl step None cs) as [b|] eqn:Eb.
      * destruct IH as (i & ty0 & hit0 & Hi & -> & Hmax & Hfirst). simpl in *.
        assert (Hlen : (i < length cs)%nat) by (eapply lookup_lt_Some; eauto).
        match goal with
        | |- context [Best.Qltb ?a ?b] => destruct (Best.Qltb a b) eqn:Elt
        end.
        -- apply Qltb_lt in Elt.
           exists (length cs), ty, hit. simpl.
           split; [apply lookup_snoc_Some; right; split; reflexivity|].
           split; [reflexivity|]. split.
           ++ intros j ty' hit' Hj.
              apply lookup_snoc_Some in Hj as [[Hlt Hj]|[-> Heq]].
              ** eapply Qle_trans; [eapply Hmax; eauto | apply Qlt_le_weak; exact Elt].
              ** injection Heq as _ <-. apply Qle_refl.
           ++ intros j ty' hit' Hlt Hj.
              apply lookup_snoc_Some in Hj as [[_ Hj]|[-> _]]; [|index_absurd].
              eapply Qle_lt_trans; [eapply Hmax; eauto | exact Elt].
        -- apply Qltb_ge in Elt.
           exists i, ty0, hit0. simpl.
           split; [apply lookup_snoc_Some; left; split; [exact Hlen | exact Hi]|].
           split; [reflexivity|]. split.
           ++ intros j ty' hit' Hj.
              apply lookup_snoc_Some in Hj as [[Hlt Hj]|[-> Heq]].
              ** eapply Hmax; eauto.
              ** injection Heq as _ <-. exact Elt.
           ++ intros j ty' hit' Hlt Hj.
              apply lookup_snoc_Some in Hj as [[_ Hj]|[-> _]]; [|index_absurd].
              eapply Hfirst; eauto.
      * simpl in IH.
        exists (length cs), ty, hit. simpl.
        split; [apply lookup_snoc_Some; right; split; reflexivity|].
        split; [reflexivity|]. split.
        -- intros j ty' hit' Hj.
           apply lookup_snoc_Some in Hj as [[Hlt Hj]|[-> Heq]].
           ++ apply list_elem_of_lookup_2, list_elem_of_In, IH in Hj. discriminate.
           ++ injection Heq as _ <-. apply Qle_refl.
        -- intros j ty' hit' Hlt Hj.
           apply lookup_snoc_Some in Hj as [[_ Hj]|[-> _]]; [|index_absurd].
           apply list_elem_of_lookup_2, list_elem_of_In, IH in Hj. discriminate.
    + destruct (foldl step None cs) as [b|] eqn:Eb.
      * destruct IH as (i & ty0 & hit0 & Hi & -> & Hmax & Hfirst). simpl in *.
        assert (Hlen : (i < length cs)%nat) by (eapply lookup_lt_Some; eauto).
        exists i, ty0, hit0. simpl.
        split; [apply lookup_snoc_Some; left; split; [exact Hlen | exact Hi]|].
        split; [reflexivity|]. split.
        -- intros j ty' hit' Hj.
           apply lookup_snoc_Some in Hj as [[Hlt Hj]|[-> Heq]].
           ++ eapply Hmax; eauto.
           ++ discriminate.
        -- intros j ty' hit' Hlt Hj.
           apply lookup_snoc_Some in Hj as [[_ Hj]|[-> _]]; [|index_absurd].
           eapply Hfirst; eauto.
      * simpl in *. intros c Hc. apply in_app_or in Hc as [Hc|[<-|[]]]; auto.
Qed.

End BestFacts.



Lemma allHits_In (cs : list Best.Candidate) (h : TypesenseHit) :
  In h (Best.allHits cs) <-> exists ty, In (ty, Some h) cs.
Proof.
  unfold Best.allHits. rewrite <- list_elem_of_In, list_elem_of_omap.
  split.
  - intros ([ty o] & Hin & Ho). simpl in Ho. subst o.
    exists ty. now apply list_elem_of_In.
  - intros (ty & Hin). exists (ty, Some h). split; [now apply list_elem_of_In | reflexivity].
Qed.


(** The scores of the ranking scenario are the doubles 0.92 and 0.55 also
    when the expression is evaluated in binary64 arithmetic. *)
Lemma scenario_in_binary64 :
  Best.hybridBinary64 8 8 100 500 = 0.92%float
  /\ Best.hybridBinary64 4 8 500 500 = 0.55%float.
Proof. split; vm_compute; reflexivity. Qed.



(** ** Hydration *)

Section MapFacts.

Variable key : StoreRecord -> Js.Id.

Lemma mapOf_snoc (data : list StoreRecord) (item : StoreRecord) :
  Controller.mapOf key (data ++ [item])
  = <[key item := item]> (Controller.mapOf key data).
Proof. unfold Controller.mapOf. now rewrite foldl_app. Qed.

(** Every entry of the [Map] is a record of the response, under its key. *)
Lemma mapOf_sound (data : list StoreRecord) (k : Js.Id) (item : StoreRecord) :
  Controller.mapOf key data !! k = Some item -> In item data /\ key item = k.
Proof.
  induction data as [|x data IH] using rev_ind.
  - unfold Controller.mapOf. simpl. rewrite lookup_empty. discriminate.
  - rewrite mapOf_snoc. rewrite lookup_insert. case_decide as Hk.
    + intros [= <-]. split; [apply in_or_app; right; now left | exact Hk].
    + intros H. destruct (IH H) as [Hin Hkey].
      split; [apply in_or_app; now left | exact Hkey].
Qed.

Lemma keys_unique (data : list StoreRecord) (a b : StoreRecord) :
  NoDup (map key data) -> In a data -> In b data -> key a = key b -> a = b.
Proof.
  induction data as [|x data IH]; simpl; [tauto|].
  intros Hnd Ha Hb Hk.
  inversion Hnd as [|? ? Hx Hrest]; subst.
  destruct Ha as [->|Ha], Hb as [->|Hb]; auto.
  - exfalso. apply Hx. rewrite Hk. apply list_elem_of_In, in_map, Hb.
  - exfalso. apply Hx. rewrite <- Hk. apply list_elem_of_In, in_map, Ha.
Qed.

(** With one record per key, the [Map] holds every record of the
    response. *)
Lemma mapOf_complete (data : list StoreRecord) (item : StoreRecord) :
  NoDup (map key data) -> In item data ->
  Controller.mapOf key data !! key item = Some item.
Proof.
  induction data as [|x data IH] using rev_ind; [intros _ []|].
  rewrite map_app, mapOf_snoc. simpl. intros Hnd Hin.
  apply NoDup_app in Hnd as (Hnd & Hfresh & _).
  rewrite lookup_insert. case_decide as Hk.
  - apply in_app_or in Hin as [Hin|[->|[]]]; [|reflexivity].
    exfalso. apply (Hfresh (key item)).
    + apply list_elem_of_In, in_map, Hin.
    + rewrite Hk. now left.
  - apply in_app_or in Hin as [Hin|[->|[]]]; [auto | congruence].
Qed.

Lemma mapOf_lookup (data : list StoreRecord) (k : Js.Id) (item : StoreRecord) :
  NoDup (map key data) ->
  Controller.mapOf key data !! k = Some item <-> In item data /\ key item = k.
Proof.
  intros Hnd. split; [apply mapOf_sound|].
  intros [Hin <-]. now apply mapOf_complete.
Qed.

End MapFacts.

Lemma recordOf_lookup (data : list StoreRecord) (id : string) (item : StoreRecord) :
  NoDup (map renderedId data) ->
  recordOf data id = Some item <-> In item data /\ renderedId item = id.
Proof.
  intros Hnd. unfold recordOf. split.
  - intros H. apply find_some in H as [Hin Hb].
    apply bool_decide_eq_true in Hb. now split.
  - intros [Hin Hid].
    destruct (List.find _ data) as [other|] eqn:E.
    + apply find_some in E as [Hin' Hb]. apply bool_decide_eq_true in Hb.
      f_equal. eapply (keys_unique (fun r => Js.IdStr (renderedId r))); eauto.
      * rewrite <- (map_map renderedId Js.IdStr).
        apply (NoDup_fmap_2 Js.IdStr). exact Hnd.
      * congruence.
    + exfalso. eapply find_none in E; [|exact Hin].
      apply bool_decide_eq_false in E. contradiction.
Qed.

(** The reordering step gives, for any response that is a permutation of
    [data], the records of [data] along the ids. *)
Lemma inOrder_permutation (data response : list StoreRecord) (ids : list string) :
  NoDup (map renderedId data) ->
  Permutation data response ->
  Controller.inOrder (Controller.mapOf Controller.stringKey response) (map Js.IdStr ids)
  = inIdOrder data ids.
Proof.
  intros Hnd Hperm. unfold Controller.inOrder, inIdOrder.
  assert (Hnd' : NoDup (map Controller.stringKey response)).
  { unfold Controller.stringKey.
    rewrite <- (map_map renderedId Js.IdStr).
    apply (NoDup_fmap_2 Js.IdStr).
    apply NoDup_ListNoDup.
    eapply Permutation_NoDup; [apply Permutation_map, Hperm|].
    apply NoDup_ListNoDup, Hnd. }
  assert (E : forall id, Controller.mapOf Controller.stringKey response !! Js.IdStr id
                         = recordOf data id).
  { intros id. destruct (recordOf data id) as [item|] eqn:Er.
    - apply recordOf_lookup in Er as [Hin Hid]; [|exact Hnd].
      apply mapOf_lookup; [exact Hnd'|]. split.
      + eapply Permutation_in; eauto.
      + unfold Controller.stringKey. fold (renderedId item). now rewrite Hid.
    - destruct (Controller.mapOf _ response !! Js.IdStr id) as [item|] eqn:Em;
        [|reflexivity].
      apply mapOf_sound in Em as [Hin Hk].
      unfold Controller.stringKey in Hk. injection Hk as Hk.
      assert (recordOf data id = Some item) as Hsome.
      { apply recordOf_lookup; [exact Hnd|]. split; [|exact Hk].
        eapply Permutation_in; [symmetry; exact Hperm | exact Hin]. }
      congruence. }
  induction ids as [|id ids IH]; [reflexivity|].
  simpl. rewrite E.
  destruct (recordOf data id); [f_equal|]; exact IH.
Qed.

Lemma inIdOrder_ids (data : list StoreRecord) (ids : list string) :
  map renderedId (inIdOrder data ids)
  = filter (fun id => id ∈ map renderedId data) ids.
Proof.
  unfold inIdOrder. induction ids as [|id ids IH]; [reflexivity|].
  rewrite filter_cons.
  change (omap (recordOf data) (id :: ids))
    with (match recordOf data id with
          | Some y => y :: omap (recordOf data) ids
          | None => omap (recordOf data) ids
          end).
  destruct (recordOf data id) as [item|] eqn:E; unfold recordOf in E.
  - apply find_some in E as [Hin Hb]. apply bool_decide_eq_true in Hb.
    rewrite decide_True.
    + simpl. f_equal; [exact Hb | exact IH].
    + rewrite <- Hb. apply list_elem_of_In, in_map, Hin.
  - rewrite decide_False; [exact IH|].
    intros Hel. apply list_elem_of_In, in_map_iff in Hel as (item & Hid & Hin).
    eapply find_none in E; [|exact Hin].
    apply bool_decide_eq_false in E. contradiction.
Qed.

Lemma inIdOrder_In (data : list StoreRecord) (ids : list string) (item : StoreRecord) :
  NoDup (map renderedId data) ->
  In item (inIdOrder data ids) <-> In item data /\ In (renderedId item) ids.
Proof.
  intros Hnd. unfold inIdOrder.
  rewrite <- list_elem_of_In, list_elem_of_omap. split.
  - intros (id & Hid & Hrec).
    apply recordOf_lookup in Hrec as [Hin <-]; [|exact Hnd].
    split; [exact Hin | now apply list_elem_of_In].
  - intros [Hin Hid]. exists (renderedId item).
    split; [now apply list_elem_of_In|].
    apply recordOf_lookup; auto.
Qed.

Lemma length_zero_false {A} (l : list A) :
  l <> [] -> (Z.of_nat (length l) =? 0) = false.
Proof. destruct l; [congruence|]. intros _. apply Z.eqb_neq. simpl. lia. Qed.

(** C2.  For a non-empty id list and a store response that is any
    permutation of the store's records [data] (one record per id), the
    hydrated output is [inIdOrder data ids]: the records of [data] whose id
    occurs in the input, in the input id order, whatever order the store
    answered in.  Ids without a record are left out: the output ids are the
    input ids filtered by membership in the store's ids, so there is no
    empty entry and no gap.  The same holds for the reordering inlined in
    [searchMovies]. *)
Theorem hydration_preserves_order
    (env : Env) (ids : list string) (data response : list StoreRecord) :
  ids <> [] ->
  NoDup (map renderedId data) ->
  Permutation data response ->
  (forall tableName t,
     store_select env tableName "*" (map Js.IdStr ids) = inr response ->
     Controller.hydrateByIds env tableName ids t
     = (t ++ [StoreSelect tableName "*" (map Js.IdStr ids)], inr (inIdOrder data ids)))
  /\ (forall r res,
        engine_search env "movies" (Build.movieParams r) = inr res ->
        Controller.idsOf res = ids ->
        store_select env "media_movie" "*" (map Js.parseInt ids) = inr response ->
        exists pg, snd (Controller.searchMovies env r)
                   = Sent200 {| data := inIdOrder data ids; pagination := pg |})
  /\ map renderedId (inIdOrder data ids)
     = filter (fun id => id ∈ map renderedId data) ids
  /\ (forall item,
        In item (inIdOrder data ids) <-> In item data /\ In (renderedId item) ids).
Proof.
  intros Hne Hnd Hperm. split; [|split; [|split]].
  - intros tableName t Hstore.
    unfold Controller.hydrateByIds. rewrite (length_zero_false _ Hne).
    unfold bind, Controller.select. rewrite Hstore.
    unfold ret. now rewrite (inOrder_permutation data response ids Hnd Hperm).
  - intros r res Hengine Hids Hstore.
    unfold Controller.searchMovies, handler, Controller.runSingle.
    unfold bind at 1. unfold Controller.search. rewrite Hengine, Hids.
    rewrite (length_zero_false _ Hne).
    unfold bind, Controller.select. rewrite Hstore. unfold ret. simpl.
    rewrite (inOrder_permutation data response ids Hnd Hperm).
    eexists. reflexivity.
  - apply inIdOrder_ids.
  - intros item. now apply inIdOrder_In.
Qed.

(** The hydration theorem at a store that answers in reverse order and
    lacks the record of id 3. *)
Lemma hydration_preserves_order_witness :
  let data := [recordN 1 "one"; recordN 2 "two"] in
  let response := [recordN 2 "two"; recordN 1 "one"] in
  let env := envOf (inl "unused") (inl "unused") (fun _ _ => inr response) in
  Controller.hydrateByIds env "media_movie" ["1"; "3"; "2"] []
  = ([StoreSelect "media_movie" "*" [Js.IdStr "1"; Js.IdStr "3"; Js.IdStr "2"]],
     inr [recordN 1 "one"; recordN 2 "two"]).
Proof.
  intros data response env.
  assert (Hne : ["1"; "3"; "2"] <> @nil string) by discriminate.
  assert (Hnd : NoDup (map renderedId data)).
  { apply NoDup_ListNoDup. repeat constructor; simpl; intuition discriminate. }
  assert (Hperm : Permutation data response) by apply perm_swap.
  destruct (hydration_preserves_order env ["1"; "3"; "2"] data response Hne Hnd Hperm)
    as [Hyd _].
  exact (Hyd "media_movie" [] eq_refl).
Defined.

(** ** Failure of a sub-query *)

(** Runs one started promise of the body and names its trace and
    outcome. *)
Ltac run_start :=
  match goal with
  | H : context [bind (start ?m) ?k ?t] |- _ =>
      let t' := fresh "t" in
      let p := fresh "p" in
      let E := fresh "E" in
      unfold bind at 1 in H; unfold start at 1 in H;
      destruct (m t) as [t' p] eqn:E
  end.

Ltac run_await :=
  match goal with
  | H : context [bind (await (inl ?e)) ?k ?t] |- _ =>
      unfold bind at 1 in H; unfold await at 1, throw in H; try discriminate H
  | H : context [bind (await (inr ?a)) ?k ?t] |- _ =>
      unfold bind at 1 in H; unfold await at 1, ret at 1 in H
  end.

Section Failure.

Variable env : Env.







End Failure.





(** ** Sort expressions *)

(** The engine query of a single-collection handler is the second event of
    its trace, after the [log.info]. *)
Lemma runSingle_query (env : Env) (info label collection : string)
    (params : SearchParams) (table columns : string)
    (storeIds : list string -> list Js.Id) (key : StoreRecord -> Js.Id)
    (lookup : string -> Js.Id) (current per : Z) :
  exists rest,
    fst (handler info label
           (Controller.runSingle env collection params table columns storeIds key
              lookup current per))
    = LogInfo info :: EngineSearch collection params :: rest.
Proof.
  unfold handler, Controller.runSingle, bind, Controller.search, Controller.select.
  destruct (engine_search env collection params) as [err|res]; simpl.
  - eexists. reflexivity.
  - destruct (Z.of_nat (length (Controller.idsOf res)) =? 0); simpl.
    + eexists. reflexivity.
    + destruct (store_select env table columns _) as [msg|hydrated]; simpl;
        eexists; reflexivity.
Qed.

(** C4 (as amended).  The movie, tv-series and person queries sort by
    relevance first, with the bucketed tolerance, and then by the
    caller-supplied field in descending order; the user query sorts by
    relevance first and then by the fixed followers_count; the five queries
    of the best-result mode sort by relevance first and then by the type's
    fixed field (popularity for movies, tv series and persons,
    followers_count for users, likes_count for playlists).  The queries of
    the all-types mode carry no sort expression.  Each single-collection
    handler sends exactly the parameters described. *)
Theorem sort_expressions :
  (forall r, RelevanceFirst (MovieSearchQuery.sort_by r) (Build.movieParams r))
  /\ (forall r, RelevanceFirst (TvSeriesSearchQuery.sort_by r) (Build.tvParams r))
  /\ (forall r, RelevanceFirst (PersonSearchQuery.sort_by r) (Build.personParams r))
  /\ (forall r, RelevanceFirstSpaced "followers_count" (Build.userParams r))
  /\ (forall userId query n,
        exists pm pt pp pu pl,
          Build.bestResultSearches userId query n
          = [("movies", pm); ("tv_series", pt); ("persons", pp); ("users", pu);
             ("playlists", pl)]
          /\ RelevanceFirst "popularity" pm
          /\ RelevanceFirst "popularity" pt
          /\ RelevanceFirst "popularity" pp
          /\ RelevanceFirst "followers_count" pu
          /\ RelevanceFirst "likes_count" pl)
  /\ (forall userId query n,
        map (fun e => (fst e, sort_by (snd e))) (Build.allSearches userId query n)
        = [("movies", None); ("tv_series", None); ("persons", None); ("users", None);
           ("playlists", None)])
  /\ (forall env r, exists info rest,
        fst (Controller.searchMovies env r)
        = LogInfo info :: EngineSearch "movies" (Build.movieParams r) :: rest)
  /\ (forall env r, exists info rest,
        fst (Controller.searchTVSeries env r)
        = LogInfo info :: EngineSearch "tv_series" (Build.tvParams r) :: rest)
  /\ (forall env r, exists info rest,
        fst (Controller.searchPersons env r)
        = LogInfo info :: EngineSearch "persons" (Build.personParams r) :: rest)
  /\ (forall env r, exists info rest,
        fst (Controller.searchUsers env r)
        = LogInfo info :: EngineSearch "users" (Build.userParams r) :: rest).
Proof.
  repeat split; try reflexivity.
  - intros userId query n. do 5 eexists. repeat split; reflexivity.
  - intros env r. eexists. apply runSingle_query.
  - intros env r. eexists. apply runSingle_query.
  - intros env r. eexists. apply runSingle_query.
  - intros env r. eexists. apply runSingle_query.
Qed.

(** C4 as stated fails: the queries of the all-types mode have no sort
    expression at all, so none of them places relevance first. *)
Lemma sort_counterexample :
  let e := Build.entry "movies" "dune" 5 "original_title,titles" None None in
  In e (Build.allSearches None "dune" 5)
  /\ sort_by (snd e) = None
  /\ forall secondary, ~ RelevanceFirst secondary (snd e).
Proof.
  intros e. split; [now left|]. split; [reflexivity|].
  intros secondary H. unfold RelevanceFirst in H. simpl in H. discriminate.
Qed.

(** The single-collection playlist query sorts by the caller's field only;
    the relevance key is missing there. *)
Lemma playlist_sort_lacks_relevance :
  let r := {| PlaylistSearchQuery.query := "road trip"; PlaylistSearchQuery.page := 1;
              PlaylistSearchQuery.per_page := 10;
              PlaylistSearchQuery.sort_by := "created_at" |} in
  sort_by (Build.playlistParams None r) = Some "created_at:desc"
  /\ ~ RelevanceFirst "created_at" (Build.playlistParams None r).
Proof.
  intros r. split; [reflexivity|].
  unfold RelevanceFirst. vm_compute. discriminate.
Qed.

(** ** Filter expressions *)

Lemma given_nonzero (z : Z) : z <> 0 -> Build.given (Some z) = true.
Proof.
  intros H. unfold Build.given, Js.truthyZ.
  apply negb_true_iff, Z.eqb_neq, H.
Qed.

Lemma conj_render (e : Grammar.Expr) (es : list Grammar.Expr) :
  exists c, Grammar.conj (e :: es) = Some c
            /\ Grammar.render c = Js.join " && " (map Grammar.render (e :: es)).
Proof.
  revert e. induction es as [|e' es IH]; intros e.
  - exists e. split; reflexivity.
  - destruct (IH e') as (c & Hc & Hr).
    exists (Grammar.And e c). split.
    + change (Grammar.conj (e :: e' :: es))
        with (match Grammar.conj (e' :: es) with
              | Some c => Some (Grammar.And e c)
              | None => Some e
              end).
      now rewrite Hc.
    + change (Js.join " && " (map Grammar.render (e :: e' :: es)))
        with (Grammar.render e +:+ " && "
              +:+ Js.join " && " (map Grammar.render (e' :: es))).
      rewrite <- Hr. reflexivity.
Qed.

Lemma join_render_conj (es : list Grammar.Expr) :
  Build.joinFilters (map Grammar.render es) = option_map Grammar.render (Grammar.conj es).
Proof.
  destruct es as [|e es]; [reflexivity|].
  destruct (conj_render e es) as (c & Hc & Hr).
  rewrite Hc. simpl option_map. rewrite Hr. reflexivity.
Qed.

Lemma existsb_bounds (P : Z -> bool) (ns : list Z) :
  existsb P ns = true <-> exists n, In n ns /\ P n = true.
Proof. apply existsb_exists. Qed.

(** C6 (as amended).  For a numeric dimension whose supplied bounds are not
    zero: both bounds give the closed inclusive range term, a lower bound
    alone the strictly-greater-than term, an upper bound alone the
    strictly-less-than term, and no bound gives no term.  The terms of the
    active dimensions are joined with [&&], which is the conjunction of
    their trees, and the movie and tv-series queries carry the terms of
    their dimensions joined in this way. *)
Theorem range_filter_terms (field : string) (a b : Z) :
  a <> 0 -> b <> 0 ->
  Build.rangeTerm field (Some a) (Some b) = [Grammar.render (Grammar.Range field a b)]
  /\ Build.rangeTerm field (Some a) None = [Grammar.render (Grammar.Gt field a)]
  /\ Build.rangeTerm field None (Some b) = [Grammar.render (Grammar.Lt field b)]
  /\ Build.rangeTerm field None None = []
  /\ (forall d,
        (Grammar.admits (Grammar.Range field a b) d = true
         <-> exists n, In n (Grammar.numbers d field) /\ a <= n <= b)
        /\ (Grammar.admits (Grammar.Gt field a) d = true
            <-> exists n, In n (Grammar.numbers d field) /\ a < n)
        /\ (Grammar.admits (Grammar.Lt field b) d = true
            <-> exists n, In n (Grammar.numbers d field) /\ n < b))
  /\ (forall es, Build.joinFilters (map Grammar.render es)
                 = option_map Grammar.render (Grammar.conj es))
  /\ (forall l r d, Grammar.admits (Grammar.And l r) d
                    = Grammar.admits l d && Grammar.admits r d)
  /\ (forall r,
        filter_by (Build.movieParams r)
        = Build.joinFilters
            (Build.genreTerm (MovieSearchQuery.genre_ids r)
             ++ Build.rangeTerm "runtime" (MovieSearchQuery.runtime_min r)
                  (MovieSearchQuery.runtime_max r)
             ++ Build.rangeTerm "release_date" (MovieSearchQuery.release_date_min r)
                  (MovieSearchQuery.release_date_max r)))
  /\ (forall r,
        filter_by (Build.tvParams r)
        = Build.joinFilters
            (Build.genreTerm (TvSeriesSearchQuery.genre_ids r)
             ++ Build.rangeTerm "number_of_seasons"
                  (TvSeriesSearchQuery.number_of_seasons_min r)
                  (TvSeriesSearchQuery.number_of_seasons_max r)
             ++ Build.rangeTerm "number_of_episodes"
                  (TvSeriesSearchQuery.number_of_episodes_min r)
                  (TvSeriesSearchQuery.number_of_episodes_max r)
             ++ Build.rangeTerm "vote_average"
                  (TvSeriesSearchQuery.vote_average_min r)
                  (TvSeriesSearchQuery.vote_average_max r)
             ++ Build.rangeTerm "first_air_date"
                  (TvSeriesSearchQuery.first_air_date_min r)
                  (TvSeriesSearchQuery.first_air_date_max r)))
  /\ (forall query page per_page sort_by c,
        c <> 0 ->
        filter_by (Build.movieParams
                     {| MovieSearchQuery.query := query;
                        MovieSearchQuery.page := page;
                        MovieSearchQuery.per_page := per_page;
                        MovieSearchQuery.sort_by := sort_by;
                        MovieSearchQuery.genre_ids := None;
                        MovieSearchQuery.runtime_min := Some a;
                        MovieSearchQuery.runtime_max := Some b;
                        MovieSearchQuery.release_date_min := Some c;
                        MovieSearchQuery.release_date_max := None |})
        = Some (Grammar.render
                  (Grammar.And (Grammar.Range "runtime" a b)
                     (Grammar.Gt "release_date" c)))).
Proof.
  intros Ha Hb.
  pose proof (given_nonzero a Ha) as Ga. pose proof (given_nonzero b Hb) as Gb.
  split; [unfold Build.rangeTerm; rewrite Ga, Gb; reflexivity|].
  split; [unfold Build.rangeTerm; rewrite Ga; reflexivity|].
  split; [unfold Build.rangeTerm; rewrite Gb; reflexivity|].
  split; [reflexivity|].
  split.
  { intros d. simpl. rewrite !existsb_bounds. repeat split.
    - intros (n & Hin & Hn). apply andb_true_iff in Hn as [H1 H2].
      exists n. split; [exact Hin|]. split; [now apply Z.leb_le | now apply Z.leb_le].
    - intros (n & Hin & H1 & H2). exists n. split; [exact Hin|].
      apply andb_true_iff. split; now apply Z.leb_le.
    - intros (n & Hin & Hn). exists n. split; [exact Hin | now apply Z.ltb_lt].
    - intros (n & Hin & Hn). exists n. split; [exact Hin | now apply Z.ltb_lt].
    - intros (n & Hin & Hn). exists n. split; [exact Hin | now apply Z.ltb_lt].
    - intros (n & Hin & Hn). exists n. split; [exact Hin | now apply Z.ltb_lt]. }
  split; [exact join_render_conj|].
  split; [reflexivity|].
  split; [reflexivity|].
  split; [reflexivity|].
  intros query page per_page sort_by c Hc.
  pose proof (given_nonzero c Hc) as Gc.
  unfold Build.movieParams, Build.movieFilters. simpl.
  unfold Build.rangeTerm. rewrite Ga, Gb, Gc. reflexivity.
Qed.

(** The filter theorem at the bounds (10, 20), with a second dimension
    bounded below by 5. *)
Lemma range_filter_terms_witness :
  Build.rangeTerm "runtime" (Some 10) (Some 20) = ["runtime: [10..20]"]
  /\ Build.rangeTerm "runtime" (Some 10) None = ["runtime: >10"]
  /\ Build.rangeTerm "runtime" None (Some 20) = ["runtime: <20"]
  /\ Build.rangeTerm "runtime" None None = []
  /\ filter_by (Build.movieParams
                  {| MovieSearchQuery.query := "dune";
                     MovieSearchQuery.page := 1;
                     MovieSearchQuery.per_page := 10;
                     MovieSearchQuery.sort_by := "popularity";
                     MovieSearchQuery.genre_ids := None;
                     MovieSearchQuery.runtime_min := Some 10;
                     MovieSearchQuery.runtime_max := Some 20;
                     MovieSearchQuery.release_date_min := Some 5;
                     MovieSearchQuery.release_date_max := None |})
     = Some "runtime: [10..20] && release_date: >5".
Proof.
  assert (H10 : 10 <> 0) by discriminate.
  assert (H20 : 20 <> 0) by discriminate.
  assert (H5 : 5 <> 0) by discriminate.
  destruct (range_filter_terms "runtime" 10 20 H10 H20)
    as (Hboth & Hmin & Hmax & Hnone & _ & _ & _ & _ & _ & Hand).
  split; [exact Hboth|]. split; [exact Hmin|]. split; [exact Hmax|].
  split; [exact Hnone|].
  exact (Hand "dune" 1 10 "popularity" 5 H5).
Defined.

(** C6 as stated fails: a lower bound of zero is present, yet with an upper
    bound of 20 the term is the strictly-less-than term and not the closed
    range, and alone it gives no term instead of the greater-than term. *)
Lemma range_filter_counterexample :
  Build.rangeTerm "runtime" (Some 0) (Some 20) = ["runtime: <20"]
  /\ Build.rangeTerm "runtime" (Some 0) (Some 20)
     <> [Grammar.render (Grammar.Range "runtime" 0 20)]
  /\ Build.rangeTerm "runtime" (Some 0) None = []
  /\ Build.rangeTerm "runtime" (Some 0) None
     <> [Grammar.render (Grammar.Gt "runtime" 0)].
Proof.
  repeat split; try reflexivity; vm_compute; discriminate.
Qed.



(** ** The playlist permission filter *)

Lemma truthyStr_nonempty (s : string) : s <> "" -> Js.truthyStr s = true.
Proof. destruct s; [congruence | reflexivity]. Qed.







(** ** Pagination and the zero-hit return *)

Lemma ceilDiv_spec (a b : Z) :
  0 < b -> exists k, Js.ceilDiv a b = Js.Fin k /\ (k - 1) * b < a /\ a <= k * b.
Proof.
  intros Hb. unfold Js.ceilDiv.
  rewrite (proj2 (Z.eqb_neq b 0)) by lia.
  set (x := (inject_Z a / inject_Z b)%Q).
  exists (Qceiling x). split; [reflexivity|].
  assert (Hbq : (0 < inject_Z b)%Q).
  { change (inject_Z 0 < inject_Z b)%Q. rewrite <- Zlt_Qlt. exact Hb. }
  assert (Hx : (x * inject_Z b == inject_Z a)%Q).
  { unfold x. field. intros H. rewrite H in Hbq. exact (Qlt_irrefl _ Hbq). }
  split.
  - rewrite Zlt_Qlt, inject_Z_mult, <- Hx.
    apply Qmult_lt_compat_r; [exact Hbq | apply Qceiling_lt].
  - rewrite Zle_Qle, inject_Z_mult, <- Hx.
    apply Qmult_le_compat_r; [apply Qle_ceiling | apply Qlt_le_weak, Hbq].
Qed.

Lemma length_zero_true {A} (l : list A) :
  l = [] -> (Z.of_nat (length l) =? 0) = true.
Proof. intros ->. reflexivity. Qed.

Lemma idsOf_empty (res : TypesenseSearchResult) :
  hits res = None \/ hits res = Some [] -> Controller.idsOf res = [].
Proof. unfold Controller.idsOf. intros [->| ->]; reflexivity. Qed.

(** The early return of a single-collection handler. *)
Lemma runSingle_empty (env : Env) (info label collection : string)
    (params : SearchParams) (table columns : string)
    (storeIds : list string -> list Js.Id) (key : StoreRecord -> Js.Id)
    (lookup : string -> Js.Id) (current per : Z) (res : TypesenseSearchResult) :
  engine_search env collection params = inr res ->
  Controller.idsOf res = [] ->
  handler info label
    (Controller.runSingle env collection params table columns storeIds key lookup
       current per)
  = ([LogInfo info; EngineSearch collection params],
     Sent200 (Controller.emptyPage current per)).
Proof.
  intros Hengine Hids.
  unfold handler, Controller.runSingle, bind, Controller.search.
  rewrite Hengine, Hids. reflexivity.
Qed.

(** The pagination of a single-collection handler that went on to the
    store. *)
Lemma runSingle_page (env : Env) (info label collection : string)
    (params : SearchParams) (table columns : string)
    (storeIds : list string -> list Js.Id) (key : StoreRecord -> Js.Id)
    (lookup : string -> Js.Id) (current per : Z) (res : TypesenseSearchResult)
    (body : Page) :
  engine_search env collection params = inr res ->
  Controller.idsOf res <> [] ->
  snd (handler info label
         (Controller.runSingle env collection params table columns storeIds key lookup
            current per))
  = Sent200 body ->
  pagination body = Controller.paginate (found res) current per.
Proof.
  intros Hengine Hids.
  unfold handler, Controller.runSingle, bind, Controller.search, Controller.select.
  rewrite Hengine, (length_zero_false _ Hids).
  destruct (store_select env table columns _) as [msg|hydrated]; simpl;
    intros [= <-]; reflexivity.
Qed.

(** The five pagination blocks of [searchBestResult]. *)
Lemma bestResultBody_pages (env : Env) (userId : option string)
    (r : BestResultsSearchQuery.t) (t t' : list Event) (body : MultiBody) :
  Controller.bestResultBody env userId r t = (t', inr body) ->
  exists r1 r2 r3 r4 r5 rest,
    engine_multiSearch env
      (Build.bestResultSearches userId (BestResultsSearchQuery.query r)
         (BestResultsSearchQuery.results_per_type r))
    = inr (r1 :: r2 :: r3 :: r4 :: r5 :: rest)
    /\ let n := BestResultsSearchQuery.results_per_type r in
       pagination (movies body) = Controller.paginate (found r1) 1 n
       /\ pagination (tv_series body) = Controller.paginate (found r2) 1 n
       /\ pagination (persons body) = Controller.paginate (found r3) 1 n
       /\ pagination (users body) = Controller.paginate (found r4) 1 n
       /\ pagination (playlists body) = Controller.paginate (found r5) 1 n.
Proof.
  unfold Controller.bestResultBody. intros H.
  unfold bind at 1 in H. unfold Controller.multiSearch at 1 in H.
  destruct (engine_multiSearch env _) as [err|results] eqn:Em; [discriminate|].
  destruct results as [|r1 [|r2 [|r3 [|r4 [|r5 rest]]]]]; try discriminate H.
  do 5 run_start.
  destruct p as [?|h1], p0 as [?|h2], p1 as [?|h3], p2 as [?|h4], p3 as [?|h5];
    repeat run_await.
  unfold ret in H. injection H as _ <-.
  exists r1, r2, r3, r4, r5, rest. split; [reflexivity|].
  simpl. repeat split; reflexivity.
Qed.

(** The five pagination blocks of [searchAll]. *)
Lemma allBody_pages (env : Env) (userId : option string)
    (r : AllSearchQuery.t) (t t' : list Event) (body : MultiBody) :
  Controller.allBody env userId r t = (t', inr body) ->
  exists r1 r2 r3 r4 r5 rest,
    engine_multiSearch env (Build.allSearches userId (AllSearchQuery.query r) 5)
    = inr (r1 :: r2 :: r3 :: r4 :: r5 :: rest)
    /\ pagination (movies body) = Controller.paginate (found r1) 1 5
    /\ pagination (tv_series body) = Controller.paginate (found r2) 1 5
    /\ pagination (persons body) = Controller.paginate (found r3) 1 5
    /\ pagination (users body) = Controller.paginate (found r4) 1 5
    /\ pagination (playlists body) = Controller.paginate (found r5) 1 5.
Proof.
  unfold Controller.allBody. intros H.
  unfold bind at 1 in H. unfold Controller.multiSearch at 1 in H.
  destruct (engine_multiSearch env _) as [err|results] eqn:Em; [discriminate|].
  destruct results as [|r1 [|r2 [|r3 [|r4 [|r5 rest]]]]]; try discriminate H.
  do 6 run_start.
  destruct p as [?|h1], p0 as [?|h2], p1 as [?|h3], p2 as [?|h4], p3 as [?|h5],
    p4 as [?|h6]; repeat run_await.
  unfold ret in H. injection H as _ <-.
  exists r1, r2, r3, r4, r5, rest. split; [reflexivity|].
  simpl. repeat split; reflexivity.
Qed.

Lemma handler_sent {A} (info label : string) (m : M A) (body : A) :
  snd (handler info label m) = Sent200 body ->
  exists t, m [LogInfo info] = (t, inr body).
Proof.
  unfold handler. destruct (m [LogInfo info]) as [t [e|a]]; simpl.
  - discriminate.
  - intros [= ->]. now exists t.
Qed.

(** C8 (as amended).  For [per_page >= 1] and a match count [found >= 0],
    [total_pages] is the ceiling of [found / per_page]: the least [k] with
    [found <= k * per_page], and it is 0 exactly when [found] is 0.  A
    single-collection result that has at least one hit carries
    [total_results = found] (the engine's count), that [total_pages], and
    the [page] and [per_page] of the request.  Every per-type block of a
    multi-collection response carries [total_results = found] of its type,
    the ceiling over the shared size (the requested [results_per_type], or 5
    in the all-types mode), [current_page = 1] and that size as
    [per_page]. *)
Theorem pagination_block (count per : Z) :
  1 <= per -> 0 <= count ->
  (exists k,
     Js.ceilDiv count per = Js.Fin k
     /\ (k - 1) * per < count <= k * per
     /\ (forall j, count <= j * per -> k <= j)
     /\ (k = 0 <-> count = 0))
  /\ (forall current,
        Controller.paginate count current per
        = {| total_results := count; total_pages := Js.ceilDiv count per;
             current_page := current; pg_per_page := per |})
  /\ (forall env r res body,
        engine_search env "movies" (Build.movieParams r) = inr res ->
        Controller.idsOf res <> [] ->
        snd (Controller.searchMovies env r) = Sent200 body ->
        pagination body
        = Controller.paginate (found res) (MovieSearchQuery.page r)
            (MovieSearchQuery.per_page r))
  /\ (forall env r res body,
        engine_search env "tv_series" (Build.tvParams r) = inr res ->
        Controller.idsOf res <> [] ->
        snd (Controller.searchTVSeries env r) = Sent200 body ->
        pagination body
        = Controller.paginate (found res) (TvSeriesSearchQuery.page r)
            (TvSeriesSearchQuery.per_page r))
  /\ (forall env r res body,
        engine_search env "persons" (Build.personParams r) = inr res ->
        Controller.idsOf res <> [] ->
        snd (Controller.searchPersons env r) = Sent200 body ->
        pagination body
        = Controller.paginate (found res) (PersonSearchQuery.page r)
            (PersonSearchQuery.per_page r))
  /\ (forall env r res body,
        engine_search env "users" (Build.userParams r) = inr res ->
        Controller.idsOf res <> [] ->
        snd (Controller.searchUsers env r) = Sent200 body ->
        pagination body
        = Controller.paginate (found res) (UserSearchQuery.page r)
            (UserSearchQuery.per_page r))
  /\ (forall env userId r res body,
        engine_search env "playlists" (Build.playlistParams userId r) = inr res ->
        Controller.idsOf res <> [] ->
        snd (Controller.searchPlaylists env userId r) = Sent200 body ->
        pagination body
        = Controller.paginate (found res) (PlaylistSearchQuery.page r)
            (PlaylistSearchQuery.per_page r))
  /\ (forall env userId r body,
        snd (Controller.searchBestResult env userId r) = Sent200 body ->
        exists r1 r2 r3 r4 r5 rest,
          engine_multiSearch env
            (Build.bestResultSearches userId (BestResultsSearchQuery.query r)
               (BestResultsSearchQuery.results_per_type r))
          = inr (r1 :: r2 :: r3 :: r4 :: r5 :: rest)
          /\ let n := BestResultsSearchQuery.results_per_type r in
             pagination (movies body) = Controller.paginate (found r1) 1 n
             /\ pagination (tv_series body) = Controller.paginate (found r2) 1 n
             /\ pagination (persons body) = Controller.paginate (found r3) 1 n
             /\ pagination (users body) = Controller.paginate (found r4) 1 n
             /\ pagination (playlists body) = Controller.paginate (found r5) 1 n)
  /\ (forall env userId r body,
        snd (Controller.searchAll env userId r) = Sent200 body ->
        exists r1 r2 r3 r4 r5 rest,
          engine_multiSearch env (Build.allSearches userId (AllSearchQuery.query r) 5)
          = inr (r1 :: r2 :: r3 :: r4 :: r5 :: rest)
          /\ pagination (movies body) = Controller.paginate (found r1) 1 5
          /\ pagination (tv_series body) = Controller.paginate (found r2) 1 5
          /\ pagination (persons body) = Controller.paginate (found r3) 1 5
          /\ pagination (users body) = Controller.paginate (found r4) 1 5
          /\ pagination (playlists body) = Controller.paginate (found r5) 1 5).
Proof.
  intros Hper Hcount.
  split.
  { destruct (ceilDiv_spec count per) as (k & Hk & Hlo & Hhi); [lia|].
    exists k. split; [exact Hk|]. split; [split; assumption|]. split.
    - intros j Hj. nia.
    - split; intros H; nia. }
  split; [reflexivity|].
  split; [intros env r res body; apply runSingle_page|].
  split; [intros env r res body; apply runSingle_page|].
  split; [intros env r res body; apply runSingle_page|].
  split; [intros env r res body; apply runSingle_page|].
  split; [intros env userId r res body; apply runSingle_page|].
  split.
  - intros env userId r body H. apply handler_sent in H as [t H].
    eapply bestResultBody_pages, H.
  - intros env userId r body H. apply handler_sent in H as [t H].
    eapply allBody_pages, H.
Qed.

(** The pagination theorem at 101 matches and pages of 10: eleven pages,
    on the second page of a movie search. *)
Lemma pagination_block_witness :
  let res := resultOf [hitOf "7" (Some 3%Q) (Some 1%Q) None None] 101 in
  let env := envOf (inr res) (inl "unused") echoStore in
  Js.ceilDiv 101 10 = Js.Fin 11
  /\ exists body,
       snd (Controller.searchMovies env (movieQuery "dune" 2 10)) = Sent200 body
       /\ pagination body
          = {| total_results := 101; total_pages := Js.Fin 11;
               current_page := 2; pg_per_page := 10 |}.
Proof.
  intros res env.
  assert (H1 : 1 <= 10) by discriminate.
  assert (H0 : 0 <= 101) by discriminate.
  destruct (pagination_block 101 10 H1 H0) as (_ & _ & Hmovies & _).
  split; [reflexivity|].
  destruct (snd (Controller.searchMovies env (movieQuery "dune" 2 10)))
    as [body|err] eqn:E; [|vm_compute in E; discriminate E].
  exists body. split; [reflexivity|].
  assert (Hids : Controller.idsOf res <> []) by discriminate.
  rewrite (Hmovies env (movieQuery "dune" 2 10) res body eq_refl Hids E).
  reflexivity.
Defined.

(** C8 as stated fails: on a page past the last one the engine reports its
    100 matches with an empty hit list, and the single-collection result
    then says [total_results = 0] and [total_pages = 0]. *)
Lemma total_results_counterexample :
  let res := {| hits := Some []; found := 100; res_per_page := 10 |} in
  let env := envOf (inr res) (inl "unused") echoStore in
  exists body,
    snd (Controller.searchMovies env (movieQuery "dune" 11 10)) = Sent200 body
    /\ found res = 100
    /\ total_results (pagination body) = 0
    /\ total_results (pagination body) <> found res
    /\ total_pages (pagination body) = Js.Fin 0
    /\ Js.ceilDiv (found res) 10 = Js.Fin 10.
Proof.
  intros res env. eexists. split; [vm_compute; reflexivity|].
  repeat split; try reflexivity. simpl. discriminate.
Qed.

(** C9.  When the engine answers a single-collection query with an absent
    or empty hit list, the handler's trace is the [log.info] and the engine
    query alone, so the store is not queried, and the reply is the
    successful response with no data, [total_results = 0],
    [total_pages = 0] and the [page] and [per_page] of the request.  This
    holds for the five single-collection handlers; [hydrateByIds] likewise
    returns the empty list without a store query on an empty id list. *)
Theorem zero_hit_short_circuit (env : Env) (res : TypesenseSearchResult) :
  hits res = None \/ hits res = Some [] ->
  (forall r,
     engine_search env "movies" (Build.movieParams r) = inr res ->
     exists info,
       Controller.searchMovies env r
       = ([LogInfo info; EngineSearch "movies" (Build.movieParams r)],
          Sent200 {| data := [];
                     pagination :=
                       {| total_results := 0; total_pages := Js.Fin 0;
                          current_page := MovieSearchQuery.page r;
                          pg_per_page := MovieSearchQuery.per_page r |} |}))
  /\ (forall r,
        engine_search env "tv_series" (Build.tvParams r) = inr res ->
        exists info,
          Controller.searchTVSeries env r
          = ([LogInfo info; EngineSearch "tv_series" (Build.tvParams r)],
             Sent200 {| data := [];
                        pagination :=
                          {| total_results := 0; total_pages := Js.Fin 0;
                             current_page := TvSeriesSearchQuery.page r;
                             pg_per_page := TvSeriesSearchQuery.per_page r |} |}))
  /\ (forall r,
        engine_search env "persons" (Build.personParams r) = inr res ->
        exists info,
          Controller.searchPersons env r
          = ([LogInfo info; EngineSearch "persons" (Build.personParams r)],
             Sent200 {| data := [];
                        pagination :=
                          {| total_results := 0; total_pages := Js.Fin 0;
                             current_page := PersonSearchQuery.page r;
                             pg_per_page := PersonSearchQuery.per_page r |} |}))
  /\ (forall r,
        engine_search env "users" (Build.userParams r) = inr res ->
        exists info,
          Controller.searchUsers env r
          = ([LogInfo info; EngineSearch "users" (Build.userParams r)],
             Sent200 {| data := [];
                        pagination :=
                          {| total_results := 0; total_pages := Js.Fin 0;
                             current_page := UserSearchQuery.page r;
                             pg_per_page := UserSearchQuery.per_page r |} |}))
  /\ (forall userId r,
        engine_search env "playlists" (Build.playlistParams userId r) = inr res ->
        exists info,
          Controller.searchPlaylists env userId r
          = ([LogInfo info; EngineSearch "playlists" (Build.playlistParams userId r)],
             Sent200 {| data := [];
                        pagination :=
                          {| total_results := 0; total_pages := Js.Fin 0;
                             current_page := PlaylistSearchQuery.page r;
                             pg_per_page := PlaylistSearchQuery.per_page r |} |}))
  /\ (forall tableName t,
        Controller.hydrateByIds env tableName [] t = (t, inr [])).
Proof.
  intros Hhits. pose proof (idsOf_empty res Hhits) as Hids.
  repeat split.
  - intros r He. eexists. unfold Controller.searchMovies.
    now rewrite (runSingle_empty _ _ _ _ _ _ _ _ _ _ _ _ res He Hids).
  - intros r He. eexists. unfold Controller.searchTVSeries.
    now rewrite (runSingle_empty _ _ _ _ _ _ _ _ _ _ _ _ res He Hids).
  - intros r He. eexists. unfold Controller.searchPersons.
    now rewrite (runSingle_empty _ _ _ _ _ _ _ _ _ _ _ _ res He Hids).
  - intros r He. eexists. unfold Controller.searchUsers.
    now rewrite (runSingle_empty _ _ _ _ _ _ _ _ _ _ _ _ res He Hids).
  - intros userId r He. eexists. unfold Controller.searchPlaylists.
    now rewrite (runSingle_empty _ _ _ _ _ _ _ _ _ _ _ _ res He Hids).
Qed.

(** The zero-hit theorem at a movie search the engine has no match for. *)
Lemma zero_hit_short_circuit_witness :
  let res := {| hits := Some []; found := 0; res_per_page := 10 |} in
  let env := envOf (inr res) (inl "unused") echoStore in
  storeQueries (fst (Controller.searchMovies env (movieQuery "zzzz" 3 10))) = []
  /\ snd (Controller.searchMovies env (movieQuery "zzzz" 3 10))
     = Sent200 {| data := [];
                  pagination := {| total_results := 0; total_pages := Js.Fin 0;
                                   current_page := 3; pg_per_page := 10 |} |}.
Proof.
  intros res env.
  assert (Hhits : hits res = None \/ hits res = Some []) by (right; reflexivity).
  destruct (zero_hit_short_circuit env res Hhits) as (Hmovies & _).
  destruct (Hmovies (movieQuery "zzzz" 3 10) eq_refl) as [info Heq].
  rewrite Heq. split; reflexivity.
Defined.

(** ** The record of the best result *)

Lemma storeQueries_app (t u : list Event) :
  storeQueries (t ++ u) = storeQueries t ++ storeQueries u.
Proof. unfold storeQueries. apply omap_app. Qed.

Lemma hydrateByIds_count (env : Env) (tableName : string) (ids : list string)
    (t t' : list Event) (p : string + list StoreRecord) :
  Controller.hydrateByIds env tableName ids t = (t', p) ->
  (length (storeQueries t') <= S (length (storeQueries t)))%nat.
Proof.
  unfold Controller.hydrateByIds.
  destruct (Z.of_nat (length ids) =? 0).
  - intros [= <- _]. lia.
  - unfold bind, Controller.select.
    destruct (store_select env tableName "*" _) as [msg|data];
      intros [= <- _]; rewrite storeQueries_app, length_app; simpl; lia.
Qed.

Lemma hydratePlaylists_count (env : Env) (ids : list Js.Id)
    (t t' : list Event) (p : string + list StoreRecord) :
  Controller.hydratePlaylists env ids t = (t', p) ->
  (length (storeQueries t') <= S (length (storeQueries t)))%nat.
Proof.
  unfold Controller.hydratePlaylists.
  destruct (Z.of_nat (length ids) =? 0).
  - intros [= <- _]. lia.
  - unfold bind, Controller.select.
    destruct (store_select env "playlists" "*, user(*)" ids) as [msg|data];
      intros [= <- _]; rewrite storeQueries_app, length_app; simpl; lia.
Qed.

(** [searchBestResult] issues at most the five per-type lookups, whatever
    their outcome. *)
Lemma bestResultBody_count (env : Env) (userId : option string)
    (r : BestResultsSearchQuery.t) (t t' : list Event) (res : string + MultiBody) :
  Controller.bestResultBody env userId r t = (t', res) ->
  (length (storeQueries t') <= 5 + length (storeQueries t))%nat.
Proof.
  unfold Controller.bestResultBody. intros H.
  unfold bind at 1 in H. unfold Controller.multiSearch at 1 in H.
  assert (H0 : length (storeQueries (t ++ [EngineMultiSearch
             (Build.bestResultSearches userId (BestResultsSearchQuery.query r)
                (BestResultsSearchQuery.results_per_type r))]))
               = length (storeQueries t)).
  { rewrite storeQueries_app, length_app. simpl. lia. }
  destruct (engine_multiSearch env _) as [err|results].
  { injection H as <- _. lia. }
  destruct results as [|r1 [|r2 [|r3 [|r4 [|r5 rest]]]]];
    try (unfold throw in H; injection H as <- _; lia).
  do 5 run_start.
  apply hydrateByIds_count in E, E0, E1, E2. apply hydratePlaylists_count in E3.
  destruct p as [?|h1], p0 as [?|h2], p1 as [?|h3], p2 as [?|h4], p3 as [?|h5];
    repeat run_await; unfold ret, throw in H; injection H as <- _; lia.
Qed.

(** The winner's record is read out of the hydrated list of its type. *)
Lemma pickBest_from_lists (meta : Best.Meta) (h1 h2 h3 h4 h5 : list StoreRecord)
    (item : StoreRecord) :
  Controller.pickBest meta h1 h2 h3 h4 h5 = Some item ->
  (Best.type meta = "movie" /\ In item h1)
  \/ (Best.type meta = "tv_series" /\ In item h2)
  \/ (Best.type meta = "person" /\ In item h3)
  \/ (Best.type meta = "user" /\ In item h4)
  \/ (Best.type meta = "playlist" /\ In item h5).
Proof.
  unfold Controller.pickBest.
  destruct (String.eqb_spec (Best.type meta) "movie") as [->|_].
  { intros H. apply find_some in H as [H _]. tauto. }
  destruct (String.eqb_spec (Best.type meta) "tv_series") as [->|_].
  { intros H. apply find_some in H as [H _]. tauto. }
  destruct (String.eqb_spec (Best.type meta) "person") as [->|_].
  { intros H. apply find_some in H as [H _]. tauto. }
  destruct (String.eqb_spec (Best.type meta) "user") as [->|_].
  { intros H. apply find_some in H as [H _]. tauto. }
  destruct (String.eqb_spec (Best.type meta) "playlist") as [->|_].
  { intros H. apply find_some in H as [H _]. tauto. }
  discriminate.
Qed.

(** The best-results variant meets the single-source design: at most five
    store queries are issued in a request, and the record of the best result
    is an element of the per-type list of its type in the same response. *)
Theorem best_results_reuses_hydration (env : Env) (userId : option string)
    (r : BestResultsSearchQuery.t) :
  (length (storeQueries (fst (Controller.searchBestResult env userId r))) <= 5)%nat
  /\ forall body best item,
       snd (Controller.searchBestResult env userId r) = Sent200 body ->
       bestResult body = Some best ->
       br_data best = Some item ->
       (br_type best = "movie" /\ In item (data (movies body)))
       \/ (br_type best = "tv_series" /\ In item (data (tv_series body)))
       \/ (br_type best = "person" /\ In item (data (persons body)))
       \/ (br_type best = "user" /\ In item (data (users body)))
       \/ (br_type best = "playlist" /\ In item (data (playlists body))).
Proof.
  split.
  - unfold Controller.searchBestResult, handler.
    destruct (Controller.bestResultBody env userId r [LogInfo _]) as [t [err|body]] eqn:E;
      apply bestResultBody_count in E; simpl in *.
    + rewrite storeQueries_app, length_app. simpl. lia.
    + lia.
  - intros body best item H Hbest Hdata.
    apply handler_sent in H as [t H].
    unfold Controller.bestResultBody in H.
    unfold bind at 1 in H. unfold Controller.multiSearch at 1 in H.
    destruct (engine_multiSearch env _) as [err|results]; [discriminate|].
    destruct results as [|r1 [|r2 [|r3 [|r4 [|r5 rest]]]]]; try discriminate H.
    do 5 run_start.
    destruct p as [?|h1], p0 as [?|h2], p1 as [?|h3], p2 as [?|h4], p3 as [?|h5];
      repeat run_await.
    unfold ret in H. injection H as _ <-. simpl in *.
    destruct (Best.selectBest _) as [meta|]; [|discriminate].
    injection Hbest as <-. simpl in *.
    now apply pickBest_from_lists.
Qed.

(** C5 at its failing input: one movie hit and a store that has its
    record.  [searchAll] queries the store twice for the movie, once for the
    per-type list and once more for the best result, and takes the best
    result's record from the second answer; [searchBestResult] on the same
    input queries once. *)
Theorem all_mode_refetches_best_result :
  let env := envOf (inl "unused") (inr oneMovie) echoStore in
  storeQueries (fst (Controller.searchAll env None {| AllSearchQuery.query := "dune" |}))
  = [("media_movie", [Js.IdStr "1"]); ("media_movie", [Js.IdStr "1"])]
  /\ storeQueries
       (fst (Controller.searchBestResult env None
               {| BestResultsSearchQuery.query := "dune";
                  BestResultsSearchQuery.results_per_type := 5 |}))
     = [("media_movie", [Js.IdStr "1"])]
  /\ exists body,
       snd (Controller.searchAll env None {| AllSearchQuery.query := "dune" |})
       = Sent200 body
       /\ bestResult body
          = Some {| br_type := "movie";
                    br_data := Some {| rec_id := Js.IdNum 1; rec_body := "media_movie" |} |}.
Proof.
  intros env. split; [vm_compute; reflexivity|].
  split; [vm_compute; reflexivity|].
  eexists. split; vm_compute; reflexivity.
Qed.

(** A request in which every sub-query succeeds is answered with the five
    per-type lists and the winner's record out of the movies' list. *)
Lemma best_results_success_example :
  let env := envOf (inl "unused") (inr fiveResults) echoStore in
  let r := {| BestResultsSearchQuery.query := "dune";
              BestResultsSearchQuery.results_per_type := 5 |} in
  exists body,
    snd (Controller.searchBestResult env None r) = Sent200 body
    /\ bestResult body
       = Some {| br_type := "movie";
                 br_data := Some {| rec_id := Js.IdNum 1; rec_body := "media_movie" |} |}
    /\ data (movies body) = [{| rec_id := Js.IdNum 1; rec_body := "media_movie" |}]
    /\ data (playlists body) = [recordN 5 "playlists"]
    /\ length (storeQueries (fst (Controller.searchBestResult env None r))) = 5%nat.
Proof.
  intros env r. eexists. split; [vm_compute; reflexivity|].
  repeat split; vm_compute; reflexivity.
Qed.

(** * Further properties of the code *)

(** ** Outcomes of the single-collection handlers *)

Lemma run_unfold (env : Env) (s : Endpoint.Single) :
  exists info,
    Endpoint.run env s
    = handler info (Endpoint.label s)
        (Controller.runSingle env (Endpoint.collection s) (Endpoint.params s)
           (Endpoint.table s) (Endpoint.columns s) (Endpoint.storeIds s)
           (Endpoint.key s) Js.IdStr (Endpoint.page s) (Endpoint.per_page s)).
Proof. destruct s; eexists; reflexivity. Qed.

(** X1.  When the engine rejects the query of a single-collection handler,
    the handler logs the error under its own label and replies with the
    generic 500 error; the store is not queried. *)
Theorem single_engine_failure (env : Env) (s : Endpoint.Single) (e : string) :
  engine_search env (Endpoint.collection s) (Endpoint.params s) = inl e ->
  exists info,
    Endpoint.run env s
    = ([LogInfo info;
        EngineSearch (Endpoint.collection s) (Endpoint.params s);
        LogError e (Endpoint.label s)],
       Sent500 genericError).
Proof.
  intros He. destruct (run_unfold env s) as [info ->]. exists info.
  unfold handler, Controller.runSingle, bind, Controller.search.
  rewrite He. reflexivity.
Qed.

Lemma single_engine_failure_witness :
  let env := envOf (inl "engine down") (inl "unused") echoStore in
  exists info,
    Controller.searchUsers env
      {| UserSearchQuery.query := "ann"; UserSearchQuery.page := 1;
         UserSearchQuery.per_page := 10; UserSearchQuery.exclude_ids := None |}
    = ([LogInfo info;
        EngineSearch "users"
          (Build.userParams
             {| UserSearchQuery.query := "ann"; UserSearchQuery.page := 1;
                UserSearchQuery.per_page := 10; UserSearchQuery.exclude_ids := None |});
        LogError "engine down" "User search failed"],
       Sent500 genericError).
Proof.
  intros env.
  exact (single_engine_failure env
           (Endpoint.Users
              {| UserSearchQuery.query := "ann"; UserSearchQuery.page := 1;
                 UserSearchQuery.per_page := 10; UserSearchQuery.exclude_ids := None |})
           "engine down" eq_refl).
Defined.

(** X2.  When the store answers the lookup of a single-collection handler
    with an error, the handler has issued exactly that one store query, logs
    the store's message as it is under its own label, and replies with the
    generic 500 error. *)
Theorem single_store_failure (env : Env) (s : Endpoint.Single)
    (res : TypesenseSearchResult) (message : string) :
  engine_search env (Endpoint.collection s) (Endpoint.params s) = inr res ->
  Controller.idsOf res <> [] ->
  store_select env (Endpoint.table s) (Endpoint.columns s)
    (Endpoint.storeIds s (Controller.idsOf res)) = inl message ->
  exists info,
    Endpoint.run env s
    = ([LogInfo info;
        EngineSearch (Endpoint.collection s) (Endpoint.params s);
        StoreSelect (Endpoint.table s) (Endpoint.columns s)
          (Endpoint.storeIds s (Controller.idsOf res));
        LogError message (Endpoint.label s)],
       Sent500 genericError).
Proof.
  intros He Hids Hs. destruct (run_unfold env s) as [info ->]. exists info.
  unfold handler, Controller.runSingle, bind, Controller.search, Controller.select.
  rewrite He, (length_zero_false _ Hids), Hs. reflexivity.
Qed.

Lemma single_store_failure_witness :
  let res := resultOf [hitOf "7" (Some 3%Q) (Some 1%Q) None None] 1 in
  let env := envOf (inr res) (inl "unused") (failingStore "media_movie") in
  snd (Controller.searchMovies env (movieQuery "dune" 1 10)) = Sent500 genericError
  /\ last (fst (Controller.searchMovies env (movieQuery "dune" 1 10)))
     = Some (LogError "connection lost" "Movie search failed").
Proof.
  intros res env.
  assert (Hids : Controller.idsOf res <> []) by discriminate.
  destruct (single_store_failure env (Endpoint.Movies (movieQuery "dune" 1 10)) res
              "connection lost" eq_refl Hids eq_refl) as [info Heq].
  simpl in Heq. rewrite Heq. split; reflexivity.
Defined.

(** X3.  A single-collection handler replies with a 200 response exactly
    when the engine answered and either there is no hit or the store
    answered with data; in every other case the reply is the generic 500
    error. *)
Theorem single_success_iff (env : Env) (s : Endpoint.Single) :
  ((exists body, snd (Endpoint.run env s) = Sent200 body)
   <-> exists res,
         engine_search env (Endpoint.collection s) (Endpoint.params s) = inr res
         /\ (Controller.idsOf res = []
             \/ exists data,
                  store_select env (Endpoint.table s) (Endpoint.columns s)
                    (Endpoint.storeIds s (Controller.idsOf res)) = inr data))
  /\ ((forall body, snd (Endpoint.run env s) <> Sent200 body)
      -> snd (Endpoint.run env s) = Sent500 genericError).
Proof.
  destruct (run_unfold env s) as [info ->].
  unfold handler, Controller.runSingle, bind, Controller.search, Controller.select.
  destruct (engine_search env _ _) as [e|res]; simpl.
  - split; [split|].
    + intros [body H]. discriminate.
    + intros (res & H & _). discriminate.
    + reflexivity.
  - destruct (Controller.idsOf res) as [|i ids] eqn:Hids; simpl.
    + split; [split|].
      * intros _. exists res. split; [reflexivity | now left].
      * intros _. eexists. reflexivity.
      * intros H. exfalso. eapply H. reflexivity.
    + destruct (store_select env _ _ _) as [msg|data] eqn:Hs; simpl.
      * split; [split|].
        -- intros [body H]. discriminate.
        -- intros (res' & [= <-] & [H|[data H]]); [|rewrite Hids in H]; congruence.
        -- reflexivity.
      * split; [split|].
        -- intros _. exists res. split; [reflexivity|]. right.
           exists data. now rewrite Hids.
        -- intros _. eexists. reflexivity.
        -- intros H. exfalso. eapply H. reflexivity.
Qed.

Lemma single_success_iff_witness :
  let res := resultOf [hitOf "7" (Some 3%Q) (Some 1%Q) None None] 1 in
  let env := envOf (inr res) (inl "unused") echoStore in
  exists body, snd (Controller.searchMovies env (movieQuery "dune" 1 10)) = Sent200 body.
Proof.
  intros res env.
  apply (proj1 (single_success_iff env (Endpoint.Movies (movieQuery "dune" 1 10)))).
  exists res. split; [reflexivity|]. right. eexists. reflexivity.
Defined.

(** ** Hydration on an arbitrary store response *)

Lemma mapOf_lastWith (key : StoreRecord -> Js.Id) (data : list StoreRecord) (k : Js.Id) :
  Controller.mapOf key data !! k = lastWith key data k.
Proof.
  unfold lastWith.
  induction data as [|x data IH] using rev_ind.
  - unfold Controller.mapOf. simpl. apply lookup_empty.
  - rewrite mapOf_snoc, rev_unit. simpl.
    rewrite lookup_insert. case_decide as Hk.
    + now rewrite bool_decide_eq_true_2.
    + now rewrite bool_decide_eq_false_2.
Qed.

Lemma inOrder_lastWith (key : StoreRecord -> Js.Id) (data : list StoreRecord)
    (ks : list Js.Id) :
  Controller.inOrder (Controller.mapOf key data) ks = omap (lastWith key data) ks.
Proof.
  unfold Controller.inOrder.
  induction ks as [|k ks IH]; [reflexivity|].
  simpl. rewrite mapOf_lastWith.
  destruct (lastWith key data k); [f_equal|]; exact IH.
Qed.

Lemma lastWith_sound (key : StoreRecord -> Js.Id) (data : list StoreRecord)
    (k : Js.Id) (item : StoreRecord) :
  lastWith key data k = Some item -> In item data /\ key item = k.
Proof.
  unfold lastWith. intros H. apply find_some in H as [Hin Hb].
  apply bool_decide_eq_true in Hb. split; [|exact Hb].
  now apply in_rev.
Qed.

Lemma lastWith_present (key : StoreRecord -> Js.Id) (data : list StoreRecord)
    (k : Js.Id) :
  is_Some (lastWith key data k) <-> In k (map key data).
Proof.
  split.
  - intros [item H]. apply lastWith_sound in H as [Hin <-]. now apply in_map.
  - intros H. apply in_map_iff in H as (item & <- & Hin).
    unfold lastWith.
    destruct (List.find _ (rev data)) as [x|] eqn:E; [now exists x|].
    exfalso. eapply find_none in E; [|apply in_rev; rewrite rev_involutive; exact Hin].
    apply bool_decide_eq_false in E. now apply E.
Qed.

Lemma find_append {A} (f : A -> bool) (l1 l2 : list A) :
  List.find f (l1 ++ l2)
  = match List.find f l1 with Some x => Some x | None => List.find f l2 end.
Proof.
  induction l1 as [|x l1 IH]; [reflexivity|].
  simpl. destruct (f x); [reflexivity | exact IH].
Qed.

(** The keys of the reordered records are the requested keys that the
    response has, in the requested order. *)
Lemma omap_lastWith_keys (key : StoreRecord -> Js.Id) (data : list StoreRecord)
    (ks : list Js.Id) :
  map key (omap (lastWith key data) ks) = filter (fun k => k ∈ map key data) ks.
Proof.
  induction ks as [|k ks IH]; [reflexivity|].
  rewrite filter_cons.
  change (omap (lastWith key data) (k :: ks))
    with (match lastWith key data k with
          | Some y => y :: omap (lastWith key data) ks
          | None => omap (lastWith key data) ks
          end).
  destruct (lastWith key data k) as [item|] eqn:E.
  - pose proof (lastWith_sound _ _ _ _ E) as [Hin Hk].
    rewrite decide_True.
    + simpl. now rewrite Hk, IH.
    + rewrite <- Hk. apply list_elem_of_In, in_map, Hin.
  - rewrite decide_False; [exact IH|].
    intros Hel. apply list_elem_of_In, lastWith_present in Hel.
    rewrite E in Hel. now destruct Hel.
Qed.

(** X4.  [hydrateByIds] on any store response, also one that repeats an id:
    for each input id, in input order, it returns the last record of the
    response whose id renders as that id.  So every returned record comes
    from the response, the ids of the output are the input ids that occur
    in the response, in the input order, and the output is never longer
    than the input. *)
Theorem hydrate_any_response (env : Env) (tableName : string) (ids : list string)
    (data : list StoreRecord) (t : list Event) :
  ids <> [] ->
  store_select env tableName "*" (map Js.IdStr ids) = inr data ->
  let out := omap (fun id => lastWith Controller.stringKey data (Js.IdStr id)) ids in
  Controller.hydrateByIds env tableName ids t
  = (t ++ [StoreSelect tableName "*" (map Js.IdStr ids)], inr out)
  /\ (forall item, In item out -> In item data /\ In (renderedId item) ids)
  /\ map renderedId out = filter (fun id => id ∈ map renderedId data) ids
  /\ sublist (map renderedId out) ids
  /\ (length out <= length ids)%nat
  /\ (forall before item behind,
        data = before ++ item :: behind ->
        ~ In (renderedId item) (map renderedId behind) ->
        lastWith Controller.stringKey data (Js.IdStr (renderedId item)) = Some item).
Proof.
  intros Hne Hstore out.
  assert (Hout : out = omap (lastWith Controller.stringKey data) (map Js.IdStr ids)).
  { unfold out. clear. induction ids as [|i ids IH]; [reflexivity|].
    simpl. destruct (lastWith _ data (Js.IdStr i)); [f_equal|]; exact IH. }
  assert (Hkeys : map renderedId out = filter (fun id => id ∈ map renderedId data) ids).
  { unfold out. clear. induction ids as [|i ids IH]; [reflexivity|].
    rewrite filter_cons.
    change (omap (fun id => lastWith Controller.stringKey data (Js.IdStr id)) (i :: ids))
      with (match lastWith Controller.stringKey data (Js.IdStr i) with
            | Some y =>
                y :: omap (fun id => lastWith Controller.stringKey data (Js.IdStr id)) ids
            | None => omap (fun id => lastWith Controller.stringKey data (Js.IdStr id)) ids
            end).
    destruct (lastWith Controller.stringKey data (Js.IdStr i)) as [item|] eqn:E.
    - pose proof (lastWith_sound _ _ _ _ E) as [Hin Hk].
      unfold Controller.stringKey in Hk. injection Hk as Hk. fold (renderedId item) in Hk.
      rewrite decide_True.
      + simpl. now rewrite Hk, IH.
      + rewrite <- Hk. apply list_elem_of_In, in_map, Hin.
    - rewrite decide_False; [exact IH|].
      intros Hel. apply list_elem_of_In, in_map_iff in Hel as (item & Hi & Hin).
      assert (is_Some (lastWith Controller.stringKey data (Js.IdStr i))) as [x Hx].
      { apply lastWith_present. apply in_map_iff. exists item.
        split; [|exact Hin]. unfold Controller.stringKey. fold (renderedId item).
        now rewrite Hi. }
      congruence. }
  split.
  { unfold Controller.hydrateByIds. rewrite (length_zero_false _ Hne).
    unfold bind, Controller.select. rewrite Hstore. unfold ret.
    now rewrite inOrder_lastWith, Hout. }
  split.
  { intros item Hin. unfold out in Hin.
    apply list_elem_of_In, list_elem_of_omap in Hin as (id & Hid & Hl).
    apply lastWith_sound in Hl as [Hdata Hk].
    unfold Controller.stringKey in Hk. injection Hk as Hk.
    split; [exact Hdata|]. fold (renderedId item) in Hk. rewrite Hk.
    now apply list_elem_of_In. }
  split; [exact Hkeys|].
  split; [rewrite Hkeys; apply sublist_filter|].
  split.
  { rewrite <- (length_map renderedId out), Hkeys. apply length_filter. }
  intros before item behind -> Hfresh.
  unfold lastWith. rewrite rev_app_distr. simpl. rewrite <- app_assoc. simpl.
  rewrite find_append.
  destruct (List.find _ (rev behind)) as [x|] eqn:E.
  - exfalso. apply find_some in E as [Hin Hb]. apply bool_decide_eq_true in Hb.
    apply Hfresh. unfold Controller.stringKey in Hb. injection Hb as Hb.
    fold (renderedId x) in Hb. rewrite <- Hb. apply in_map. now apply in_rev.
  - simpl. now rewrite bool_decide_eq_true_2.
Qed.

Lemma hydrate_any_response_witness :
  let data := [recordN 1 "old"; recordN 2 "two"; recordN 1 "new"] in
  let env := envOf (inl "unused") (inl "unused") (fun _ _ => inr data) in
  Controller.hydrateByIds env "media_movie" ["2"; "9"; "1"] []
  = ([StoreSelect "media_movie" "*" [Js.IdStr "2"; Js.IdStr "9"; Js.IdStr "1"]],
     inr [recordN 2 "two"; recordN 1 "new"]).
Proof.
  intros data env.
  assert (Hne : ["2"; "9"; "1"] <> @nil string) by discriminate.
  exact (proj1 (hydrate_any_response env "media_movie" ["2"; "9"; "1"] data []
                  Hne eq_refl)).
Defined.

Lemma parseInt_not_string (s t : string) : Js.parseInt s <> Js.IdStr t.
Proof.
  unfold Js.parseInt.
  destruct (match Js.skipSpaces s with
            | String "-"%char r => (true, r)
            | String "+"%char r => (false, r)
            | _ => (false, Js.skipSpaces s)
            end) as [neg u].
  destruct (fst (Js.digitsFrom None u)); discriminate.
Qed.

(** X5.  [hydratePlaylists] compares ids as they are, without rendering
    them: for each requested id, in the requested order, it returns the
    last record of the response whose id is that very value.  The ids of
    the output are the requested ids that occur among the ids of the
    response.  The ids it is called with in [searchBestResult] are parsed
    integers, so when the store renders every playlist id as a string no
    playlist is returned. *)
Theorem hydratePlaylists_raw_ids (env : Env) (ids : list Js.Id)
    (data : list StoreRecord) (t : list Event) :
  ids <> [] ->
  store_select env "playlists" "*, user(*)" ids = inr data ->
  let out := omap (lastWith rec_id data) ids in
  Controller.hydratePlaylists env ids t
  = (t ++ [StoreSelect "playlists" "*, user(*)" ids], inr out)
  /\ map rec_id out = filter (fun k => k ∈ map rec_id data) ids
  /\ (forall item, In item out -> In item data /\ In (rec_id item) ids)
  /\ ((exists engineIds, ids = map Js.parseInt engineIds) ->
      (forall item, In item data -> exists s, rec_id item = Js.IdStr s) ->
      out = []).
Proof.
  intros Hne Hstore out.
  split.
  { unfold Controller.hydratePlaylists. rewrite (length_zero_false _ Hne).
    unfold bind, Controller.select. rewrite Hstore. unfold ret.
    now rewrite inOrder_lastWith. }
  split; [apply omap_lastWith_keys|].
  assert (Hsound : forall item, In item out -> In item data /\ In (rec_id item) ids).
  { intros item Hin. unfold out in Hin.
    apply list_elem_of_In, list_elem_of_omap in Hin as (k & Hk & Hl).
    apply lastWith_sound in Hl as [Hdata ->].
    split; [exact Hdata | now apply list_elem_of_In]. }
  split; [exact Hsound|].
  intros [engineIds ->] Hstrings.
  destruct out as [|item rest] eqn:E; [reflexivity|].
  exfalso. destruct (Hsound item (or_introl eq_refl)) as [Hdata Hid].
  destruct (Hstrings item Hdata) as [s Hs]. rewrite Hs in Hid.
  apply in_map_iff in Hid as (x & Hx & _). exact (parseInt_not_string _ _ Hx).
Qed.

Lemma hydratePlaylists_raw_ids_witness :
  let data := [ {| rec_id := Js.IdStr "5"; rec_body := "as text" |};
                recordN 6 "as number" ] in
  let env := envOf (inl "unused") (inl "unused") (fun _ _ => inr data) in
  Controller.hydratePlaylists env [Js.IdNum 5; Js.IdNum 6] []
  = ([StoreSelect "playlists" "*, user(*)" [Js.IdNum 5; Js.IdNum 6]],
     inr [recordN 6 "as number"]).
Proof.
  intros data env.
  assert (Hne : [Js.IdNum 5; Js.IdNum 6] <> []) by discriminate.
  exact (proj1 (hydratePlaylists_raw_ids env [Js.IdNum 5; Js.IdNum 6] data []
                  Hne eq_refl)).
Defined.

Lemma single_response (env : Env) (s : Endpoint.Single)
    (res : TypesenseSearchResult) (answer : list StoreRecord) :
  engine_search env (Endpoint.collection s) (Endpoint.params s) = inr res ->
  Controller.idsOf res <> [] ->
  store_select env (Endpoint.table s) (Endpoint.columns s)
    (Endpoint.storeIds s (Controller.idsOf res)) = inr answer ->
  exists info,
    Endpoint.run env s
    = ([LogInfo info;
        EngineSearch (Endpoint.collection s) (Endpoint.params s);
        StoreSelect (Endpoint.table s) (Endpoint.columns s)
          (Endpoint.storeIds s (Controller.idsOf res))],
       Sent200 {| data := omap (lastWith (Endpoint.key s) answer)
                            (map Js.IdStr (Controller.idsOf res));
                  pagination :=
                    Controller.paginate (found res) (Endpoint.page s)
                      (Endpoint.per_page s) |}).
Proof.
  intros He Hids Hs.
  destruct (run_unfold env s) as [info ->]. exists info.
  unfold handler, Controller.runSingle, bind, Controller.search, Controller.select.
  rewrite He, (length_zero_false _ Hids), Hs. unfold ret.
  now rewrite inOrder_lastWith.
Qed.

(** X6.  The 200 response of a single-collection handler that has hits:
    the trace is the [log.info], the engine query and one store query, the
    data are, along the engine's ids, the last record of the store's answer
    stored under that id, and the pagination is built from the engine's
    count.  The keys of the data are a subsequence of the engine's ids, so
    the rank order is kept and no record is invented. *)
Theorem single_success_response (env : Env) (s : Endpoint.Single)
    (res : TypesenseSearchResult) (answer : list StoreRecord) :
  engine_search env (Endpoint.collection s) (Endpoint.params s) = inr res ->
  Controller.idsOf res <> [] ->
  store_select env (Endpoint.table s) (Endpoint.columns s)
    (Endpoint.storeIds s (Controller.idsOf res)) = inr answer ->
  let out := omap (lastWith (Endpoint.key s) answer)
               (map Js.IdStr (Controller.idsOf res)) in
  (exists info,
     Endpoint.run env s
     = ([LogInfo info;
         EngineSearch (Endpoint.collection s) (Endpoint.params s);
         StoreSelect (Endpoint.table s) (Endpoint.columns s)
           (Endpoint.storeIds s (Controller.idsOf res))],
        Sent200 {| data := out;
                   pagination :=
                     Controller.paginate (found res) (Endpoint.page s)
                       (Endpoint.per_page s) |}))
  /\ sublist (map (Endpoint.key s) out) (map Js.IdStr (Controller.idsOf res))
  /\ (forall item, In item out -> In item answer)
  /\ (length out <= length (Controller.idsOf res))%nat.
Proof.
  intros He Hids Hs out.
  assert (Hkeys : map (Endpoint.key s) out
                  = filter (fun k => k ∈ map (Endpoint.key s) answer)
                      (map Js.IdStr (Controller.idsOf res)))
    by apply omap_lastWith_keys.
  split; [exact (single_response env s res answer He Hids Hs)|].
  split; [rewrite Hkeys; apply sublist_filter|].
  split.
  { intros item Hin. unfold out in Hin.
    apply list_elem_of_In, list_elem_of_omap in Hin as (k & _ & Hl).
    now apply lastWith_sound in Hl as [Hdata _]. }
  rewrite <- (length_map (Endpoint.key s) out), Hkeys.
  rewrite <- (length_map Js.IdStr (Controller.idsOf res)). apply length_filter.
Qed.

Lemma single_success_response_witness :
  let res := resultOf [hitOf "7" (Some 3%Q) (Some 1%Q) None None;
                       hitOf "05" (Some 2%Q) (Some 1%Q) None None] 2 in
  let env := envOf (inr res) (inl "unused") echoStore in
  exists info,
    Controller.searchMovies env (movieQuery "dune" 1 10)
    = ([LogInfo info;
        EngineSearch "movies" (Build.movieParams (movieQuery "dune" 1 10));
        StoreSelect "media_movie" "*" [Js.IdNum 7; Js.IdNum 5]],
       Sent200 {| data := [ {| rec_id := Js.IdNum 7; rec_body := "media_movie" |} ];
                  pagination := {| total_results := 2; total_pages := Js.Fin 1;
                                   current_page := 1; pg_per_page := 10 |} |}).
Proof.
  intros res env.
  assert (Hids : Controller.idsOf res <> []) by discriminate.
  destruct (single_success_response env (Endpoint.Movies (movieQuery "dune" 1 10)) res
              [recordN 7 "media_movie"; recordN 5 "media_movie"]
              eq_refl Hids eq_refl) as [[info Heq] _].
  exists info. exact Heq.
Defined.

(** ** The store queries of the multi-collection handlers *)

Lemma lookupOf_strings (tableName : string) (ids : list string) :
  Endpoint.lookupOf tableName (map Js.IdStr ids)
  = match ids with [] => [] | _ => [(tableName, map Js.IdStr ids)] end.
Proof. destruct ids; reflexivity. Qed.

Lemma hydrateByIds_queries (env : Env) (tableName : string) (ids : list string)
    (t t' : list Event) (p : string + list StoreRecord) :
  Controller.hydrateByIds env tableName ids t = (t', p) ->
  storeQueries t' = storeQueries t ++ Endpoint.lookupOf tableName (map Js.IdStr ids).
Proof.
  unfold Controller.hydrateByIds. destruct ids as [|i ids].
  - simpl. intros [= <- _]. now rewrite app_nil_r.
  - rewrite length_zero_false by discriminate.
    unfold bind, Controller.select.
    destruct (store_select env tableName "*" _) as [msg|data];
      intros [= <- _]; now rewrite storeQueries_app.
Qed.

Lemma hydratePlaylists_queries (env : Env) (ids : list Js.Id)
    (t t' : list Event) (p : string + list StoreRecord) :
  Controller.hydratePlaylists env ids t = (t', p) ->
  storeQueries t' = storeQueries t ++ Endpoint.lookupOf "playlists" ids.
Proof.
  unfold Controller.hydratePlaylists. destruct ids as [|i ids].
  - simpl. intros [= <- _]. now rewrite app_nil_r.
  - rewrite length_zero_false by discriminate.
    unfold bind, Controller.select.
    destruct (store_select env "playlists" "*, user(*)" _) as [msg|data];
      intros [= <- _]; now rewrite storeQueries_app.
Qed.

Lemma bestResultBody_queries (env : Env) (userId : option string)
    (r : BestResultsSearchQuery.t) (t t' : list Event) (res : string + MultiBody)
    (r1 r2 r3 r4 r5 : TypesenseSearchResult) (rest : list TypesenseSearchResult) :
  engine_multiSearch env (Endpoint.searches (Endpoint.BestResults userId r))
  = inr (r1 :: r2 :: r3 :: r4 :: r5 :: rest) ->
  Controller.bestResultBody env userId r t = (t', res) ->
  storeQueries t'
  = storeQueries t
    ++ Endpoint.perTypeLookups (Endpoint.BestResults userId r) r1 r2 r3 r4 r5.
Proof.
  unfold Controller.bestResultBody. simpl Endpoint.searches. intros Hm H.
  unfold bind at 1 in H. unfold Controller.multiSearch at 1 in H.
  rewrite Hm in H.
  do 5 run_start.
  apply hydrateByIds_queries in E, E0, E1, E2. apply hydratePlaylists_queries in E3.
  assert (Ht : storeQueries t4
               = storeQueries t
                 ++ Endpoint.perTypeLookups (Endpoint.BestResults userId r) r1 r2 r3 r4 r5).
  { rewrite E3, E2, E1, E0, E. rewrite storeQueries_app. simpl.
    unfold Endpoint.perTypeLookups. rewrite app_nil_r, <- !app_assoc. reflexivity. }
  destruct p as [?|h1], p0 as [?|h2], p1 as [?|h3], p2 as [?|h4], p3 as [?|h5];
    repeat run_await; unfold ret, throw in H; injection H as <- _; exact Ht.
Qed.

Lemma allBody_queries (env : Env) (userId : option string)
    (r : AllSearchQuery.t) (t t' : list Event) (res : string + MultiBody)
    (r1 r2 r3 r4 r5 : TypesenseSearchResult) (rest : list TypesenseSearchResult) :
  engine_multiSearch env (Endpoint.searches (Endpoint.All userId r))
  = inr (r1 :: r2 :: r3 :: r4 :: r5 :: rest) ->
  Controller.allBody env userId r t = (t', res) ->
  storeQueries t'
  = storeQueries t
    ++ Endpoint.perTypeLookups (Endpoint.All userId r) r1 r2 r3 r4 r5
    ++ Endpoint.refetch (Endpoint.All userId r) r1 r2 r3 r4 r5.
Proof.
  unfold Controller.allBody. simpl Endpoint.searches. intros Hm H.
  unfold bind at 1 in H. unfold Controller.multiSearch at 1 in H.
  rewrite Hm in H.
  do 6 run_start.
  apply hydrateByIds_queries in E, E0, E1, E2, E3.
  assert (E4' : storeQueries t5
                = storeQueries t4
                  ++ Endpoint.refetch (Endpoint.All userId r) r1 r2 r3 r4 r5).
  { unfold Endpoint.refetch.
    destruct (Best.selectBest _) as [meta|].
    - apply hydrateByIds_queries in E4. exact E4.
    - unfold ret in E4. injection E4 as <- _. now rewrite app_nil_r. }
  assert (Ht : storeQueries t5
               = storeQueries t
                 ++ Endpoint.perTypeLookups (Endpoint.All userId r) r1 r2 r3 r4 r5
                 ++ Endpoint.refetch (Endpoint.All userId r) r1 r2 r3 r4 r5).
  { rewrite E4', E3, E2, E1, E0, E. rewrite storeQueries_app. simpl.
    unfold Endpoint.perTypeLookups. rewrite app_nil_r, <- !app_assoc. reflexivity. }
  destruct p as [?|h1], p0 as [?|h2], p1 as [?|h3], p2 as [?|h4], p3 as [?|h5],
    p4 as [?|h6];
    repeat run_await; unfold ret, throw in H; injection H as <- _; exact Ht.
Qed.

Lemma handler_queries {A} (info label : string) (m : M A) :
  storeQueries (fst (handler info label m)) = storeQueries (fst (m [LogInfo info])).
Proof.
  unfold handler. destruct (m [LogInfo info]) as [t [e|a]]; simpl; [|reflexivity].
  rewrite storeQueries_app. simpl. apply app_nil_r.
Qed.

Lemma best_results_queries (env : Env) (userId : option string)
    (r : BestResultsSearchQuery.t)
    (r1 r2 r3 r4 r5 : TypesenseSearchResult) (rest : list TypesenseSearchResult) :
  let m := Endpoint.BestResults userId r in
  engine_multiSearch env (Endpoint.searches m) = inr (r1 :: r2 :: r3 :: r4 :: r5 :: rest) ->
  storeQueries (fst (Controller.searchBestResult env userId r))
  = Endpoint.perTypeLookups m r1 r2 r3 r4 r5.
Proof.
  intros m Hm. unfold Controller.searchBestResult. rewrite handler_queries.
  destruct (Controller.bestResultBody env userId r [LogInfo _]) as [t' res] eqn:E.
  cbn [fst]. now rewrite (bestResultBody_queries _ _ _ _ _ _ _ _ _ _ _ _ Hm E).
Qed.

Lemma all_mode_queries (env : Env) (userId : option string) (r : AllSearchQuery.t)
    (r1 r2 r3 r4 r5 : TypesenseSearchResult) (rest : list TypesenseSearchResult) :
  let m := Endpoint.All userId r in
  engine_multiSearch env (Endpoint.searches m) = inr (r1 :: r2 :: r3 :: r4 :: r5 :: rest) ->
  storeQueries (fst (Controller.searchAll env userId r))
  = Endpoint.perTypeLookups m r1 r2 r3 r4 r5 ++ Endpoint.refetch m r1 r2 r3 r4 r5.
Proof.
  intros m Hm. unfold Controller.searchAll. rewrite handler_queries.
  destruct (Controller.allBody env userId r [LogInfo _]) as [t' res] eqn:E.
  cbn [fst]. now rewrite (allBody_queries _ _ _ _ _ _ _ _ _ _ _ _ Hm E).
Qed.

(** X7.  The store queries of a multi-collection request are settled by the
    engine's answer alone: one lookup for each collection that has at least
    one hit, in the order movies, tv series, persons, users, playlists, with
    all the ids of that collection, and none for a collection without hits;
    the all-types handler then adds the lookup of the winner.  This holds
    whether the lookups succeed or fail: a failed lookup does not stop the
    later ones from being issued. *)
Theorem multi_store_queries (env : Env) (m : Endpoint.Multi)
    (r1 r2 r3 r4 r5 : TypesenseSearchResult) (rest : list TypesenseSearchResult) :
  engine_multiSearch env (Endpoint.searches m) = inr (r1 :: r2 :: r3 :: r4 :: r5 :: rest) ->
  storeQueries (fst (Endpoint.runMulti env m))
  = Endpoint.perTypeLookups m r1 r2 r3 r4 r5 ++ Endpoint.refetch m r1 r2 r3 r4 r5.
Proof.
  intros Hm. destruct m as [userId r|userId r]; simpl Endpoint.runMulti.
  - rewrite (best_results_queries env userId r r1 r2 r3 r4 r5 rest Hm).
    simpl Endpoint.refetch. now rewrite app_nil_r.
  - exact (all_mode_queries env userId r r1 r2 r3 r4 r5 rest Hm).
Qed.

Lemma multi_store_queries_witness :
  let env := envOf (inl "unused") (inr fiveResults) (failingStore "media_movie") in
  storeQueries
    (fst (Controller.searchBestResult env None
            {| BestResultsSearchQuery.query := "dune";
               BestResultsSearchQuery.results_per_type := 5 |}))
  = [ ("media_movie", [Js.IdStr "1"]); ("media_tv_series", [Js.IdStr "2"]);
      ("media_person", [Js.IdStr "3"]); ("user", [Js.IdStr "4"]);
      ("playlists", [Js.IdNum 5]) ].
Proof.
  intros env.
  exact (multi_store_queries env
           (Endpoint.BestResults None
              {| BestResultsSearchQuery.query := "dune";
                 BestResultsSearchQuery.results_per_type := 5 |})
           _ _ _ _ _ [] eq_refl).
Defined.

(** The winner of the selection is the first hit of one of the five
    collections, under the type of that collection. *)
Lemma selectBest_origin (r1 r2 r3 r4 r5 : TypesenseSearchResult) (meta : Best.Meta) :
  Best.selectBest (Best.potentialBest r1 r2 r3 r4 r5) = Some meta ->
  exists hit,
    Best.id meta = doc_id (document hit)
    /\ ((Best.type meta = "movie" /\ Best.firstHit r1 = Some hit)
        \/ (Best.type meta = "tv_series" /\ Best.firstHit r2 = Some hit)
        \/ (Best.type meta = "person" /\ Best.firstHit r3 = Some hit)
        \/ (Best.type meta = "user" /\ Best.firstHit r4 = Some hit)
        \/ (Best.type meta = "playlist" /\ Best.firstHit r5 = Some hit)).
Proof.
  intros E.
  pose proof (loop_invariant
                (Best.maxTextScore (Best.potentialBest r1 r2 r3 r4 r5))
                (Best.maxPopularity (Best.potentialBest r1 r2 r3 r4 r5))
                (Best.potentialBest r1 r2 r3 r4 r5)) as Inv.
  unfold Best.LoopInv in Inv. fold (Best.selectBest (Best.potentialBest r1 r2 r3 r4 r5)) in Inv.
  rewrite E in Inv. destruct Inv as (i & ty & hit & Hi & -> & _).
  exists hit. split; [reflexivity|]. simpl.
  unfold Best.potentialBest in Hi.
  destruct i as [|[|[|[|[|i]]]]]; simpl in Hi; try discriminate;
    injection Hi as <- Hhit; rewrite Hhit; tauto.
Qed.

Lemma firstHit_ids (r : TypesenseSearchResult) (hit : TypesenseHit) :
  Best.firstHit r = Some hit ->
  exists others, Controller.idsOf r = doc_id (document hit) :: others.
Proof.
  unfold Best.firstHit, Controller.idsOf.
  destruct (hits r) as [[|h hs]|]; try discriminate.
  intros [= ->]. eexists. reflexivity.
Qed.

(** X8.  The further lookup of the all-types handler asks for nothing new:
    whenever it is issued, the same table has been asked in the same request,
    by the per-type lookup of the winner's collection, for a list of ids
    that begins with the winner's id. *)
Theorem refetch_is_redundant (env : Env) (userId : option string) (r : AllSearchQuery.t)
    (r1 r2 r3 r4 r5 : TypesenseSearchResult) (rest : list TypesenseSearchResult)
    (meta : Best.Meta) :
  engine_multiSearch env (Build.allSearches userId (AllSearchQuery.query r) 5)
  = inr (r1 :: r2 :: r3 :: r4 :: r5 :: rest) ->
  Best.selectBest (Best.potentialBest r1 r2 r3 r4 r5) = Some meta ->
  exists before tableName others,
    storeQueries (fst (Controller.searchAll env userId r))
    = before ++ [(tableName, [Js.IdStr (Best.id meta)])]
    /\ In (tableName, Js.IdStr (Best.id meta) :: others) before.
Proof.
  intros Hm Hbest.
  rewrite (all_mode_queries env userId r r1 r2 r3 r4 r5 rest Hm).
  unfold Endpoint.refetch. rewrite Hbest.
  exists (Endpoint.perTypeLookups (Endpoint.All userId r) r1 r2 r3 r4 r5),
    (Controller.getTableNameForType (Best.type meta)).
  destruct (selectBest_origin _ _ _ _ _ _ Hbest) as (hit & Hid & Horigin).
  unfold Endpoint.perTypeLookups.
  destruct Horigin as [[Hty Hhit]|[[Hty Hhit]|[[Hty Hhit]|[[Hty Hhit]|[Hty Hhit]]]]];
    destruct (firstHit_ids _ _ Hhit) as [others Hids];
    exists (map Js.IdStr others); (split; [reflexivity|]);
    rewrite Hty, Hids, Hid; simpl; rewrite !in_app_iff; simpl; tauto.
Qed.

Lemma refetch_is_redundant_witness :
  let env := envOf (inl "unused") (inr fiveResults) echoStore in
  exists before tableName others,
    storeQueries (fst (Controller.searchAll env None {| AllSearchQuery.query := "dune" |}))
    = before ++ [(tableName, [Js.IdStr "1"])]
    /\ In (tableName, Js.IdStr "1" :: others) before.
Proof.
  intros env.
  assert (Hbest : exists meta,
             Best.selectBest
               (Best.potentialBest
                  (resultOf [hitOf "1" (Some 8%Q) (Some 100%Q) None None] 1)
                  (resultOf [hitOf "2" (Some 4%Q) (Some 500%Q) None None] 1)
                  (resultOf [hitOf "3" (Some 2%Q) (Some 7%Q) None None] 1)
                  (resultOf [hitOf "4" (Some 2%Q) None (Some 3%Q) None] 1)
                  (resultOf [hitOf "5" (Some 1%Q) None None (Some 9%Q)] 1)) = Some meta
             /\ Best.id meta = "1")
    by (eexists; split; vm_compute; reflexivity).
  destruct Hbest as (meta & Hbest & Hid).
  destruct (refetch_is_redundant env None {| AllSearchQuery.query := "dune" |}
              _ _ _ _ _ [] meta eq_refl Hbest) as (before & tableName & others & H1 & H2).
  rewrite Hid in H1, H2. exists before, tableName, others. split; assumption.
Defined.

(** ** The multi-search answer *)

(** The failure of the multi-search step: the engine's error, or the type
    error of destructuring fewer than five results. *)
Lemma multi_failure (env : Env) (m : Endpoint.Multi) (err : string) :
  engine_multiSearch env (Endpoint.searches m) = inl err
  \/ (exists results,
        engine_multiSearch env (Endpoint.searches m) = inr results
        /\ (length results < 5)%nat /\ err = Controller.typeError) ->
  exists info,
    Endpoint.runMulti env m
    = ([LogInfo info; EngineMultiSearch (Endpoint.searches m);
        LogError err "All search failed"],
       Sent500 genericError).
Proof.
  intros [He|(results & He & Hlen & ->)].
  - destruct m as [userId r|userId r]; simpl in *; eexists.
    + unfold Controller.searchBestResult, handler, Controller.bestResultBody.
      unfold bind at 1. unfold Controller.multiSearch. rewrite He. reflexivity.
    + unfold Controller.searchAll, handler, Controller.allBody.
      unfold bind at 1. unfold Controller.multiSearch. rewrite He. reflexivity.
  - destruct results as [|r1 [|r2 [|r3 [|r4 [|r5 rest]]]]];
      try (simpl in Hlen; lia);
      destruct m as [userId r|userId r]; simpl in *; eexists.
    all: first
      [ unfold Controller.searchBestResult, handler, Controller.bestResultBody;
        unfold bind at 1; unfold Controller.multiSearch; rewrite He; reflexivity
      | unfold Controller.searchAll, handler, Controller.allBody;
        unfold bind at 1; unfold Controller.multiSearch; rewrite He; reflexivity ].
Qed.

(** X9.  When the multi-search rejects, or answers with fewer than five
    results, a multi-collection handler issues no store query, logs the
    error under the label of the multi-collection handlers and replies with
    the generic 500 error; the error is the engine's, or the type error of
    reading a missing result. *)
Theorem multi_engine_failure (env : Env) (m : Endpoint.Multi) :
  (forall e,
     engine_multiSearch env (Endpoint.searches m) = inl e ->
     exists info,
       Endpoint.runMulti env m
       = ([LogInfo info; EngineMultiSearch (Endpoint.searches m);
           LogError e "All search failed"],
          Sent500 genericError))
  /\ (forall results,
        engine_multiSearch env (Endpoint.searches m) = inr results ->
        (length results < 5)%nat ->
        exists info,
          Endpoint.runMulti env m
          = ([LogInfo info; EngineMultiSearch (Endpoint.searches m);
              LogError Controller.typeError "All search failed"],
             Sent500 genericError)).
Proof.
  split.
  - intros e He. apply multi_failure. now left.
  - intros results He Hlen. apply multi_failure. right. now exists results.
Qed.

Lemma multi_engine_failure_witness :
  let env := envOf (inl "unused") (inr [noHits; noHits; noHits]) echoStore in
  snd (Controller.searchAll env None {| AllSearchQuery.query := "dune" |})
  = Sent500 genericError
  /\ storeQueries
       (fst (Controller.searchAll env None {| AllSearchQuery.query := "dune" |})) = [].
Proof.
  intros env.
  destruct (multi_engine_failure env (Endpoint.All None {| AllSearchQuery.query := "dune" |}))
    as [_ Short].
  assert (Hlen : (length [noHits; noHits; noHits] < 5)%nat) by (simpl; lia).
  destruct (Short [noHits; noHits; noHits] eq_refl Hlen) as [info Heq].
  simpl Endpoint.runMulti in Heq. rewrite Heq. split; reflexivity.
Defined.

(** X10.  Only the first five results of the multi-search are read: two
    environments that agree on the store and whose multi-search answers
    agree on the first five results give the same trace and the same
    reply. *)
Theorem extra_results_ignored (env env' : Env) (m : Endpoint.Multi)
    (r1 r2 r3 r4 r5 : TypesenseSearchResult) (rest rest' : list TypesenseSearchResult) :
  engine_multiSearch env (Endpoint.searches m) = inr (r1 :: r2 :: r3 :: r4 :: r5 :: rest) ->
  engine_multiSearch env' (Endpoint.searches m)
  = inr (r1 :: r2 :: r3 :: r4 :: r5 :: rest') ->
  store_select env = store_select env' ->
  Endpoint.runMulti env m = Endpoint.runMulti env' m.
Proof.
  intros Hm Hm' Hs.
  destruct m as [userId r|userId r]; simpl in *.
  - unfold Controller.searchBestResult, Controller.bestResultBody.
    unfold handler. unfold bind at 1 7. unfold Controller.multiSearch.
    rewrite Hm, Hm'.
    unfold Controller.hydrateByIds, Controller.hydratePlaylists, Controller.select.
    rewrite Hs. reflexivity.
  - unfold Controller.searchAll, Controller.allBody.
    unfold handler. unfold bind at 1 8. unfold Controller.multiSearch.
    rewrite Hm, Hm'.
    unfold Controller.hydrateByIds, Controller.select.
    rewrite Hs. reflexivity.
Qed.

Lemma extra_results_ignored_witness :
  let q := {| AllSearchQuery.query := "dune" |} in
  Controller.searchAll (envOf (inl "unused") (inr (oneMovie ++ [noHits])) echoStore) None q
  = Controller.searchAll (envOf (inl "unused") (inr oneMovie) echoStore) None q.
Proof.
  intros q.
  exact (extra_results_ignored
           (envOf (inl "unused") (inr (oneMovie ++ [noHits])) echoStore)
           (envOf (inl "unused") (inr oneMovie) echoStore)
           (Endpoint.All None q) _ _ _ _ _ [noHits] [] eq_refl eq_refl eq_refl).
Defined.

(** ** The best result of a response *)

Lemma selectBest_none (r1 r2 r3 r4 r5 : TypesenseSearchResult) :
  Best.selectBest (Best.potentialBest r1 r2 r3 r4 r5) = None
  <-> Best.firstHit r1 = None /\ Best.firstHit r2 = None /\ Best.firstHit r3 = None
      /\ Best.firstHit r4 = None /\ Best.firstHit r5 = None.
Proof.
  split.
  - intros E.
    pose proof (loop_invariant
                  (Best.maxTextScore (Best.potentialBest r1 r2 r3 r4 r5))
                  (Best.maxPopularity (Best.potentialBest r1 r2 r3 r4 r5))
                  (Best.potentialBest r1 r2 r3 r4 r5)) as Inv.
    unfold Best.LoopInv in Inv.
    fold (Best.selectBest (Best.potentialBest r1 r2 r3 r4 r5)) in Inv.
    rewrite E in Inv. unfold Best.potentialBest in Inv.
    repeat split; match goal with
                  | |- Best.firstHit ?r = None =>
                      match type of Inv with
                      | context [(?ty, Best.firstHit r)] =>
                          apply (Inv (ty, Best.firstHit r)); simpl; tauto
                      end
                  end.
  - intros (H1 & H2 & H3 & H4 & H5).
    unfold Best.selectBest, Best.potentialBest. simpl.
    unfold Best.consider. simpl. now rewrite H1, H2, H3, H4, H5.
Qed.

(** X11.  In a 200 response of the best-results handler the best result is
    absent exactly when none of the five collections has a hit.  When it is
    present its type is the winner's type and its record is looked for in
    the list of that type in the same response: a record that is reported
    is an element of that list, and when that list is empty the best result
    is still reported, with its type and without a record. *)
Theorem best_result_presence (env : Env) (userId : option string)
    (r : BestResultsSearchQuery.t) (body : MultiBody) :
  snd (Controller.searchBestResult env userId r) = Sent200 body ->
  exists r1 r2 r3 r4 r5 rest,
    engine_multiSearch env
      (Build.bestResultSearches userId (BestResultsSearchQuery.query r)
         (BestResultsSearchQuery.results_per_type r))
    = inr (r1 :: r2 :: r3 :: r4 :: r5 :: rest)
    /\ (bestResult body = None
        <-> Best.firstHit r1 = None /\ Best.firstHit r2 = None
            /\ Best.firstHit r3 = None /\ Best.firstHit r4 = None
            /\ Best.firstHit r5 = None)
    /\ (forall best,
          bestResult body = Some best ->
          exists meta list,
            Best.selectBest (Best.potentialBest r1 r2 r3 r4 r5) = Some meta
            /\ br_type best = Best.type meta
            /\ pageFor body (br_type best) = Some list
            /\ (forall item, br_data best = Some item -> In item (data list))
            /\ (data list = [] -> br_data best = None)).
Proof.
  intros H. apply handler_sent in H as [t H].
  unfold Controller.bestResultBody in H.
  unfold bind at 1 in H. unfold Controller.multiSearch at 1 in H.
  destruct (engine_multiSearch env _) as [err|results] eqn:Em; [discriminate|].
  destruct results as [|r1 [|r2 [|r3 [|r4 [|r5 rest]]]]]; try discriminate H.
  do 5 run_start.
  destruct p as [?|h1], p0 as [?|h2], p1 as [?|h3], p2 as [?|h4], p3 as [?|h5];
    repeat run_await.
  unfold ret in H. injection H as _ <-.
  exists r1, r2, r3, r4, r5, rest. split; [reflexivity|]. simpl.
  split.
  - rewrite <- selectBest_none.
    destruct (Best.selectBest _); split; intros; congruence.
  - intros best Hbest.
    destruct (Best.selectBest (Best.potentialBest r1 r2 r3 r4 r5)) as [meta|] eqn:Es;
      [|discriminate].
    injection Hbest as <-. simpl.
    destruct (selectBest_origin _ _ _ _ _ _ Es) as (hit & _ & Horigin).
    exists meta.
    destruct Horigin as [[Hty _]|[[Hty _]|[[Hty _]|[[Hty _]|[Hty _]]]]];
      unfold pageFor, Controller.pickBest; rewrite Hty; simpl;
      eexists; (split; [reflexivity|]); (split; [reflexivity|]);
      (split; [reflexivity|]); simpl; split.
    all: try (intros item Hitem; apply find_some in Hitem as [Hin _]; exact Hin).
    all: intros ->; reflexivity.
Qed.

Lemma best_result_presence_witness :
  let env := envOf (inl "unused") (inr oneMovie) (fun _ _ => inr []) in
  let r := {| BestResultsSearchQuery.query := "dune";
              BestResultsSearchQuery.results_per_type := 5 |} in
  exists body,
    snd (Controller.searchBestResult env None r) = Sent200 body
    /\ bestResult body = Some {| br_type := "movie"; br_data := None |}.
Proof.
  intros env r.
  destruct (snd (Controller.searchBestResult env None r)) as [body|err] eqn:E;
    [|vm_compute in E; discriminate E].
  exists body. split; [reflexivity|].
  destruct (best_result_presence env None r body E)
    as (r1 & r2 & r3 & r4 & r5 & rest & Hm & _ & Hsome).
  vm_compute in E. injection E as <-. reflexivity.
Defined.

(** X12.  In a 200 response of the all-types handler the best result is the
    winner's type with the record the further lookup found for the winner's
    id: the last record of that answer whose id renders as the winner's id.
    When no collection has a hit, or when that answer has no such record,
    the best result is absent. *)
Theorem all_best_result (env : Env) (userId : option string)
    (r : AllSearchQuery.t) (body : MultiBody) :
  snd (Controller.searchAll env userId r) = Sent200 body ->
  exists r1 r2 r3 r4 r5 rest,
    engine_multiSearch env (Build.allSearches userId (AllSearchQuery.query r) 5)
    = inr (r1 :: r2 :: r3 :: r4 :: r5 :: rest)
    /\ match Best.selectBest (Best.potentialBest r1 r2 r3 r4 r5) with
       | None => bestResult body = None
       | Some meta =>
           exists answer,
             store_select env (Controller.getTableNameForType (Best.type meta)) "*"
               [Js.IdStr (Best.id meta)] = inr answer
             /\ bestResult body
                = option_map
                    (fun item => {| br_type := Best.type meta; br_data := Some item |})
                    (lastWith Controller.stringKey answer (Js.IdStr (Best.id meta)))
       end.
Proof.
  intros H. apply handler_sent in H as [t H].
  unfold Controller.allBody in H.
  unfold bind at 1 in H. unfold Controller.multiSearch at 1 in H.
  destruct (engine_multiSearch env _) as [err|results] eqn:Em; [discriminate|].
  destruct results as [|r1 [|r2 [|r3 [|r4 [|r5 rest]]]]]; try discriminate H.
  do 6 run_start.
  destruct p as [?|h1], p0 as [?|h2], p1 as [?|h3], p2 as [?|h4], p3 as [?|h5],
    p4 as [?|h6]; repeat run_await.
  unfold ret in H. injection H as _ <-.
  exists r1, r2, r3, r4, r5, rest. split; [reflexivity|]. simpl.
  destruct (Best.selectBest (Best.potentialBest r1 r2 r3 r4 r5)) as [meta|];
    [|reflexivity].
  unfold Controller.hydrateByIds in E4.
  rewrite length_zero_false in E4 by discriminate.
  unfold bind, Controller.select in E4.
  change (map Js.IdStr [Best.id meta]) with [Js.IdStr (Best.id meta)] in E4.
  destruct (store_select env _ "*" [Js.IdStr (Best.id meta)]) as [msg|answer];
    [discriminate|].
  exists answer. split; [reflexivity|].
  unfold ret in E4. injection E4 as _ <-.
  rewrite mapOf_lastWith.
  destruct (lastWith Controller.stringKey answer (Js.IdStr (Best.id meta)));
    reflexivity.
Qed.

Lemma all_best_result_witness :
  let env := envOf (inl "unused") (inr oneMovie) (fun _ _ => inr []) in
  exists body,
    snd (Controller.searchAll env None {| AllSearchQuery.query := "dune" |}) = Sent200 body
    /\ bestResult body = None.
Proof.
  intros env.
  destruct (snd (Controller.searchAll env None {| AllSearchQuery.query := "dune" |}))
    as [body|err] eqn:E; [|vm_compute in E; discriminate E].
  exists body. split; [reflexivity|].
  destruct (all_best_result env None {| AllSearchQuery.query := "dune" |} body E)
    as (r1 & r2 & r3 & r4 & r5 & rest & Hm & Hbest).
  injection Hm as <- <- <- <- <- <-.
  match type of Hbest with
  | match ?sel with _ => _ end =>
      assert (Hsel : exists meta, sel = Some meta /\ Best.id meta = "1")
        by (eexists; split; vm_compute; reflexivity)
  end.
  destruct Hsel as (meta & Hsel & Hid). rewrite Hsel in Hbest.
  destruct Hbest as (answer & Hanswer & ->).
  injection Hanswer as <-. reflexivity.
Defined.

(** ** What the handlers never ask the store *)

Lemma lookupOf_In (tableName : string) (ids : list Js.Id) (q : string * list Js.Id) :
  In q (Endpoint.lookupOf tableName ids) -> q = (tableName, ids) /\ ids <> [].
Proof.
  destruct ids as [|i ids]; simpl; [tauto|].
  intros [<-|[]]. split; [reflexivity | discriminate].
Qed.

Lemma lookupOf_length (tableName : string) (ids : list Js.Id) :
  (length (Endpoint.lookupOf tableName ids) <= 1)%nat.
Proof. destruct ids; simpl; lia. Qed.

Lemma five_or_fewer (results : list TypesenseSearchResult) :
  (length results < 5)%nat
  \/ exists r1 r2 r3 r4 r5 rest, results = r1 :: r2 :: r3 :: r4 :: r5 :: rest.
Proof.
  destruct results as [|r1 [|r2 [|r3 [|r4 [|r5 rest]]]]]; simpl;
    try (left; lia).
  right. now exists r1, r2, r3, r4, r5, rest.
Qed.

Lemma multi_queries_cases (env : Env) (m : Endpoint.Multi) :
  storeQueries (fst (Endpoint.runMulti env m)) = []
  \/ exists r1 r2 r3 r4 r5,
       storeQueries (fst (Endpoint.runMulti env m))
       = Endpoint.perTypeLookups m r1 r2 r3 r4 r5 ++ Endpoint.refetch m r1 r2 r3 r4 r5.
Proof.
  destruct (engine_multiSearch env (Endpoint.searches m)) as [e|results] eqn:Em.
  - left. destruct (multi_failure env m e (or_introl Em)) as [info ->]. reflexivity.
  - destruct (five_or_fewer results) as [Hlen|(r1 & r2 & r3 & r4 & r5 & rest & ->)].
    + left.
      destruct (multi_failure env m Controller.typeError
                  (or_intror (ex_intro _ results (conj Em (conj Hlen eq_refl)))))
        as [info ->].
      reflexivity.
    + right. exists r1, r2, r3, r4, r5.
      destruct m as [userId r|userId r]; simpl Endpoint.runMulti.
      * rewrite (best_results_queries env userId r r1 r2 r3 r4 r5 rest Em).
        simpl Endpoint.refetch. now rewrite app_nil_r.
      * exact (all_mode_queries env userId r r1 r2 r3 r4 r5 rest Em).
Qed.

(** X13.  No handler asks the store for an empty list of ids, and no
    handler asks a table other than its own: a single-collection handler
    issues at most one store query, to the table of its collection; a
    multi-collection handler issues at most five of them (six in the
    all-types mode), each to one of the five tables. *)
Theorem store_queries_well_formed (env : Env) :
  (forall s,
     (length (storeQueries (fst (Endpoint.run env s))) <= 1)%nat
     /\ forall q, In q (storeQueries (fst (Endpoint.run env s))) ->
                  fst q = Endpoint.table s /\ snd q <> [])
  /\ (forall m,
        (length (storeQueries (fst (Endpoint.runMulti env m)))
         <= match m with Endpoint.BestResults _ _ => 5 | Endpoint.All _ _ => 6 end)%nat
        /\ forall q, In q (storeQueries (fst (Endpoint.runMulti env m))) ->
                     In (fst q)
                       ["media_movie"; "media_tv_series"; "media_person"; "user";
                        "playlists"]
                     /\ snd q <> []).
Proof.
  split.
  - intros s. destruct (run_unfold env s) as [info ->].
    unfold handler, Controller.runSingle, bind, Controller.search, Controller.select.
    destruct (engine_search env _ _) as [e|res]; simpl; [split; [lia | tauto]|].
    destruct (Controller.idsOf res) as [|i ids] eqn:Hids; simpl;
      [split; [lia | tauto]|].
    assert (Hne : Endpoint.storeIds s (i :: ids) <> []) by (destruct s; discriminate).
    destruct (store_select env _ _ _) as [msg|data]; simpl;
      (split; [lia|]); intros q [<-|[]]; simpl; split; auto.
  - intros m.
    destruct (multi_queries_cases env m) as [->|(r1 & r2 & r3 & r4 & r5 & ->)].
    { split; [simpl; lia | intros q []]. }
    split.
    + rewrite length_app. unfold Endpoint.perTypeLookups. rewrite !length_app.
      pose proof (lookupOf_length "media_movie" (map Js.IdStr (Controller.idsOf r1))).
      pose proof (lookupOf_length "media_tv_series" (map Js.IdStr (Controller.idsOf r2))).
      pose proof (lookupOf_length "media_person" (map Js.IdStr (Controller.idsOf r3))).
      pose proof (lookupOf_length "user" (map Js.IdStr (Controller.idsOf r4))).
      destruct m as [userId r|userId r]; simpl Endpoint.refetch.
      * pose proof (lookupOf_length "playlists" (map Js.parseInt (Controller.idsOf r5))).
        simpl. lia.
      * pose proof (lookupOf_length "playlists" (map Js.IdStr (Controller.idsOf r5))).
        destruct (Best.selectBest _); simpl; lia.
    + intros q Hq. apply in_app_or in Hq as [Hq|Hq].
      * unfold Endpoint.perTypeLookups in Hq.
        repeat (apply in_app_or in Hq as [Hq|Hq]);
          apply lookupOf_In in Hq as [-> Hne]; simpl; tauto.
      * destruct m as [userId r|userId r]; simpl in Hq; [tauto|].
        destruct (Best.selectBest _) as [meta|] eqn:Es; [|destruct Hq].
        destruct Hq as [<-|[]]. simpl. split; [|discriminate].
        destruct (selectBest_origin _ _ _ _ _ _ Es) as (hit & _ & Horigin).
        destruct Horigin as [[-> _]|[[-> _]|[[-> _]|[[-> _]|[-> _]]]]]; simpl; tauto.
Qed.

Lemma store_queries_well_formed_witness :
  let env := envOf (inl "unused") (inr fiveResults) echoStore in
  let m := Endpoint.All None {| AllSearchQuery.query := "dune" |} in
  In ("media_movie", [Js.IdStr "1"]) (storeQueries (fst (Endpoint.runMulti env m)))
  /\ (length (storeQueries (fst (Endpoint.runMulti env m))) <= 6)%nat.
Proof.
  intros env m.
  destruct (store_queries_well_formed env) as [_ Multi].
  destruct (Multi m) as [Hlen _].
  split; [vm_compute; tauto | exact Hlen].
Defined.

(** ** The shape of a trace *)

Lemma hydrateByIds_events (env : Env) (tableName : string) (ids : list string)
    (t t' : list Event) (p : string + list StoreRecord) :
  Controller.hydrateByIds env tableName ids t = (t', p) ->
  exists evs, t' = t ++ evs /\ StoreOnly evs.
Proof.
  unfold Controller.hydrateByIds.
  destruct (Z.of_nat (length ids) =? 0).
  - intros [= <- _]. exists []. split; [now rewrite app_nil_r | constructor].
  - unfold bind, Controller.select.
    destruct (store_select env tableName "*" _) as [msg|data];
      intros [= <- _]; eexists; (split; [reflexivity|]); repeat constructor.
Qed.

Lemma hydratePlaylists_events (env : Env) (ids : list Js.Id)
    (t t' : list Event) (p : string + list StoreRecord) :
  Controller.hydratePlaylists env ids t = (t', p) ->
  exists evs, t' = t ++ evs /\ StoreOnly evs.
Proof.
  unfold Controller.hydratePlaylists.
  destruct (Z.of_nat (length ids) =? 0).
  - intros [= <- _]. exists []. split; [now rewrite app_nil_r | constructor].
  - unfold bind, Controller.select.
    destruct (store_select env "playlists" "*, user(*)" ids) as [msg|data];
      intros [= <- _]; eexists; (split; [reflexivity|]); repeat constructor.
Qed.

(** Collects the events of the started lookups into one list. *)
Ltac gather_events :=
  repeat match goal with
         | H : Controller.hydrateByIds _ _ _ _ = _ |- _ =>
             apply hydrateByIds_events in H as (? & -> & ?)
         | H : Controller.hydratePlaylists _ _ _ = _ |- _ =>
             apply hydratePlaylists_events in H as (? & -> & ?)
         end.

Lemma bestResultBody_events (env : Env) (userId : option string)
    (r : BestResultsSearchQuery.t) (t t' : list Event) (res : string + MultiBody) :
  Controller.bestResultBody env userId r t = (t', res) ->
  exists evs,
    t' = t ++ EngineMultiSearch
                (Endpoint.searches (Endpoint.BestResults userId r)) :: evs
    /\ StoreOnly evs.
Proof.
  unfold Controller.bestResultBody. simpl Endpoint.searches. intros H.
  unfold bind at 1 in H. unfold Controller.multiSearch at 1 in H.
  destruct (engine_multiSearch env _) as [err|results].
  { injection H as <- _. exists []. split; [reflexivity | constructor]. }
  destruct results as [|r1 [|r2 [|r3 [|r4 [|r5 rest]]]]];
    try (unfold throw in H; injection H as <- _; exists []; split;
         [reflexivity | constructor]).
  do 5 run_start. gather_events.
  destruct p as [?|h1], p0 as [?|h2], p1 as [?|h3], p2 as [?|h4], p3 as [?|h5];
    repeat run_await; unfold ret, throw in H; injection H as <- _;
    eexists; (split; [rewrite <- !app_assoc; simpl; reflexivity|]);
    unfold StoreOnly in *; rewrite !Forall_app; tauto.
Qed.

Lemma allBody_events (env : Env) (userId : option string)
    (r : AllSearchQuery.t) (t t' : list Event) (res : string + MultiBody) :
  Controller.allBody env userId r t = (t', res) ->
  exists evs,
    t' = t ++ EngineMultiSearch (Endpoint.searches (Endpoint.All userId r)) :: evs
    /\ StoreOnly evs.
Proof.
  unfold Controller.allBody. simpl Endpoint.searches. intros H.
  unfold bind at 1 in H. unfold Controller.multiSearch at 1 in H.
  destruct (engine_multiSearch env _) as [err|results].
  { injection H as <- _. exists []. split; [reflexivity | constructor]. }
  destruct results as [|r1 [|r2 [|r3 [|r4 [|r5 rest]]]]];
    try (unfold throw in H; injection H as <- _; exists []; split;
         [reflexivity | constructor]).
  do 6 run_start.
  assert (E4' : exists evs, t5 = t4 ++ evs /\ StoreOnly evs).
  { destruct (Best.selectBest _) as [meta|].
    - eapply hydrateByIds_events, E4.
    - unfold ret in E4. injection E4 as <- _. exists [].
      split; [now rewrite app_nil_r | constructor]. }
  clear E4. destruct E4' as (evs6 & -> & H6). gather_events.
  destruct p as [?|h1], p0 as [?|h2], p1 as [?|h3], p2 as [?|h4], p3 as [?|h5],
    p4 as [?|h6];
    repeat run_await; unfold ret, throw in H; injection H as <- _;
    eexists; (split; [rewrite <- !app_assoc; simpl; reflexivity|]);
    unfold StoreOnly in *; rewrite !Forall_app; tauto.
Qed.

(** X14.  The trace of every request has one shape: the [log.info], then
    exactly one engine call, then store queries only, and then either
    nothing, with a 200 reply, or one error log under the handler's label
    as the last event, with the generic 500 reply.  So an error is logged
    exactly when the reply is a 500, the engine is called once and before
    any store query, and nothing is done after an error is logged. *)
Theorem trace_shape (env : Env) :
  (forall s, exists info stores,
      StoreOnly stores
      /\ ((exists body,
             Endpoint.run env s
             = (LogInfo info
                  :: EngineSearch (Endpoint.collection s) (Endpoint.params s) :: stores,
                Sent200 body))
          \/ (exists err,
                Endpoint.run env s
                = (LogInfo info
                     :: EngineSearch (Endpoint.collection s) (Endpoint.params s)
                     :: stores ++ [LogError err (Endpoint.label s)],
                   Sent500 genericError))))
  /\ (forall m, exists info stores,
        StoreOnly stores
        /\ ((exists body,
               Endpoint.runMulti env m
               = (LogInfo info :: EngineMultiSearch (Endpoint.searches m) :: stores,
                  Sent200 body))
            \/ (exists err,
                  Endpoint.runMulti env m
                  = (LogInfo info
                       :: EngineMultiSearch (Endpoint.searches m)
                       :: stores ++ [LogError err "All search failed"],
                     Sent500 genericError)))).
Proof.
  split.
  - intros s. destruct (run_unfold env s) as [info ->]. exists info.
    unfold handler, Controller.runSingle, bind, Controller.search, Controller.select.
    destruct (engine_search env _ _) as [e|res]; simpl.
    { exists []. split; [constructor|]. right. now exists e. }
    destruct (Z.of_nat (length (Controller.idsOf res)) =? 0); simpl.
    { exists []. split; [constructor|]. left. eexists. reflexivity. }
    destruct (store_select env _ _ _) as [msg|data]; simpl;
      exists [StoreSelect (Endpoint.table s) (Endpoint.columns s)
                (Endpoint.storeIds s (Controller.idsOf res))];
      (split; [repeat constructor|]).
    + right. exists msg. reflexivity.
    + left. eexists. reflexivity.
  - intros m. destruct m as [userId r|userId r]; simpl Endpoint.runMulti.
    + unfold Controller.searchBestResult, handler.
      destruct (Controller.bestResultBody env userId r [LogInfo _])
        as [t [err|body]] eqn:E;
        apply bestResultBody_events in E as (evs & -> & Hevs);
        eexists _, evs; (split; [exact Hevs|]).
      * right. exists err. reflexivity.
      * left. exists body. reflexivity.
    + unfold Controller.searchAll, handler.
      destruct (Controller.allBody env userId r [LogInfo _])
        as [t [err|body]] eqn:E;
        apply allBody_events in E as (evs & -> & Hevs);
        eexists _, evs; (split; [exact Hevs|]).
      * right. exists err. reflexivity.
      * left. exists body. reflexivity.
Qed.

(** ** Ids as text and as numbers *)












(** ** The genre term and the presence of a filter *)

Lemma splitComma_nonempty (s : string) : Build.splitComma s <> [].
Proof.
  induction s as [|c s IH]; simpl; [discriminate|].
  destruct (Ascii.eqb c ","%char); [discriminate|].
  destruct (Build.splitComma s); [contradiction | discriminate].
Qed.






Lemma genre_term_shape (g : string) :
  g <> "" ->
  exists t,
    Build.genreTerm (Some g) = [t]
    /\ t = "genre_ids: ["
           +:+ Js.join "," (map Js.String_ (map Js.parseInt (Build.splitComma g)))
           +:+ "]".
Proof.
  intros Hg. eexists. split; [|reflexivity].
  unfold Build.genreTerm. rewrite (truthyStr_nonempty g Hg).
  destruct g as [|c g]; [congruence|]. cbn [String.length andb].
  change (0 <? Z.of_nat (S (String.length g))) with true. cbv iota.
  destruct (map Js.parseInt (Build.splitComma (String c g))) as [|x xs] eqn:E.
  - apply map_eq_nil in E. now destruct (splitComma_nonempty (String c g)).
  - reflexivity.
Qed.



Lemma joinFilters_none (filters : list string) :
  Build.joinFilters filters = None <-> filters = [].
Proof.
  unfold Build.joinFilters. destruct filters; simpl; split; congruence.
Qed.

Lemma rangeTerm_nil (field : string) (min max : option Z) :
  Build.rangeTerm field min max = []
  <-> Build.given min = false /\ Build.given max = false.
Proof.
  unfold Build.rangeTerm.
  destruct (Build.given min), (Build.given max); simpl; split;
    first [discriminate | tauto | intros [? ?]; discriminate].
Qed.

Lemma genreTerm_nil (g : option string) :
  Build.genreTerm g = [] <-> g = None \/ g = Some "".
Proof.
  destruct g as [[|c s]|].
  - split; [now right | reflexivity].
  - split.
    + assert (Hne : String c s <> "") by discriminate.
      destruct (genre_term_shape (String c s) Hne) as (t & Ht & _).
      rewrite Ht. discriminate.
    + intros [H|H]; discriminate.
  - split; [now left | reflexivity].
Qed.

(** X18.  When a search request carries a filter: the movie and TV-series
    searches send no [filter_by] exactly when the genre list is absent or
    empty and every bound is absent or zero; the person search never sends
    one; the user search sends none exactly when [exclude_ids] is absent or
    empty; the playlist search always sends one. *)
Theorem filter_presence :
  (forall r : MovieSearchQuery.t,
     filter_by (Build.movieParams r) = None
     <-> (MovieSearchQuery.genre_ids r = None \/ MovieSearchQuery.genre_ids r = Some "")
         /\ Build.given (MovieSearchQuery.runtime_min r) = false
         /\ Build.given (MovieSearchQuery.runtime_max r) = false
         /\ Build.given (MovieSearchQuery.release_date_min r) = false
         /\ Build.given (MovieSearchQuery.release_date_max r) = false)
  /\ (forall r : TvSeriesSearchQuery.t,
        filter_by (Build.tvParams r) = None
        <-> (TvSeriesSearchQuery.genre_ids r = None
             \/ TvSeriesSearchQuery.genre_ids r = Some "")
            /\ Build.given (TvSeriesSearchQuery.number_of_seasons_min r) = false
            /\ Build.given (TvSeriesSearchQuery.number_of_seasons_max r) = false
            /\ Build.given (TvSeriesSearchQuery.number_of_episodes_min r) = false
            /\ Build.given (TvSeriesSearchQuery.number_of_episodes_max r) = false
            /\ Build.given (TvSeriesSearchQuery.vote_average_min r) = false
            /\ Build.given (TvSeriesSearchQuery.vote_average_max r) = false
            /\ Build.given (TvSeriesSearchQuery.first_air_date_min r) = false
            /\ Build.given (TvSeriesSearchQuery.first_air_date_max r) = false)
  /\ (forall r : PersonSearchQuery.t, filter_by (Build.personParams r) = None)
  /\ (forall r : UserSearchQuery.t,
        filter_by (Build.userParams r) = None
        <-> UserSearchQuery.exclude_ids r = None
            \/ UserSearchQuery.exclude_ids r = Some "")
  /\ (forall (userId : option string) (r : PlaylistSearchQuery.t),
        filter_by (Build.playlistParams userId r)
        = Some (Build.getPlaylistPermissionFilter userId)).
Proof.
  split; [|split; [|split; [|split]]].
  - intros r. cbn [filter_by Build.movieParams]. rewrite joinFilters_none.
    unfold Build.movieFilters.
    rewrite !app_nil, genreTerm_nil, !rangeTerm_nil. tauto.
  - intros r. cbn [filter_by Build.tvParams]. rewrite joinFilters_none.
    unfold Build.tvFilters.
    rewrite !app_nil, genreTerm_nil, !rangeTerm_nil. tauto.
  - reflexivity.
  - intros r. cbn [filter_by Build.userParams].
    destruct (UserSearchQuery.exclude_ids r) as [[|c e]|]; simpl; split;
      first [discriminate | tauto | intros [?|?]; discriminate | now right | now left].
  - reflexivity.
Qed.

(** ** The Supabase plugin and the request hook *)

Lemma spread_lookup_right (a b : gmap string string) (k v : string) :
  b !! k = Some v -> Plugin.spread a b !! k = Some v.
Proof. intros H. unfold Plugin.spread. now apply lookup_union_Some_l. Qed.

Lemma spread_lookup_left (a b : gmap string string) (k : string) :
  b !! k = None -> Plugin.spread a b !! k = a !! k.
Proof. intros H. unfold Plugin.spread. now apply lookup_union_r. Qed.

Lemma requestOptions_headers (base : option Plugin.Options)
    (token extra : gmap string string) :
  Plugin.headersOf (Some (Plugin.requestOptions base token extra))
  = Plugin.spread (Plugin.spread (Plugin.headersOf base) token) extra.
Proof. reflexivity. Qed.

(** What one read of [request.supabaseClient] does, branch by branch. *)
Lemma getter_cases (o : Plugin.Opts) (fastify : Plugin.Instance)
    (lookupToken : Plugin.Request -> string + string) (req : Plugin.Request) :
  let read := Plugin.supabaseClientGetter o fastify lookupToken req in
  (exists c, Plugin._supabaseClient req = Some c
             /\ read = {| Plugin.after := req; Plugin.created := [];
                          Plugin.outcome := inr c |})
  \/ (Plugin._supabaseClient req = None
      /\ Plugin.roleOf req = Some "service_role"
      /\ Plugin.after read = Plugin.cache req (Plugin.supabaseClient fastify)
      /\ Plugin.created read = []
      /\ Plugin.outcome read
         = match Plugin.supabaseClient fastify with
           | Some c => inr c
           | None => inl Plugin.AuthorizationTokenInvalid
           end)
  \/ (Plugin._supabaseClient req = None
      /\ Plugin.roleOf req <> Some "service_role"
      /\ Plugin.bearsToken req = true
      /\ exists m, lookupToken req = inl m
                   /\ read = {| Plugin.after := req; Plugin.created := [];
                                Plugin.outcome := inl (Plugin.Thrown m) |})
  \/ (Plugin._supabaseClient req = None
      /\ Plugin.roleOf req <> Some "service_role"
      /\ exists token,
           (if Plugin.bearsToken req
            then exists t, lookupToken req = inr t
                           /\ token = {["Authorization" := "Bearer " +:+ t]}
            else token = ∅)
           /\ let c := {| Plugin.client_url := Plugin.url o;
                          Plugin.client_key := Plugin.anonKey o;
                          Plugin.client_options :=
                            Some (Plugin.requestOptions (Plugin.options o) token
                                    (Plugin.additionalHeadersOf
                                       (Plugin.extraHeaders o) req)) |} in
              read = {| Plugin.after := Plugin.cache req (Some c);
                        Plugin.created := [c]; Plugin.outcome := inr c |}).
Proof.
  unfold Plugin.supabaseClientGetter.
  destruct (Plugin._supabaseClient req) as [c|] eqn:Ecache; cbv zeta.
  { left. now exists c. }
  right. destruct (bool_decide (Plugin.roleOf req = Some "service_role")) eqn:Erole.
  { left. apply bool_decide_eq_true in Erole. repeat split; try assumption.
    - now destruct (Plugin.supabaseClient fastify).
    - now destruct (Plugin.supabaseClient fastify).
    - now destruct (Plugin.supabaseClient fastify). }
  right. apply bool_decide_eq_false in Erole.
  destruct (Plugin.bearsToken req) eqn:Ebears.
  - destruct (lookupToken req) as [m|t] eqn:Etoken.
    + left. repeat split; try assumption. now exists m.
    + right. repeat split; try assumption.
      exists {["Authorization" := "Bearer " +:+ t]}. split; [now exists t | reflexivity].
  - right. repeat split; try assumption. exists ∅. split; reflexivity.
Qed.

(** X19.  The client of a request is created at most once.  A read of
    [request.supabaseClient] that returns a client leaves that client in
    the request, creates at most that one client, and every later read
    returns the same client without creating another, whatever the user,
    the options or the token are by then.  A read that throws leaves the
    request without a client and creates none. *)
Theorem client_cached (o : Plugin.Opts) (fastify : Plugin.Instance)
    (lookupToken : Plugin.Request -> string + string) (req : Plugin.Request) :
  let read := Plugin.supabaseClientGetter o fastify lookupToken req in
  match Plugin.outcome read with
  | inr c =>
      Plugin._supabaseClient (Plugin.after read) = Some c
      /\ (Plugin.created read = [] \/ Plugin.created read = [c])
      /\ forall (o' : Plugin.Opts) (fastify' : Plugin.Instance)
           (lookupToken' : Plugin.Request -> string + string)
           (user' : option Plugin.User),
           let later := Plugin.withUser (Plugin.after read) user' in
           Plugin.supabaseClientGetter o' fastify' lookupToken' later
           = {| Plugin.after := later; Plugin.created := [];
                Plugin.outcome := inr c |}
  | inl _ =>
      Plugin._supabaseClient req = None
      /\ Plugin.after read = req
      /\ Plugin.created read = []
  end.
Proof.
  intros read.
  assert (Hlater : forall c, Plugin._supabaseClient (Plugin.after read) = Some c ->
            forall o' fastify' lookupToken' user',
              Plugin.supabaseClientGetter o' fastify' lookupToken'
                (Plugin.withUser (Plugin.after read) user')
              = {| Plugin.after := Plugin.withUser (Plugin.after read) user';
                   Plugin.created := []; Plugin.outcome := inr c |}).
  { intros c Hc o' fastify' lookupToken' user'.
    unfold Plugin.supabaseClientGetter. cbn [Plugin._supabaseClient Plugin.withUser].
    now rewrite Hc. }
  pose proof (getter_cases o fastify lookupToken req) as Hcases.
  cbv zeta in Hcases.
  change (Plugin.supabaseClientGetter o fastify lookupToken req) with read in Hcases.
  destruct Hcases
    as [(c & Hcache & Hread)|[(Hcache & Hrole & Hafter & Hcreated & Hout)
       |[(Hcache & Hrole & Hbears & m & Htoken & Hread)
        |(Hcache & Hrole & token & Htoken & Hread)]]].
  - rewrite Hread in *. cbn. split; [exact Hcache|]. split; [now left|].
    apply Hlater. exact Hcache.
  - rewrite Hout. destruct (Plugin.supabaseClient fastify) as [c|] eqn:Eservice.
    + assert (Hc : Plugin._supabaseClient (Plugin.after read) = Some c)
        by now rewrite Hafter.
      split; [exact Hc|]. split; [now left|]. now apply Hlater.
    + split; [exact Hcache|]. split; [|exact Hcreated].
      rewrite Hafter. destruct req. cbn in Hcache. now subst.
  - rewrite Hread. cbn. auto.
  - cbv zeta in Hread. rewrite Hread in *. cbn. split; [reflexivity|].
    split; [now right|]. now apply Hlater.
Qed.

(** X20.  Which client a request gets once the plugin is registered.  A
    request without a client whose user has the role [service_role] gets
    the shared client of the instance, made with the service key and the
    options as given, and no client is created.  Any other request gets a
    client of its own made with the anonymous key, or the read throws what
    the token lookup threw, which happens only when the user has a role
    that is not empty and not [anon].  The invalid-token error is never
    thrown. *)
Theorem client_selection (fastify0 fastify : Plugin.Instance) (o : Plugin.Opts)
    (service : Plugin.Client) (lookupToken : Plugin.Request -> string + string)
    (req : Plugin.Request) :
  Plugin.fastifySupabase fastify0 o = (fastify, service, None) ->
  Plugin._supabaseClient req = None ->
  let read := Plugin.supabaseClientGetter o fastify lookupToken req in
  Plugin.outcome read <> inl Plugin.AuthorizationTokenInvalid
  /\ (Plugin.roleOf req = Some "service_role" ->
      Plugin.outcome read = inr service
      /\ Plugin.created read = []
      /\ Plugin.client_key service = Plugin.serviceKey o
      /\ Plugin.client_options service = Plugin.options o)
  /\ (Plugin.roleOf req <> Some "service_role" ->
      forall c, Plugin.outcome read = inr c ->
        Plugin.created read = [c]
        /\ Plugin.client_url c = Plugin.url o
        /\ Plugin.client_key c = Plugin.anonKey o)
  /\ (forall e, Plugin.outcome read = inl e ->
        Plugin.bearsToken req = true
        /\ exists m, lookupToken req = inl m /\ e = Plugin.Thrown m).
Proof.
  intros Hreg Hcache read.
  assert (Hservice : Plugin.supabaseClient fastify = Some service
                     /\ Plugin.client_key service = Plugin.serviceKey o
                     /\ Plugin.client_options service = Plugin.options o).
  { unfold Plugin.fastifySupabase in Hreg.
    destruct (Plugin.supabaseClient fastify0); [discriminate|].
    injection Hreg as <- <-. cbn. auto. }
  destruct Hservice as (Hshared & Hkey & Hopts).
  pose proof (getter_cases o fastify lookupToken req) as Hcases.
  cbv zeta in Hcases.
  change (Plugin.supabaseClientGetter o fastify lookupToken req) with read in Hcases.
  destruct Hcases
    as [(c & Hc & _)|[(_ & Hrole & _ & Hcreated & Hout)
       |[(_ & Hrole & Hbears & m & Htoken & Hread)
        |(_ & Hrole & token & Htoken & Hread)]]].
  - congruence.
  - rewrite Hshared in Hout. rewrite Hout.
    split; [discriminate|]. split; [auto|]. split; [contradiction|]. discriminate.
  - rewrite Hread. cbn.
    split; [discriminate|]. split; [contradiction|]. split; [discriminate|].
    intros e He. injection He as <-. split; [exact Hbears|]. now exists m.
  - cbv zeta in Hread. rewrite Hread. cbn.
    split; [discriminate|]. split; [contradiction|].
    split; [|discriminate]. intros _ c Hc. injection Hc as <-. auto.
Qed.

Lemma client_selection_witness :
  let o := {| Plugin.url := "https://db"; Plugin.serviceKey := "service";
              Plugin.anonKey := "anon-key"; Plugin.options := None;
              Plugin.extraHeaders := Some Plugin.appExtraHeaders |} in
  let fastify0 := {| Plugin.supabaseClient := None;
                     Plugin.requestDecorators := ["user"] |} in
  let admin := {| Plugin.authorization := Some "Bearer x"; Plugin.language := None;
                  Plugin.user := Some {| Plugin.role := Some "service_role";
                                         Plugin.sub := None |};
                  Plugin._supabaseClient := None |} in
  exists fastify service,
    Plugin.fastifySupabase fastify0 o = (fastify, service, None)
    /\ Plugin.outcome (Plugin.supabaseClientGetter o fastify (fun _ => inr "x") admin)
       = inr service
    /\ Plugin.client_key service = "service".
Proof.
  intros o fastify0 admin.
  destruct (Plugin.fastifySupabase fastify0 o) as [[fastify service] e] eqn:Hreg.
  assert (He : e = None) by (vm_compute in Hreg; congruence). subst e.
  exists fastify, service. split; [reflexivity|].
  destruct (client_selection fastify0 fastify o service (fun _ => inr "x") admin Hreg eq_refl)
    as (_ & Hservice & _).
  destruct (Hservice eq_refl) as (Hout & _ & Hkey & _).
  split; [exact Hout|]. rewrite Hkey. reflexivity.
Defined.

(** X21.  The headers and the settings of a client made for a request (any
    request without a client whose role is not [service_role]).  The
    session is never persisted, and the other [auth] settings are those of
    the options.  A header from [extraHeaders] wins over every other.  When
    [extraHeaders] gives no [Authorization], that header is [Bearer]
    followed by the looked-up token if the user has a role that is not
    empty and not [anon], and is the one of the options otherwise.  Every
    other header that [extraHeaders] does not give is the one of the
    options. *)
Theorem request_client_headers (o : Plugin.Opts) (fastify : Plugin.Instance)
    (lookupToken : Plugin.Request -> string + string) (req : Plugin.Request)
    (c : Plugin.Client) :
  Plugin._supabaseClient req = None ->
  Plugin.roleOf req <> Some "service_role" ->
  Plugin.outcome (Plugin.supabaseClientGetter o fastify lookupToken req) = inr c ->
  let extra := Plugin.additionalHeadersOf (Plugin.extraHeaders o) req in
  let base := Plugin.headersOf (Plugin.options o) in
  (exists opts,
     Plugin.client_options c = Some opts
     /\ exists a,
          Plugin.auth opts = Some a
          /\ a !! "persistSession" = Some "false"
          /\ forall k, k <> "persistSession" ->
               a !! k = Plugin.authOf (Plugin.options o) !! k)
  /\ (forall k v, extra !! k = Some v -> Plugin.clientHeaders c !! k = Some v)
  /\ (extra !! "Authorization" = None ->
      if Plugin.bearsToken req
      then exists t, lookupToken req = inr t
                     /\ Plugin.clientHeaders c !! "Authorization"
                        = Some ("Bearer " +:+ t)
      else Plugin.clientHeaders c !! "Authorization" = base !! "Authorization")
  /\ (forall k, k <> "Authorization" -> extra !! k = None ->
        Plugin.clientHeaders c !! k = base !! k).
Proof.
  intros Hcache Hrole Hout extra base.
  destruct (getter_cases o fastify lookupToken req)
    as [(c' & Hc & _)|[(_ & Hrole' & _)
       |[(_ & _ & _ & m & _ & Hread)|(_ & _ & token & Htoken & Hread)]]].
  - congruence.
  - contradiction.
  - rewrite Hread in Hout. discriminate.
  - cbv zeta in Hread. rewrite Hread in Hout. cbn in Hout. injection Hout as <-.
    unfold Plugin.clientHeaders. cbn [Plugin.client_options].
    rewrite requestOptions_headers. fold extra. fold base.
    split.
    { eexists. split; [reflexivity|]. eexists. split; [reflexivity|].
      split; [apply lookup_insert_eq|].
      intros k Hk. apply lookup_insert_ne. congruence. }
    split; [intros k v Hk; now apply spread_lookup_right|].
    split.
    + intros Hnone. rewrite spread_lookup_left by exact Hnone.
      destruct (Plugin.bearsToken req).
      * destruct Htoken as (t & Ht & ->). exists t. split; [exact Ht|].
        apply spread_lookup_right. apply lookup_singleton_eq.
      * subst token. apply spread_lookup_left. apply lookup_empty.
    + intros k Hk Hnone. rewrite spread_lookup_left by exact Hnone.
      apply spread_lookup_left.
      destruct (Plugin.bearsToken req).
      * destruct Htoken as (t & _ & ->). apply lookup_singleton_ne. congruence.
      * subst token. apply lookup_empty.
Qed.

Lemma request_client_headers_witness :
  let o := {| Plugin.url := "https://db"; Plugin.serviceKey := "service";
              Plugin.anonKey := "anon-key"; Plugin.options := None;
              Plugin.extraHeaders := Some Plugin.appExtraHeaders |} in
  let fastify := {| Plugin.supabaseClient := None; Plugin.requestDecorators := [] |} in
  let req := {| Plugin.authorization := Some "Bearer tok"; Plugin.language := Some "fr";
                Plugin.user := Some {| Plugin.role := Some "authenticated";
                                       Plugin.sub := Some "u1" |};
                Plugin._supabaseClient := None |} in
  exists c,
    Plugin.outcome (Plugin.supabaseClientGetter o fastify (fun _ => inr "tok") req) = inr c
    /\ Plugin.clientHeaders c !! "language" = Some "fr"
    /\ exists t, Plugin.clientHeaders c !! "Authorization" = Some ("Bearer " +:+ t).
Proof.
  intros o fastify req.
  destruct (Plugin.outcome (Plugin.supabaseClientGetter o fastify (fun _ => inr "tok") req))
    as [e|c] eqn:Hout; [vm_compute in Hout; discriminate|].
  exists c. split; [reflexivity|].
  assert (Hrole : Plugin.roleOf req <> Some "service_role") by (vm_compute; discriminate).
  destruct (request_client_headers o fastify (fun _ => inr "tok") req c eq_refl Hrole Hout)
    as (_ & Hextra & Hauth & _).
  split; [apply Hextra; reflexivity|].
  destruct (Hauth eq_refl) as (t & _ & Ht). now exists t.
Defined.

(** X22.  Registering the plugin twice.  On an instance without a client
    the plugin installs the client made with the service key and reports no
    error.  Registering it again, with any options, reports that it is
    already registered and leaves the instance and its client as they
    were; the client for the new options is created all the same, before
    the check. *)
Theorem double_registration (fastify0 : Plugin.Instance) (o o' : Plugin.Opts) :
  Plugin.supabaseClient fastify0 = None ->
  exists fastify service second,
    Plugin.fastifySupabase fastify0 o = (fastify, service, None)
    /\ Plugin.supabaseClient fastify = Some service
    /\ service = {| Plugin.client_url := Plugin.url o;
                    Plugin.client_key := Plugin.serviceKey o;
                    Plugin.client_options := Plugin.options o |}
    /\ Plugin.fastifySupabase fastify o'
       = (fastify, second, Some Plugin.AlreadyRegistered)
    /\ second = {| Plugin.client_url := Plugin.url o';
                   Plugin.client_key := Plugin.serviceKey o';
                   Plugin.client_options := Plugin.options o' |}.
Proof.
  intros Hfresh. unfold Plugin.fastifySupabase. rewrite Hfresh.
  do 3 eexists. split; [reflexivity|]. cbn. auto.
Qed.

Lemma double_registration_witness :
  let fresh := {| Plugin.supabaseClient := None; Plugin.requestDecorators := ["user"] |} in
  let o := {| Plugin.url := "https://db"; Plugin.serviceKey := "k1";
              Plugin.anonKey := "a1"; Plugin.options := None;
              Plugin.extraHeaders := None |} in
  let o' := {| Plugin.url := "https://db"; Plugin.serviceKey := "k2";
               Plugin.anonKey := "a2"; Plugin.options := None;
               Plugin.extraHeaders := None |} in
  exists fastify second,
    fst (fst (Plugin.fastifySupabase fresh o)) = fastify
    /\ Plugin.fastifySupabase fastify o'
       = (fastify, second, Some Plugin.AlreadyRegistered)
    /\ option_map Plugin.client_key (Plugin.supabaseClient fastify) = Some "k1".
Proof.
  intros fresh o o'.
  destruct (double_registration fresh o o' eq_refl)
    as (fastify & service & second & Hfirst & Hclient & Hservice & Hsecond & _).
  exists fastify, second. rewrite Hfirst. split; [reflexivity|].
  split; [exact Hsecond|]. rewrite Hclient, Hservice. reflexivity.
Defined.

(** X23.  A request without credentials.  When the [authorization] header
    is missing or empty the hook verifies nothing and sends nothing, and
    the request is as it was.  With no user on the request, the playlist
    searches then filter on public playlists only, and the client of the
    request is made with the anonymous key, with no token looked up: its
    headers are those of the options overridden by the extra headers. *)
Theorem anonymous_request (jwtVerify : Plugin.Request -> string + Plugin.User)
    (o : Plugin.Opts) (fastify : Plugin.Instance)
    (lookupToken : Plugin.Request -> string + string) (req : Plugin.Request) :
  (Plugin.authorization req = None \/ Plugin.authorization req = Some "") ->
  Plugin.user req = None ->
  Plugin._supabaseClient req = None ->
  let hooked := Plugin.verifyApiKey jwtVerify req in
  hooked = (req, None)
  /\ Build.getPlaylistPermissionFilter (Plugin.subOf (fst hooked)) = "is_private:false"
  /\ exists c,
       Plugin.supabaseClientGetter o fastify lookupToken (fst hooked)
       = {| Plugin.after := Plugin.cache req (Some c); Plugin.created := [c];
            Plugin.outcome := inr c |}
       /\ Plugin.client_url c = Plugin.url o
       /\ Plugin.client_key c = Plugin.anonKey o
       /\ Plugin.clientHeaders c
          = Plugin.spread (Plugin.headersOf (Plugin.options o))
              (Plugin.additionalHeadersOf (Plugin.extraHeaders o) req).
Proof.
  intros Hheader Huser Hcache hooked.
  assert (Hhooked : hooked = (req, None)).
  { unfold hooked, Plugin.verifyApiKey. now destruct Hheader as [-> | ->]. }
  rewrite Hhooked. cbn [fst]. split; [reflexivity|].
  split; [unfold Plugin.subOf; now rewrite Huser|].
  unfold Plugin.supabaseClientGetter, Plugin.roleOf, Plugin.bearsToken, Plugin.roleOf.
  rewrite Hcache, Huser. cbv zeta.
  rewrite bool_decide_eq_false_2 by discriminate.
  eexists. split; [reflexivity|]. split; [reflexivity|]. split; [reflexivity|].
  unfold Plugin.clientHeaders. cbn [Plugin.client_options].
  rewrite requestOptions_headers. unfold Plugin.spread at 2.
  now rewrite (left_id_L ∅ (∪)).
Qed.

Lemma anonymous_request_witness :
  let o := {| Plugin.url := "https://db"; Plugin.serviceKey := "service";
              Plugin.anonKey := "anon-key"; Plugin.options := None;
              Plugin.extraHeaders := Some Plugin.appExtraHeaders |} in
  let fastify := {| Plugin.supabaseClient := None; Plugin.requestDecorators := [] |} in
  let req := {| Plugin.authorization := None; Plugin.language := Some "fr";
                Plugin.user := None; Plugin._supabaseClient := None |} in
  Plugin.verifyApiKey (fun _ => inl "never asked") req = (req, None)
  /\ exists c,
       Plugin.outcome (Plugin.supabaseClientGetter o fastify (fun _ => inl "never asked") req)
       = inr c
       /\ Plugin.client_key c = "anon-key".
Proof.
  intros o fastify req.
  destruct (anonymous_request (fun _ => inl "never asked") o fastify
              (fun _ => inl "never asked") req (or_introl eq_refl) eq_refl eq_refl)
    as (Hhook & _ & c & Hread & _ & Hkey & _).
  split; [exact Hhook|]. exists c. rewrite Hhook in Hread. cbn [fst] in Hread.
  rewrite Hread. split; [reflexivity | exact Hkey].
Defined.



(** ** Controller discovery *)

Lemma append_assoc (a b c : string) : (a +:+ b) +:+ c = a +:+ b +:+ c.
Proof.
  induction a as [|x a IH]; [reflexivity|].
  change (String x ((a +:+ b) +:+ c) = String x (a +:+ b +:+ c)). now rewrite IH.
Qed.

Lemma endsWith_refl (s : string) : App.endsWith s s = true.
Proof. destruct s; simpl; [reflexivity|]. now rewrite Ascii.eqb_refl, String.eqb_refl. Qed.

Lemma endsWith_append (a b suffix : string) :
  App.endsWith b suffix = true -> App.endsWith (a +:+ b) suffix = true.
Proof.
  intros H. induction a as [|c a IH]; [exact H|].
  change (String.eqb (String c (a +:+ b)) suffix || App.endsWith (a +:+ b) suffix
          = true).
  rewrite IH. apply orb_true_r.
Qed.

Lemma isController_append (a name : string) :
  App.isController name = true -> App.isController (a +:+ name) = true.
Proof.
  unfold App.isController. intros H. apply orb_true_iff in H as [H|H];
    apply orb_true_iff; [left | right]; now apply endsWith_append.
Qed.

Lemma pathOf_join (dirs : list string) (dir name : string) :
  App.pathOf dir dirs name = dir +:+ "/" +:+ Js.join "/" (dirs ++ [name]).
Proof.
  revert dir. induction dirs as [|d ds IH]; intros dir; [reflexivity|].
  change (App.pathOf dir (d :: ds) name) with (App.pathOf (App.pathJoin dir d) ds name).
  rewrite IH. unfold App.pathJoin.
  change (Js.join "/" ((d :: ds) ++ [name]))
    with (match ds ++ [name] with
          | [] => d
          | _ :: _ => d +:+ "/" +:+ Js.join "/" (ds ++ [name])
          end).
  destruct (ds ++ [name]) as [|x xs] eqn:E; [now destruct ds|].
  now rewrite !append_assoc.
Qed.

(** The files found below the entries of a directory are the controller
    files that lie under it. *)
Lemma visit_entries (dir : string) (entries : list App.Entry) :
  List.Forall
    (fun entry => forall dir path,
       In path (App.visit dir entry)
       <-> match entry with
           | App.File name => App.isController name = true /\ path = App.pathJoin dir name
           | App.Directory d sub =>
               exists dirs name,
                 App.holds sub dirs name /\ App.isController name = true
                 /\ path = App.pathOf (App.pathJoin dir d) dirs name
           end) entries ->
  forall path,
    In path (flat_map (App.visit dir) entries)
    <-> exists dirs name,
          App.holds entries dirs name /\ App.isController name = true
          /\ path = App.pathOf dir dirs name.
Proof.
  intros Hall path. rewrite List.Forall_forall in Hall. rewrite in_flat_map. split.
  - intros (entry & Hin & Hpath). apply (Hall entry Hin) in Hpath.
    destruct entry as [name|d sub].
    + destruct Hpath as [Hc ->]. exists [], name. auto.
    + destruct Hpath as (dirs & name & Hholds & Hc & ->).
      exists (d :: dirs), name. split; [|auto]. now exists sub.
  - intros (dirs & name & Hholds & Hc & ->). destruct dirs as [|d dirs].
    + exists (App.File name). split; [exact Hholds|].
      apply (Hall _ Hholds). auto.
    + destruct Hholds as (sub & Hin & Hholds). exists (App.Directory d sub).
      split; [exact Hin|]. apply (Hall _ Hin). now exists dirs, name.
Qed.

Lemma visit_entry (entry : App.Entry) (dir path : string) :
  In path (App.visit dir entry)
  <-> match entry with
      | App.File name => App.isController name = true /\ path = App.pathJoin dir name
      | App.Directory d sub =>
          exists dirs name,
            App.holds sub dirs name /\ App.isController name = true
            /\ path = App.pathOf (App.pathJoin dir d) dirs name
      end.
Proof.
  revert dir path. induction entry as [name|d sub IH] using App.Entry_induction;
    intros dir path.
  - simpl. destruct (App.isController name); simpl; split.
    + intros [<-|[]]. auto.
    + intros [_ ->]. now left.
    + intros [].
    + intros [? _]. discriminate.
  - change (App.visit dir (App.Directory d sub))
      with (flat_map (App.visit (App.pathJoin dir d)) sub).
    now apply visit_entries.
Qed.

(** X25.  Controller discovery is sound and complete: the paths that
    [getControllerFiles] returns for a directory are exactly the paths of
    the files, at any depth below it, whose name ends in [.controller.ts]
    or [.controller.js].  Every returned path starts with the directory and
    a slash and has one of the two endings itself; a directory whose name
    has such an ending is entered, not returned. *)
Theorem controller_files (dir : string) (entries : list App.Entry) (path : string) :
  (In path (App.getControllerFiles dir entries)
   <-> exists dirs name,
         App.holds entries dirs name /\ App.isController name = true
         /\ path = App.pathOf dir dirs name)
  /\ (In path (App.getControllerFiles dir entries) ->
      App.isController path = true
      /\ exists rest, path = dir +:+ "/" +:+ rest)
  /\ (forall name sub,
        App.visit dir (App.Directory name sub)
        = App.getControllerFiles (App.pathJoin dir name) sub).
Proof.
  assert (Hiff : In path (App.getControllerFiles dir entries)
                 <-> exists dirs name,
                       App.holds entries dirs name /\ App.isController name = true
                       /\ path = App.pathOf dir dirs name).
  { apply visit_entries. apply List.Forall_forall. intros entry _ dir' path'.
    apply visit_entry. }
  split; [exact Hiff|]. split; [|reflexivity].
  intros Hin. apply Hiff in Hin as (dirs & name & _ & Hc & ->). split.
  - unfold App.pathOf, App.pathJoin.
    apply isController_append, isController_append. exact Hc.
  - rewrite pathOf_join. eauto.
Qed.

Lemma splitSep_nonempty (s : string) : App.splitSep s <> [].
Proof.
  induction s as [|c s IH]; simpl; [discriminate|].
  destruct (Ascii.eqb c "/"%char); [discriminate|].
  destruct (App.splitSep s); [contradiction | discriminate].
Qed.

Lemma splitSep_plain (name : string) :
  App.plain name = true -> App.splitSep name = [name].
Proof.
  induction name as [|c name IH]; [reflexivity|]. simpl. intros H.
  apply andb_true_iff in H as [Hc Hrest]. apply negb_true_iff in Hc.
  now rewrite Hc, (IH Hrest).
Qed.

Lemma splitSep_append (name tail : string) :
  App.plain name = true ->
  App.splitSep (name +:+ "/" +:+ tail) = name :: App.splitSep tail.
Proof.
  induction name as [|c name IH]; intros H.
  - reflexivity.
  - simpl in H. apply andb_true_iff in H as [Hc Hrest]. apply negb_true_iff in Hc.
    change ((if Ascii.eqb c "/"%char then "" :: App.splitSep (name +:+ "/" +:+ tail)
             else match App.splitSep (name +:+ "/" +:+ tail) with
                  | x :: xs => String c x :: xs
                  | [] => [String c ""]
                  end) = String c name :: App.splitSep tail).
    now rewrite Hc, (IH Hrest).
Qed.

Lemma splitSep_join (names : list string) :
  names <> [] ->
  Forall (fun name => App.plain name = true) names ->
  App.splitSep (Js.join "/" names) = names.
Proof.
  induction names as [|name names IH]; [congruence|]. intros _ Hplain.
  apply Forall_cons_1 in Hplain as [Hname Hrest].
  destruct names as [|name' names].
  - simpl. now apply splitSep_plain.
  - change (Js.join "/" (name :: name' :: names))
      with (name +:+ "/" +:+ Js.join "/" (name' :: names)).
    rewrite splitSep_append by exact Hname. f_equal. now apply IH.
Qed.

Lemma stripPrefix_append (prefix rest : string) :
  App.stripPrefix prefix (prefix +:+ rest) = Some rest.
Proof.
  induction prefix as [|c prefix IH]; [reflexivity|].
  simpl. now rewrite Ascii.eqb_refl.
Qed.

(** X26.  The prefix of a discovered controller.  A controller file that
    lies under the directories [dirs] of the [api] directory, all names
    being without a slash, is found by the discovery, its path relative to
    the [api] directory is the names joined by slashes, and the prefix
    computed for its registration is a slash and the first directory
    name; for a controller file directly in the [api] directory it is a
    slash and the file's own name. *)
Theorem controller_prefix (api : string) (entries : list App.Entry)
    (dirs : list string) (name : string) :
  App.holds entries dirs name ->
  App.isController name = true ->
  Forall (fun d => App.plain d = true) dirs ->
  App.plain name = true ->
  let filePath := App.pathOf api dirs name in
  In filePath (App.getControllerFiles api entries)
  /\ App.relative api filePath = Some (Js.join "/" (dirs ++ [name]))
  /\ App.prefixOf api filePath = Some ("/" +:+ hd name dirs).
Proof.
  intros Hholds Hc Hdirs Hname filePath.
  assert (Hrel : App.relative api filePath = Some (Js.join "/" (dirs ++ [name]))).
  { unfold filePath, App.relative. rewrite pathOf_join, <- append_assoc.
    apply stripPrefix_append. }
  split.
  { apply visit_entries.
    - apply List.Forall_forall. intros entry _ dir' path'. apply visit_entry.
    - now exists dirs, name. }
  split; [exact Hrel|].
  unfold App.prefixOf. rewrite Hrel. do 2 f_equal.
  rewrite splitSep_join.
  - unfold App.version. destruct dirs as [|d ds]; simpl.
    + now destruct name.
    + now destruct d.
  - now destruct dirs.
  - apply Forall_app. split; [exact Hdirs|]. now apply Forall_singleton.
Qed.

Lemma controller_prefix_witness :
  let tree :=
    [ App.Directory "v1"
        [ App.Directory "search"
            [ App.File "search.controller.ts"; App.File "search.schema.ts" ] ];
      App.File "health.controller.js" ] in
  App.getControllerFiles "/app/api" tree
  = ["/app/api/v1/search/search.controller.ts"; "/app/api/health.controller.js"]
  /\ App.prefixOf "/app/api" "/app/api/v1/search/search.controller.ts" = Some "/v1"
  /\ App.prefixOf "/app/api" "/app/api/health.controller.js"
     = Some "/health.controller.js".
Proof.
  intros tree. split; [reflexivity|].
  assert (Hnested : App.holds tree ["v1"; "search"] "search.controller.ts").
  { simpl. eexists. split; [now left|]. eexists. split; [now left|]. now left. }
  assert (Hdirs : Forall (fun d => App.plain d = true) ["v1"; "search"])
    by (repeat constructor).
  assert (Htop : App.holds tree [] "health.controller.js") by (simpl; auto).
  split.
  - exact (proj2 (proj2 (controller_prefix "/app/api" tree ["v1"; "search"]
                           "search.controller.ts" Hnested eq_refl Hdirs eq_refl))).
  - exact (proj2 (proj2 (controller_prefix "/app/api" tree [] "health.controller.js"
                           Htop eq_refl (Forall_nil_2 _) eq_refl))).
Defined.

(** ** The range of the hybrid score *)

Lemma Qdiv_range (x m : Q) :
  (0 <= x)%Q -> (x <= m)%Q -> (1 <= m)%Q -> (0 <= x / m)%Q /\ (x / m <= 1)%Q.
Proof.
  intros H0 Hle Hm.
  assert (Hpos : (0 < m)%Q) by (eapply Qlt_le_trans; [|exact Hm]; reflexivity).
  split.
  - apply Qle_shift_div_l; [exact Hpos|]. now rewrite Qmult_0_l.
  - apply Qle_shift_div_r; [exact Hpos|]. now rewrite Qmult_1_l.
Qed.

Lemma Qdiv_mono (x y m : Q) : (1 <= m)%Q -> (x <= y)%Q -> (x / m <= y / m)%Q.
Proof.
  intros Hm Hle.
  assert (Hpos : (0 < m)%Q) by (eapply Qlt_le_trans; [|exact Hm]; reflexivity).
  apply Qmult_le_compat_r; [exact Hle|]. apply Qinv_le_0_compat. now apply Qlt_le_weak.
Qed.

Lemma Qdiv_self (x m : Q) : (1 <= m)%Q -> x == m -> x / m == 1.
Proof.
  intros Hm ->. apply Qmult_inv_r. intros Hz. rewrite Hz in Hm. now apply Hm.
Qed.

Lemma weighted_mono (a a' b b' : Q) :
  (a <= a')%Q -> (b <= b')%Q ->
  (a * (9 # 10) + b * (1 # 10) <= a' * (9 # 10) + b' * (1 # 10))%Q.
Proof.
  intros Ha Hb. apply Qplus_le_compat; apply Qmult_le_compat_r; try assumption;
    discriminate.
Qed.

(** X27.  The range of the hybrid score.  A candidate hit whose relevance
    and popularity are not negative gets a hybrid score between 0 and 1,
    and exactly 1 when its relevance is the [maxText] and its popularity
    the [maxPop] of the candidates.  A hit that is no better than it on
    either measure never scores higher than it. *)
Theorem hybrid_score_range (cs : list Best.Candidate) (h : TypesenseHit) :
  In h (Best.allHits cs) ->
  (0 <= Best.textScore h)%Q ->
  (0 <= Best.popularityMetric (document h))%Q ->
  (0 <= Best.hybridIn cs h)%Q
  /\ (Best.hybridIn cs h <= 1)%Q
  /\ (Best.textScore h == Best.maxTextScore cs ->
      Best.popularityMetric (document h) == Best.maxPopularity cs ->
      Best.hybridIn cs h == 1)
  /\ (forall h' : TypesenseHit,
        (Best.textScore h' <= Best.textScore h)%Q ->
        (Best.popularityMetric (document h') <= Best.popularityMetric (document h))%Q ->
        (Best.hybridIn cs h' <= Best.hybridIn cs h)%Q).
Proof.
  intros Hin Htext Hpop.
  assert (HmT : (1 <= Best.maxTextScore cs)%Q) by apply mathMax1_ge_one.
  assert (HmP : (1 <= Best.maxPopularity cs)%Q) by apply mathMax1_ge_one.
  assert (HT : (Best.textScore h <= Best.maxTextScore cs)%Q).
  { apply mathMax1_upper. now apply in_map. }
  assert (HP : (Best.popularityMetric (document h) <= Best.maxPopularity cs)%Q).
  { apply mathMax1_upper.
    exact (in_map (fun x => Best.popularityMetric (document x)) _ _ Hin). }
  destruct (Qdiv_range _ _ Htext HT HmT) as [Ht0 Ht1].
  destruct (Qdiv_range _ _ Hpop HP HmP) as [Hp0 Hp1].
  unfold Best.hybridIn, Best.hybridScore. cbv zeta.
  split; [|split; [|split]].
  - apply (Qle_trans _ (0 * (9 # 10) + 0 * (1 # 10))); [discriminate|].
    now apply weighted_mono.
  - apply (Qle_trans _ (1 * (9 # 10) + 1 * (1 # 10))); [|discriminate].
    now apply weighted_mono.
  - intros Et Ep. rewrite (Qdiv_self _ _ HmT Et), (Qdiv_self _ _ HmP Ep). reflexivity.
  - intros h' Ht' Hp'. apply weighted_mono; now apply Qdiv_mono.
Qed.

Lemma hybrid_score_range_witness :
  let A := hitOf "a" (Some 8%Q) (Some 100%Q) None None in
  let B := hitOf "b" (Some 4%Q) (Some 500%Q) None None in
  let cs := Best.potentialBest (resultOf [A] 1) (resultOf [B] 1) noHits noHits noHits in
  (0 <= Best.hybridIn cs A)%Q /\ (Best.hybridIn cs A <= 1)%Q.
Proof.
  intros A B cs.
  assert (Hin : In A (Best.allHits cs)) by (left; reflexivity).
  assert (Ht : (0 <= Best.textScore A)%Q) by discriminate.
  assert (Hp : (0 <= Best.popularityMetric (document A))%Q) by discriminate.
  destruct (hybrid_score_range cs A Hin Ht Hp) as (H0 & H1 & _).
  split; [exact H0 | exact H1].
Defined.
